(** * DICAT anonymizer pipeline: a shallow embedding of [anonymizer_methods.py]

    The development follows the Python module function by function.

    - Python byte strings are [string]; paths are strings, as the program
      builds them by concatenation, [os.path.join] and [str.replace].
    - [dicom_fields] is a dictionary from tag names to small dictionaries
      with the keys ['Description'], ['Editable'], ['Value'] and ['Update'].
      The outer dictionary is an association list whose order is the
      iteration order of the dictionary (keys are pairwise distinct in a
      Python dictionary); the inner dictionary is a record of optional
      fields, [None] meaning that the key is absent.
    - A DICOM file is identified with its header data set, a finite map from
      element keywords to values.
    - The file system is a finite map from resolved paths (lists of
      components) to nodes.  A path string is resolved by splitting it at
      the separator and dropping empty components; the components [.] and
      [..] and symbolic links are not interpreted.
    - [sys.exit] and uncaught exceptions are the two abnormal outcomes of
      a call; effects on the file system that happened before them stay.
    - The calls of [os], [shutil] and PyDICOM are modelled on this file
      system: permissions and disk errors are absent, [shutil.move] is
      modelled for regular files (the program moves nothing else), and
      [shutil.make_archive] expects the parent of the archive to exist.
      The archiver of [zipDicom] and the DCMTK commands are parameters of
      the pipelines. *)

From Stdlib Require Import String Ascii.
From stdpp Require Import gmap strings list fin_maps.

Open Scope string_scope.
Open Scope list_scope.

#[local] Set Warnings "-register-all".

(** ** Outcomes of a call *)

Inductive exn : Type :=
  | KeyError (key : string)
  | NameError (name : string)
  | IndexError
  | OSError (path : string)
  | IOError (path : string)
  | ShutilError (path : string)
  | InvalidDicomError (path : string)
  | CalledProcessError (cmd : string).

Inductive outcome (A : Type) : Type :=
  | Ok (a : A)
  | Exit (msg : string)
  | Raise (e : exn).

Arguments Ok {A} a.
Arguments Exit {A} msg.
Arguments Raise {A} e.

Definition is_ok {A} (o : outcome A) : bool :=
  match o with Ok _ => true | _ => false end.

(** ** String helpers of the Python runtime *)

Definition sep_char : ascii := "/"%char.
Definition sep : string := "/".
Definition dquote : string := String "034"%char EmptyString.
Definition newline : string := String "010"%char EmptyString.

Definition is_empty_string (s : string) : bool :=
  match s with EmptyString => true | _ => false end.

(** [s.split('/')]: every component, empty ones included. *)
Fixpoint components (s : string) : list string :=
  match s with
  | EmptyString => [EmptyString]
  | String c s' =>
      if Ascii.eqb c sep_char then EmptyString :: components s'
      else match components s' with
           | h :: t => String c h :: t
           | [] => [String c EmptyString]
           end
  end.

(** Resolution of a path string to its components. *)
Definition split_path (s : string) : list string :=
  List.filter (fun c => negb (is_empty_string c)) (components s).

Definition resolve (p : string) : option (list string) :=
  if is_empty_string p then None else Some (split_path p).

(** [s.startswith(t)] is [String.prefix t s]. *)
Fixpoint ends_with (suf s : string) : bool :=
  String.eqb suf s ||
  match s with
  | EmptyString => false
  | String _ s' => ends_with suf s'
  end.

(** [t in s] for strings. *)
Fixpoint occurs (t s : string) : bool :=
  String.prefix t s ||
  match s with
  | EmptyString => false
  | String _ s' => occurs t s'
  end.

(** [posixpath.join(a, b)]. *)
Definition path_join (a b : string) : string :=
  if String.prefix sep b then b
  else if is_empty_string a || ends_with sep a then a +:+ b
  else a +:+ sep +:+ b.

(** [posixpath.basename(p)]. *)
Definition basename (p : string) : string :=
  default EmptyString (last (components p)).

(** [s.rstrip('/')]. *)
Fixpoint rstrip_sep (s : string) : string :=
  match s with
  | EmptyString => EmptyString
  | String c s' =>
      let r := rstrip_sep s' in
      if is_empty_string r && Ascii.eqb c sep_char then EmptyString
      else String c r
  end.

(** [s.replace(old, new)] for a non-empty [old]: [skip] counts the
    characters of a match that was just replaced. *)
Fixpoint replace_from (skip : nat) (old new s : string) : string :=
  match s with
  | EmptyString => EmptyString
  | String c s' =>
      match skip with
      | S k => replace_from k old new s'
      | O =>
          if String.prefix old s
          then new +:+ replace_from (String.length old - 1) old new s'
          else String c (replace_from 0 old new s')
      end
  end.

(** With an empty [old], Python inserts [new] before every character and
    at the end. *)
Fixpoint intersperse_new (new s : string) : string :=
  match s with
  | EmptyString => new
  | String c s' => new +:+ String c (intersperse_new new s')
  end.

Definition str_replace (s old new : string) : string :=
  if is_empty_string old then intersperse_new new s
  else replace_from 0 old new s.

(** ** The exclusion pattern of [GrepDicomsFromFolder]

    [re.compile("\.bmp$|\.png$|\.zip$|\.txt$|\.jpeg$|\.pdf$|\.DS_Store")]
    used with [search]: [$] matches at the end of the string and before a
    final newline; the last alternative is not anchored. *)

Definition ends_dollar (suf s : string) : bool :=
  ends_with suf s || ends_with (suf +:+ newline) s.

Definition pattern_search (name : string) : bool :=
  ends_dollar ".bmp" name
  || ends_dollar ".png" name
  || ends_dollar ".zip" name
  || ends_dollar ".txt" name
  || ends_dollar ".jpeg" name
  || ends_dollar ".pdf" name
  || occurs ".DS_Store" name.

(** ** Data model *)

(** A DICOM header: element keyword to value. *)
Abbreviation dataset := (gmap string string).

(** What a file holds.  An archive lists its members with their paths
    relative to the archived directory. *)
Inductive fcontent : Type :=
  | Dicom (ds : dataset)
  | Raw (bytes : string)
  | Archive (members : list (list string * fcontent)).

(** A directory tree as [os.walk] sees it: the entries of a directory in
    [os.listdir] order. *)
Inductive node : Type :=
  | File (name : string) (c : fcontent)
  | Dir (name : string) (children : list node).

Definition node_name (n : node) : string :=
  match n with File name _ => name | Dir name _ => name end.

Definition is_dir (n : node) : bool :=
  match n with Dir _ _ => true | File _ _ => false end.

(** The inner dictionary of a field. *)
Record entry : Type := mkEntry {
  Description : option string;
  Editable : option bool;
  Value : option string;
  Update : option bool
}.

Definition set_Value (e : entry) (v : string) : entry :=
  {| Description := Description e; Editable := Editable e;
     Value := Some v; Update := Update e |}.

Abbreviation dict := (list (string * entry)).

(** [d[key]] on the outer dictionary. *)
Fixpoint dict_get (d : dict) (key : string) : option entry :=
  match d with
  | [] => None
  | (k, e) :: d' => if String.eqb k key then Some e else dict_get d' key
  end.

(** [d[key] = e]: replaces the entry of an existing key where it is.  A new
    key is put at the end; where a new key comes in the iteration order of
    a Python 2 dictionary is not determined by the insertions, and no
    statement of this development depends on that position. *)
Fixpoint dict_set (d : dict) (key : string) (e : entry) : dict :=
  match d with
  | [] => [(key, e)]
  | (k, e') :: d' =>
      if String.eqb k key then (k, e) :: d' else (k, e') :: dict_set d' key e
  end.

(** ** File system and world *)

Inductive fnode : Type :=
  | FDir
  | FFile (c : fcontent).

Abbreviation fsmap := (gmap (list string) fnode).

(** The world: the file system, and the paths handed to the DICOM reader
    so far. *)
Record world : Type := mkWorld {
  fs : fsmap;
  opened : list string
}.

Definition set_fs (f : fsmap -> fsmap) (w : world) : world :=
  {| fs := f (fs w); opened := opened w |}.

Definition parent (k : list string) : list string := removelast k.

Fixpoint strip_prefix (p k : list string) : option (list string) :=
  match p, k with
  | [], _ => Some k
  | a :: p', b :: k' => if String.eqb a b then strip_prefix p' k' else None
  | _ :: _, [] => None
  end.

Definition child_name (dir : list string) (kv : list string * fnode)
  : option string :=
  match strip_prefix dir kv.1 with
  | Some [n] => Some n
  | _ => None
  end.

Definition children_names (m : fsmap) (dir : list string) : list string :=
  omap (child_name dir) (map_to_list m).

Definition member_of (dir : list string) (kv : list string * fnode)
  : option (list string * fcontent) :=
  match strip_prefix dir kv.1, kv.2 with
  | Some (n :: rel), FFile c => Some (n :: rel, c)
  | _, _ => None
  end.

Definition archive_members (m : fsmap) (dir : list string)
  : list (list string * fcontent) :=
  omap (member_of dir) (map_to_list m).

Definition under (dir k : list string) : bool :=
  match strip_prefix dir k with Some _ => true | None => false end.

Definition remove_tree (dir : list string) (m : fsmap) : fsmap :=
  filter (fun kv => under dir kv.1 = false) m.

(** The file system that holds [tree] at [base]. *)
Fixpoint fs_of_node (base : list string) (n : node) (m : fsmap) : fsmap :=
  match n with
  | File name c => <[base ++ [name] := FFile c]> m
  | Dir name children =>
      foldr (fs_of_node (base ++ [name])) (<[base ++ [name] := FDir]> m)
            children
  end.

Definition fs_of_tree (base : list string) (tree : list node) (m : fsmap)
  : fsmap :=
  foldr (fs_of_node base) m tree.

Fixpoint ancestors (k : list string) : list (list string) :=
  match k with
  | [] => [[]]
  | a :: k' => [] :: List.map (cons a) (ancestors k')
  end.

Definition dirs_at (ks : list (list string)) : fsmap :=
  foldr (fun k m => <[k := FDir]> m) ∅ ks.

(** The world in which [dicom_folder] is a directory holding [tree]. *)
Definition init_world (dicom_folder : string) (tree : list node) : world :=
  {| fs := fs_of_tree (split_path dicom_folder) tree
             (dirs_at (ancestors (split_path dicom_folder)));
     opened := [] |}.

(** ** The monad of calls: state passing with abnormal outcomes *)

Definition M (A : Type) : Type := world -> outcome A * world.

Definition ret {A} (a : A) : M A := fun w => (Ok a, w).

Definition bind {A B} (m : M A) (k : A -> M B) : M B :=
  fun w =>
    match m w with
    | (Ok a, w') => k a w'
    | (Exit msg, w') => (Exit msg, w')
    | (Raise e, w') => (Raise e, w')
    end.

Definition raise {A} (e : exn) : M A := fun w => (Raise e, w).
Definition sys_exit {A} (msg : string) : M A := fun w => (Exit msg, w).

Definition lift {A} (o : outcome A) : M A := fun w => (o, w).

Declare Scope call_scope.
Delimit Scope call_scope with call.
Notation "x <- m ;; k" := (bind m (fun x => k))
  (at level 100, m at next level, right associativity) : call_scope.
Notation "m ;;; k" := (bind m (fun _ => k))
  (at level 100, right associativity) : call_scope.
Open Scope call_scope.

(** [for x in l: body]. *)
Fixpoint for_each {A} (l : list A) (body : A -> M unit) : M unit :=
  match l with
  | [] => ret tt
  | x :: l' => body x ;;; for_each l' body
  end.

(** ** Operating-system and library calls on the world *)

Definition node_at (m : fsmap) (p : string) : option fnode :=
  match resolve p with
  | Some k => m !! k
  | None => None
  end.

Definition path_exists (m : fsmap) (p : string) : bool :=
  match node_at m p with Some _ => true | None => false end.

Definition path_isdir (m : fsmap) (p : string) : bool :=
  match node_at m p with Some FDir => true | _ => false end.

(** Two paths name the same existing file. *)
Definition samefile (m : fsmap) (p q : string) : bool :=
  match resolve p, resolve q with
  | Some k, Some k' =>
      bool_decide (k = k') && path_exists m p
  | _, _ => false
  end.

Definition os_path_exists (p : string) : M bool :=
  fun w => (Ok (path_exists (fs w) p), w).

Definition os_path_isdir (p : string) : M bool :=
  fun w => (Ok (path_isdir (fs w) p), w).

Definition os_listdir (p : string) : M (list string) :=
  fun w =>
    match resolve p with
    | Some k =>
        match fs w !! k with
        | Some FDir => (Ok (children_names (fs w) k), w)
        | _ => (Raise (OSError p), w)
        end
    | None => (Raise (OSError p), w)
    end.

(** [os.mkdir(p, 0755)]: the path must be new and its parent a directory. *)
Definition os_mkdir (p : string) : M unit :=
  fun w =>
    match resolve p with
    | Some k =>
        match fs w !! k with
        | Some _ => (Raise (OSError p), w)
        | None =>
            match fs w !! parent k with
            | Some FDir => (Ok tt, set_fs (insert k FDir) w)
            | _ => (Raise (OSError p), w)
            end
        end
    | None => (Raise (OSError p), w)
    end.

Definition read_content (p : string) : M fcontent :=
  fun w =>
    match node_at (fs w) p with
    | Some (FFile c) => (Ok c, w)
    | _ => (Raise (IOError p), w)
    end.

(** Creating or overwriting a regular file. *)
Definition write_file (p : string) (c : fcontent) : M unit :=
  fun w =>
    match resolve p with
    | Some k =>
        match fs w !! k with
        | Some FDir => (Raise (IOError p), w)
        | _ =>
            match fs w !! parent k with
            | Some FDir => (Ok tt, set_fs (insert k (FFile c)) w)
            | _ => (Raise (IOError p), w)
            end
        end
    | None => (Raise (IOError p), w)
    end.

Definition os_unlink (p : string) : M unit :=
  fun w =>
    match resolve p with
    | Some k =>
        match fs w !! k with
        | Some (FFile _) => (Ok tt, set_fs (delete k) w)
        | _ => (Raise (OSError p), w)
        end
    | None => (Raise (OSError p), w)
    end.

(** [shutil.copy(src, dst)]: into [dst] when it is a directory. *)
Definition shutil_copy (src dst : string) : M unit :=
  isd <- os_path_isdir dst ;;
  let dst' := if isd then path_join dst (basename src) else dst in
  fun w =>
    if samefile (fs w) src dst' then (Raise (ShutilError dst'), w)
    else (c <- read_content src ;; write_file dst' c) w.

(** [shutil.move(src, dst)] for a regular file [src]; the program never
    moves a directory, and the model raises on one. *)
Definition rename_file (src real_dst : string) : M unit :=
  fun w =>
    if samefile (fs w) src real_dst then (Ok tt, w)
    else (c <- read_content src ;;
          write_file real_dst c ;;;
          os_unlink src) w.

Definition shutil_move (src dst : string) : M unit :=
  isd <- os_path_isdir dst ;;
  if (isd : bool) then
    fun w =>
      if samefile (fs w) src dst then (Ok tt, w)
      else
        let real_dst := path_join dst (basename (rstrip_sep src)) in
        if path_exists (fs w) real_dst then (Raise (ShutilError real_dst), w)
        else rename_file src real_dst w
  else rename_file src dst.

Definition shutil_rmtree (p : string) : M unit :=
  fun w =>
    match resolve p with
    | Some k =>
        match fs w !! k with
        | Some FDir => (Ok tt, set_fs (remove_tree k) w)
        | _ => (Raise (OSError p), w)
        end
    | None => (Raise (OSError p), w)
    end.

(** The path at which [shutil.make_archive(base_name, 'zip', ...)] writes:
    the normalised [base_name] with [.zip] appended. *)
Definition archive_target (base_name : string) : list string :=
  match last (split_path base_name) with
  | Some l => removelast (split_path base_name) ++ [l +:+ ".zip"]
  | None => [".zip"]
  end.

(** [shutil.make_archive(base_name, 'zip', root_dir)]: the regular files
    under [root_dir], with their relative paths. *)
Definition shutil_make_archive (base_name root_dir : string) : M unit :=
  fun w =>
    match node_at (fs w) root_dir with
    | Some FDir =>
        let k := archive_target base_name in
        match fs w !! k with
        | Some FDir => (Raise (IOError base_name), w)
        | _ =>
            match fs w !! parent k with
            | Some FDir =>
                (Ok tt,
                 set_fs (insert k (FFile (Archive
                    (archive_members (fs w) (split_path root_dir))))) w)
            | _ => (Raise (IOError base_name), w)
            end
        end
    | _ => (Raise (OSError root_dir), w)
    end.

(** [dicom.read_file(p)]. *)
Definition dicom_read_file (p : string) : M dataset :=
  fun w =>
    let w' := {| fs := fs w; opened := opened w ++ [p] |} in
    match node_at (fs w) p with
    | Some (FFile (Dicom ds)) => (Ok ds, w')
    | Some (FFile _) => (Raise (InvalidDicomError p), w')
    | _ => (Raise (IOError p), w')
    end.

(** [dicom_dataset.save_as(p)]. *)
Definition save_as (ds : dataset) (p : string) : M unit :=
  write_file p (Dicom ds).

(** [dataset.data_element(keyword).value]: [None] stands for the exception
    raised when the keyword is unknown or the element is absent. *)
Definition data_element_value (ds : dataset) (keyword : option string)
  : option string :=
  match keyword with
  | Some k => ds !! k
  | None => None
  end.

(** [dataset.data_element(keyword).value = v]. *)
Definition data_element_assign (ds : dataset) (keyword : option string)
  (v : string) : option dataset :=
  match keyword with
  | Some k =>
      match ds !! k with
      | Some _ => Some (<[k := v]> ds)
      | None => None
      end
  | None => None
  end.

(** ** Discovery *)

Definition subdir_names (children : list node) : list string :=
  List.map node_name (List.filter is_dir children).

Definition file_names (children : list node) : list string :=
  List.map node_name (List.filter (fun n => negb (is_dir n)) children).

(** [os.walk(top, topdown=True)]: one triple [(root, subdirs, files)] per
    directory, a directory before its subdirectories. *)
Fixpoint walk_node (top : string) (n : node)
  : list (string * list string * list string) :=
  match n with
  | File _ _ => []
  | Dir name children =>
      let root := path_join top name in
      (root, subdir_names children, file_names children)
        :: List.flat_map (walk_node root) children
  end.

Definition os_walk (top : string) (tree : list node)
  : list (string * list string * list string) :=
  (top, subdir_names tree, file_names tree)
    :: List.flat_map (walk_node top) tree.

Definition is_nil {A} (l : list A) : bool :=
  match l with [] => true | _ => false end.

(** The body of the [for root, subdirs, files in os.walk(...)] loop. *)
Fixpoint grep_loop (dicom_folder : string)
  (triples : list (string * list string * list string))
  (dicoms_list subdirs_list : list string)
  : outcome (list string * list string) :=
  match triples with
  | [] => Ok (dicoms_list, subdirs_list)
  | (root, subdirs, files) :: rest =>
      if negb (is_nil files) || negb (is_nil subdirs) then
        grep_loop dicom_folder rest
          (dicoms_list ++
             List.map (path_join root)
               (List.filter (fun f => negb (pattern_search f)) files))
          (subdirs_list ++ subdirs)
      else Exit ("Could not find any files in " +:+ dicom_folder)
  end.

Definition GrepDicomsFromFolder (dicom_folder : string) (tree : list node)
  : outcome (list string * list string) :=
  grep_loop dicom_folder (os_walk dicom_folder tree) [] [].

(** ** Field definitions *)

(** An [item] element of [fields_to_zap.xml]. *)
Record xml_item : Type := mkItem {
  item_name : string;
  item_description : string;
  item_editable : string
}.

Definition Grep_DICOM_fields (xmldoc : list xml_item) : dict :=
  fold_left
    (fun dicom_fields item =>
       let editable := String.eqb (item_editable item) "yes" in
       dict_set dicom_fields (item_name item)
         {| Description := Some (item_description item);
            Editable := Some editable;
            Value := None;
            Update := None |})
    xmldoc [].

(** ** Reading values with PyDICOM *)

(** One iteration of the [for name in dicom_fields] loop with its
    [try ... except: continue]. *)
Definition grep_value (dicom_dataset : dataset) (e : entry) : entry :=
  match data_element_value dicom_dataset (Description e) with
  | Some v => set_Value e v
  | None => e
  end.

Definition Grep_DICOM_values_PyDicom (dicom_folder : string)
  (tree : list node) (dicom_fields : dict) : M dict :=
  found <- lift (GrepDicomsFromFolder dicom_folder tree) ;;
  match found.1 with
  | [] => raise IndexError
  | dicom_file :: _ =>
      dicom_dataset <- dicom_read_file dicom_file ;;
      ret (List.map (fun ne => (ne.1, grep_value dicom_dataset ne.2))
             dicom_fields)
  end.

(** ** Writing with PyDICOM *)

(** One iteration of the loop of [actual_PyDICOM_zapping] on the entry
    [dicom_fields[name]]: the assignment is inside [try ... except:
    continue], the test of ['Editable'] is not. *)
Definition zap_field (e : entry) (dicom_dataset : dataset)
  : outcome dataset :=
  let new_val := match Value e with Some v => v | None => EmptyString end in
  match Editable e with
  | None => Raise (KeyError "Editable")
  | Some true =>
      match data_element_assign dicom_dataset (Description e) new_val with
      | Some ds' => Ok ds'
      | None => Ok dicom_dataset
      end
  | Some false =>
      match data_element_assign dicom_dataset (Description e) EmptyString with
      | Some ds' => Ok ds'
      | None => Ok dicom_dataset
      end
  end.

Fixpoint zap_loop (dicom_fields : dict) (dicom_dataset : dataset)
  : outcome dataset :=
  match dicom_fields with
  | [] => Ok dicom_dataset
  | (name, e) :: rest =>
      match zap_field e dicom_dataset with
      | Ok ds' => zap_loop rest ds'
      | Exit msg => Exit msg
      | Raise x => Raise x
      end
  end.

Definition actual_PyDICOM_zapping (dicom_file : string) (dicom_fields : dict)
  : M unit :=
  dicom_dataset <- dicom_read_file dicom_file ;;
  zapped <- lift (zap_loop dicom_fields dicom_dataset) ;;
  save_as zapped dicom_file.

(** ** The dcmodify command of [Dicom_zapping] *)

Definition blank_option (name : string) : string :=
  " -ma " +:+ dquote +:+ "(" +:+ name +:+ ")" +:+ dquote +:+ "="
    +:+ dquote +:+ " " +:+ dquote +:+ " ".

Definition value_option (name new_val : string) : string :=
  " -ma " +:+ dquote +:+ "(" +:+ name +:+ ")" +:+ dquote +:+ "="
    +:+ dquote +:+ new_val +:+ dquote +:+ " ".

Definition has_Value (e : entry) : bool :=
  match Value e with Some _ => true | None => false end.

(** One iteration of the command-building loop, on
    [(modify_cmd, changed_fields_nb)]. *)
Definition modify_field (name : string) (e : entry) (acc : string * nat)
  : outcome (string * nat) :=
  let new_val := match Value e with Some v => v | None => EmptyString end in
  match Editable e with
  | None => Raise (KeyError "Editable")
  | Some editable =>
      if negb editable && has_Value e then
        Ok (acc.1 +:+ blank_option name, S acc.2)
      else
        match Update e with
        | None => Raise (KeyError "Update")
        | Some true => Ok (acc.1 +:+ value_option name new_val, S acc.2)
        | Some false => Ok acc
        end
  end.

Fixpoint modify_loop (dicom_fields : dict) (acc : string * nat)
  : outcome (string * nat) :=
  match dicom_fields with
  | [] => Ok acc
  | (name, e) :: rest =>
      match modify_field name e acc with
      | Ok acc' => modify_loop rest acc'
      | Exit msg => Exit msg
      | Raise x => Raise x
      end
  end.

Definition build_modify_cmd (dicom_fields : dict) : outcome (string * nat) :=
  modify_loop dicom_fields ("dcmodify ", 0).

(** ** Staging directories and archives *)

Definition createDirectories (dicom_folder : string) (dicom_fields : dict)
  (subdirs_list : list string) : M (string * string) :=
  match dict_get dicom_fields "0010,0010" with
  | None => raise (KeyError "0010,0010")
  | Some e =>
      match Value e with
      | None => raise (KeyError "Value")
      | Some v =>
          let original_dir := dicom_folder +:+ sep +:+ v in
          let anonymize_dir := dicom_folder +:+ sep +:+ v +:+ "_anonymized" in
          os_mkdir original_dir ;;;
          os_mkdir anonymize_dir ;;;
          for_each subdirs_list (fun subdir =>
            os_mkdir (original_dir +:+ sep +:+ subdir) ;;;
            os_mkdir (anonymize_dir +:+ sep +:+ subdir)) ;;;
          ret (original_dir, anonymize_dir)
      end
  end.

Section Pipelines.

(** The archiver ([shutil.make_archive(base_name, 'zip', root_dir)]) and the
    external DCMTK commands are parameters of the pipelines:
    [subprocess_call] is the effect of a shell command on the files,
    [check_output] the output of a command ([None] when it fails), and
    [match_bracket] the group of [re.match(".+\[(.+)\].+", result)]. *)
Variable make_archive : string -> string -> M unit.
Variable subprocess_call : string -> fsmap -> fsmap.
Variable check_output : string -> fsmap -> option string.
Variable match_bracket : string -> option string.

Definition zipDicom (directory : string) : M string :=
  let archive := directory +:+ ".zip" in
  names <- os_listdir directory ;;
  (if is_nil names then
     sys_exit ("The directory " +:+ directory
               +:+ " is empty and will not be archived.")
   else make_archive directory directory) ;;;
  created <- os_path_exists archive ;;
  if (created : bool) then
    shutil_rmtree directory ;;;
    ret archive
  else sys_exit (archive +:+ " could not be created.").

(** The cleanup loop names [dicom_folder], which is neither a parameter nor
    a local nor a global of the module: its first iteration raises. *)
Definition zip_DICOM_directories (anonymize_dir original_dir : string)
  (subdirs_list : list string) : M (string * string) :=
  a_exists <- os_path_exists anonymize_dir ;;
  o_exists <- os_path_exists original_dir ;;
  zips <- (if (a_exists : bool) && (o_exists : bool) then
             original_zip <- zipDicom original_dir ;;
             anonymize_zip <- zipDicom anonymize_dir ;;
             ret (anonymize_zip, original_zip)
           else sys_exit "Failed to find original and anonymize data folders") ;;
  az_exists <- os_path_exists zips.1 ;;
  oz_exists <- os_path_exists zips.2 ;;
  (if (az_exists : bool) && (oz_exists : bool) then
     for_each subdirs_list (fun subdir => raise (NameError "dicom_folder"))
   else sys_exit "Failed: could not zip anonymize and original data folders") ;;;
  ret zips.

Definition Dicom_zapping_PyDicom (dicom_folder : string) (tree : list node)
  (dicom_fields : dict) : M (string * string) :=
  found <- lift (GrepDicomsFromFolder dicom_folder tree) ;;
  let dicoms_list := found.1 in
  let subdirs_list := found.2 in
  dirs <- createDirectories dicom_folder dicom_fields subdirs_list ;;
  let original_dir := dirs.1 in
  let anonymize_dir := dirs.2 in
  for_each dicoms_list (fun dicom =>
    shutil_copy dicom anonymize_dir ;;;
    shutil_move dicom original_dir) ;;;
  for_each dicoms_list (fun dicom =>
    let anonymize_dcm := str_replace dicom dicom_folder anonymize_dir in
    if negb (is_empty_string dicom) then
      actual_PyDICOM_zapping anonymize_dcm dicom_fields
    else ret tt) ;;;
  zip_DICOM_directories anonymize_dir original_dir subdirs_list.

(** [Grep_DICOM_values]: one [dcmdump] per field on the first file. *)
Fixpoint dump_loop (dicom_file : string) (names : list string)
  (dicom_fields : dict) : M dict :=
  match names with
  | [] => ret dicom_fields
  | name :: rest =>
      let dump_cmd := "dcmdump -ml +P " +:+ name +:+ " -q " +:+ dicom_file in
      fun w =>
        match check_output dump_cmd (fs w) with
        | None => (Raise (CalledProcessError dump_cmd), w)
        | Some result =>
            match match_bracket result, dict_get dicom_fields name with
            | Some value, Some e =>
                dump_loop dicom_file rest
                  (dict_set dicom_fields name (set_Value e value)) w
            | _, _ => dump_loop dicom_file rest dicom_fields w
            end
        end
  end.

Definition Grep_DICOM_values (dicom_folder : string) (tree : list node)
  (dicom_fields : dict) : M dict :=
  found <- lift (GrepDicomsFromFolder dicom_folder tree) ;;
  match found.1 with
  | [] => raise IndexError
  | dicom_file :: _ =>
      dump_loop dicom_file (List.map fst dicom_fields) dicom_fields
  end.

Definition Dicom_zapping (dicom_folder : string) (tree : list node)
  (dicom_fields : dict) : M (string * string) :=
  found <- lift (GrepDicomsFromFolder dicom_folder tree) ;;
  let dicoms_list := found.1 in
  let subdirs_list := found.2 in
  dirs <- createDirectories dicom_folder dicom_fields subdirs_list ;;
  let original_dir := dirs.1 in
  let anonymize_dir := dirs.2 in
  cmd <- lift (build_modify_cmd dicom_fields) ;;
  let modify_cmd := cmd.1 in
  let changed_fields_nb := cmd.2 in
  for_each dicoms_list (fun dicom =>
    let original_dcm := str_replace dicom dicom_folder original_dir in
    let anonymize_dcm := str_replace dicom dicom_folder anonymize_dir in
    let orig_bak_dcm := anonymize_dcm +:+ ".bak" in
    if Nat.ltb 0 changed_fields_nb then
      shutil_move dicom anonymize_dcm ;;;
      (fun w => (Ok tt,
                 set_fs (subprocess_call (modify_cmd +:+ anonymize_dcm)) w)) ;;;
      bak <- os_path_exists orig_bak_dcm ;;
      if (bak : bool) then shutil_move orig_bak_dcm original_dcm else ret tt
    else shutil_move dicom original_dcm) ;;;
  a_exists <- os_path_exists anonymize_dir ;;
  o_exists <- os_path_exists original_dir ;;
  zips <- (if (a_exists : bool) && (o_exists : bool) then
             original_zip <- zipDicom original_dir ;;
             anonymize_zip <- zipDicom anonymize_dir ;;
             ret (anonymize_zip, original_zip)
           else sys_exit "Failed to anonymize data") ;;
  az_exists <- os_path_exists zips.1 ;;
  oz_exists <- os_path_exists zips.2 ;;
  (if (az_exists : bool) && (oz_exists : bool) then
     for_each subdirs_list (fun subdir =>
       shutil_rmtree (dicom_folder +:+ sep +:+ subdir))
   else ret tt) ;;;
  ret (zips.2, zips.1).

End Pipelines.

(** ** Decoding the dcmodify command *)

Definition render_modification (m : string * string) : string :=
  value_option m.1 m.2.

Fixpoint render_modifications (l : list (string * string)) : string :=
  match l with
  | [] => EmptyString
  | m :: l' => render_modification m +:+ render_modifications l'
  end.

Definition new_value (e : entry) : string :=
  match Value e with Some v => v | None => EmptyString end.

Definition blanked (e : entry) : bool :=
  match Editable e with
  | Some false => has_Value e
  | _ => false
  end.

Definition updated (e : entry) : bool :=
  match Update e with Some true => true | _ => false end.

Definition entry_modifications (ne : string * entry) : list (string * string) :=
  if blanked ne.2 then [(ne.1, " ")]
  else if updated ne.2 then [(ne.1, new_value ne.2)]
  else [].

Definition cmd_modifications (dicom_fields : dict) : list (string * string) :=
  List.flat_map entry_modifications dicom_fields.

Definition library_value (e : entry) : string :=
  match Editable e with
  | Some true => new_value e
  | _ => EmptyString
  end.


(** ** What the library write loop assigns *)

Definition has_Editable (ne : string * entry) : Prop := Editable ne.2 ≠ None.

(** [library_modifies dicom_fields ds ds' (name, v)]: the field [name] is
    configured, the file held the element that its ['Description'] names,
    and that element holds [v] in the data set [ds'] written by the
    library branch. *)
Definition library_modifies (dicom_fields : dict) (ds ds' : dataset)
  (m : string * string) : Prop :=
  ∃ e d, (m.1, e) ∈ dicom_fields ∧ Description e = Some d
         ∧ is_Some (ds !! d) ∧ ds' !! d = Some m.2.


(** An entry on which an iteration of the command loop raises nothing. *)
Definition entry_ready (e : entry) : Prop :=
  Editable e ≠ None ∧ (blanked e = false → Update e ≠ None).


(** An entry as [Grep_DICOM_fields] and the value-reading steps leave it:
    with ['Editable'] and without ['Update']. *)
Definition fresh_entry (ne : string * entry) : Prop :=
  Editable ne.2 ≠ None ∧ Update ne.2 = None.

(** ** Where files and directories are in a tree *)

(** [file_at tree dirs name]: the directory reached from the root of [tree]
    through the subdirectories [dirs] holds a regular file [name]. *)
Inductive file_at : list node -> list string -> string -> Prop :=
  | file_here children name c :
      File name c ∈ children -> file_at children [] name
  | file_below children d sub dirs name :
      Dir d sub ∈ children -> file_at sub dirs name ->
      file_at children (d :: dirs) name.

(** [dir_at tree dirs d]: that directory holds a subdirectory [d]. *)
Inductive dir_at : list node -> list string -> string -> Prop :=
  | dir_here children d sub :
      Dir d sub ∈ children -> dir_at children [] d
  | dir_below children d sub dirs d' :
      Dir d sub ∈ children -> dir_at sub dirs d' ->
      dir_at children (d :: dirs) d'.

(** Some directory of the tree, the root included, has no entry. *)
Inductive empty_dir_in : list node -> Prop :=
  | empty_here : empty_dir_in []
  | empty_below children d sub :
      Dir d sub ∈ children -> empty_dir_in sub -> empty_dir_in children.

Fixpoint node_has_empty (n : node) : bool :=
  match n with
  | File _ _ => false
  | Dir _ children => is_nil children || existsb node_has_empty children
  end.

Definition has_empty_dir (tree : list node) : bool :=
  is_nil tree || existsb node_has_empty tree.

(** The path [os.walk] gives to the directory reached through [dirs]. *)
Definition walk_root (top : string) (dirs : list string) : string :=
  fold_left path_join dirs top.

Definition triple_files (t : string * list string * list string)
  : list string :=
  List.map (path_join t.1.1)
    (List.filter (fun f => negb (pattern_search f)) t.2).

Definition triple_subdirs (t : string * list string * list string)
  : list string := t.1.2.

Definition triple_empty (t : string * list string * list string) : bool :=
  is_nil t.2 && is_nil t.1.2.

(** The files found below a directory node. *)
Definition found_in_node (top : string) (n : node) (p : string) : Prop :=
  ∃ name sub dirs f, n = Dir name sub ∧ file_at sub dirs f
    ∧ pattern_search f = false
    ∧ p = path_join (walk_root (path_join top name) dirs) f.

Definition subdir_in_node (n : node) (d : string) : Prop :=
  ∃ name sub dirs, n = Dir name sub ∧ dir_at sub dirs d.

(** The test of [split_path] on a component. *)
Definition nonempty_component (c : string) : bool := negb (is_empty_string c).


(** A name that a directory entry can have in the model: not empty and
    without separator. *)
Definition valid_name (n : string) : Prop :=
  n ≠ EmptyString ∧ components n = [n].

(** The data set that [actual_PyDICOM_zapping] saves for [ds]. *)
Definition zapped_dataset (dicom_fields : dict) (ds : dataset) : dataset :=
  match zap_loop dicom_fields ds with
  | Ok ds' => ds'
  | _ => ds
  end.

(** ** A root directory that holds regular files and two staging
    directories

    [flat_lookup] is the node found at the relative path [rel] below the
    root when the root has the entries [R], the staging directory [vO] the
    files [Oc] and the staging directory [vA] the files [Ac]. *)
Definition flat_lookup (vO vA : string) (R : gmap string fnode)
  (Oc Ac : gmap string fcontent) (rel : list string) : option fnode :=
  match rel with
  | [] => Some FDir
  | [x] => R !! x
  | [x; n] =>
      if String.eqb x vO then FFile <$> Oc !! n
      else if String.eqb x vA then FFile <$> Ac !! n
      else None
  | _ => None
  end.

Definition flat_shape (base : list string) (vO vA : string)
  (R : gmap string fnode) (Oc Ac : gmap string fcontent) (m : fsmap) : Prop :=
  ∀ rel, m !! (base ++ rel) = flat_lookup vO vA R Oc Ac rel.

(** The root entries of a directory that holds the regular files [files]. *)
Definition root_entries (files : list (string * fcontent))
  : gmap string fnode :=
  list_to_map (List.map (fun nc => (nc.1, FFile nc.2)) files).

Definition flat_tree (files : list (string * fcontent)) : list node :=
  List.map (fun nc => File nc.1 nc.2) files.

(** The files that discovery keeps. *)
Definition discovered (files : list (string * fcontent))
  : list (string * fcontent) :=
  List.filter (fun nc => negb (pattern_search nc.1)) files.

(** What the write step leaves in a file. *)
Definition zap_content (dicom_fields : dict) (c : fcontent) : fcontent :=
  match c with
  | Dicom ds => Dicom (zapped_dataset dicom_fields ds)
  | _ => c
  end.

(** ** Further descriptions used by the properties of the other functions *)

(** The extensions that the exclusion pattern anchors at the end. *)
Definition excluded_extensions : list string :=
  [".bmp"; ".png"; ".zip"; ".txt"; ".jpeg"; ".pdf"].

(** The entry that [Grep_DICOM_fields] stores for an item. *)
Definition item_entry (item : xml_item) : entry :=
  {| Description := Some (item_description item);
     Editable := Some (String.eqb (item_editable item) "yes");
     Value := None;
     Update := None |}.

(** The last item of the document that has the given name. *)
Definition last_item (name : string) (xmldoc : list xml_item)
  : option xml_item :=
  List.find (fun item => String.eqb (item_name item) name) (rev xmldoc).

(** [dataset.data_element(keyword).value = v] inside [try ... except]:
    the data set is left as it is when the assignment raises. *)
Definition try_assign (ds : dataset) (keyword : option string) (v : string)
  : dataset :=
  match data_element_assign ds keyword v with
  | Some ds' => ds'
  | None => ds
  end.

(** The data set after the loop of [actual_PyDICOM_zapping], for entries
    that all have ['Editable']. *)
Definition zap_fold (dicom_fields : dict) (ds : dataset) : dataset :=
  fold_left (fun X ne => try_assign X (Description ne.2) (library_value ne.2))
    dicom_fields ds.

(** The command that [Grep_DICOM_values] runs for a field. *)
Definition dump_cmd (name dicom_file : string) : string :=
  "dcmdump -ml +P " +:+ name +:+ " -q " +:+ dicom_file.

(** One iteration of the loop of [Grep_DICOM_values] on the dictionary,
    given the output of the command. *)
Definition dump_step (match_bracket : string -> option string)
  (output : string -> option string) (dicom_fields : dict) (name : string)
  : dict :=
  match output name ≫= match_bracket, dict_get dicom_fields name with
  | Some value, Some e => dict_set dicom_fields name (set_Value e value)
  | _, _ => dicom_fields
  end.

(** The entry that [Grep_DICOM_values] leaves under a name: with the
    bracketed text of the command output as ['Value'] when there is one. *)
Definition dumped_entry (match_bracket : string -> option string)
  (output : string -> option string) (ne : string * entry) : entry :=
  match output ne.1 ≫= match_bracket with
  | Some value => set_Value ne.2 value
  | None => ne.2
  end.

(** The last field, in iteration order, whose ['Description'] is the
    keyword [d]. *)
Definition last_described (d : string) (dicom_fields : dict)
  : option (string * entry) :=
  List.find (fun ne => bool_decide (Description ne.2 = Some d))
    (rev dicom_fields).

(** The value that the write loop leaves in an element [d] that held [v]. *)
Definition zapped_value (dicom_fields : dict) (d v : string) : string :=
  match last_described d dicom_fields with
  | Some ne => library_value ne.2
  | None => v
  end.

(** ** Concrete inputs *)

Definition cx1_dataset : dataset := <["InstitutionName" := "H"]> ∅.

Definition cx1_fields : dict :=
  [("0008,0080", {| Description := Some "InstitutionName";
                    Editable := Some true; Value := None; Update := None |})].

Definition cx1_tree : list node := [File "a.dcm" (Dicom cx1_dataset)].

Definition ok1_dataset : dataset :=
  <["PatientName" := "Doe"]> (<["InstitutionName" := "H"]> ∅).

Definition ok1_fields : dict :=
  [("0010,0010", {| Description := Some "PatientName"; Editable := Some true;
                    Value := Some "ID01"; Update := Some true |});
   ("0008,0080", {| Description := Some "InstitutionName";
                    Editable := Some false; Value := Some "H";
                    Update := Some false |})].

Definition cx3_dataset : dataset := <["PatientName" := "Doe"]> ∅.

Definition cx3_tree : list node := [File "a.dcm" (Dicom cx3_dataset)].

Definition cx3_fields : dict :=
  [("0010,0010", {| Description := Some "PatientName"; Editable := Some false;
                    Value := Some "Doe"; Update := Some false |})].

Definition cx9_xml : list xml_item :=
  [{| item_name := "0010,0010"; item_description := "PatientName";
      item_editable := "no" |}].

Definition cx9_tree : list node :=
  [File "a.dcm" (Dicom (<["PatientName" := "Doe"]> ∅))].

Definition cx4_tree : list node := [File "notes.txt" (Raw "memo")].

Definition cx6_tree : list node :=
  [File "a.dcm" (Dicom ok1_dataset); Dir "empty" []].

Definition ok6_tree : list node :=
  [File "a.dcm" (Dicom ok1_dataset);
   File "notes.txt" (Raw "memo");
   Dir "series" [File "b.dcm" (Dicom ok1_dataset);
                 Dir "deep" [File "c" (Raw "x"); File "scan.png" (Raw "y")]]].

Definition ok5_fields : dict :=
  [("0010,0010", {| Description := Some "PatientName"; Editable := Some true;
                    Value := None; Update := None |});
   ("0010,0030", {| Description := Some "PatientBirthDate";
                    Editable := Some false; Value := None; Update := None |})].

Definition cx8_tree : list node :=
  [File "a.dcm" (Dicom ok1_dataset); Dir "sub" [File "notes.txt" (Raw "memo")]].

Definition ok7_tree : list node :=
  [Dir "ID01" [File "a.dcm" (Dicom ok1_dataset)]].

Definition empty7_tree : list node := [Dir "ID01" []].

(** A folder in which the path of the archive is taken by a directory. *)
Definition cx7_tree : list node :=
  [Dir "ID01" [File "a.dcm" (Dicom ok1_dataset)]; Dir "ID01.zip" []].

Definition ok2_files : list (string * fcontent) :=
  [("a.dcm", Dicom ok1_dataset); ("notes.txt", Raw "memo");
   ("b.dcm", Dicom cx3_dataset)].

Definition nested_tree : list node :=
  [Dir "sub" [File "a.dcm" (Dicom ok1_dataset)]].

(** ** Concrete inputs for the further properties *)

(** A [dcmdump] that knows the patient name of one file and fails on the
    birth date, and a reader of the bracketed text of its answer. *)
Definition demo_check_output (cmd : string) (m : fsmap) : option string :=
  if String.eqb cmd "dcmdump -ml +P 0010,0010 -q /data/a.dcm"
  then Some "(0010,0010) PN [Doe] #   4, 1 PatientName"
  else if String.eqb cmd "dcmdump -ml +P 0008,0080 -q /data/a.dcm"
  then Some EmptyString
  else None.

Definition demo_match_bracket (result : string) : option string :=
  if String.eqb result "(0010,0010) PN [Doe] #   4, 1 PatientName"
  then Some "Doe" else None.

Definition demo_fields : dict :=
  [("0010,0010", {| Description := Some "PatientName"; Editable := Some true;
                    Value := None; Update := None |});
   ("0008,0080", {| Description := Some "InstitutionName";
                    Editable := Some false; Value := Some "old";
                    Update := None |})].

(** Two fields that name the same element, and a field without
    ['Editable']. *)
Definition twice_fields : dict :=
  [("0010,0010", {| Description := Some "PatientName"; Editable := Some true;
                    Value := Some "ID01"; Update := None |});
   ("0010,0011", {| Description := Some "PatientName"; Editable := Some false;
                    Value := Some "ID02"; Update := None |})].

Definition no_editable_fields : dict :=
  [("0010,0010", {| Description := Some "PatientName"; Editable := None;
                    Value := Some "ID01"; Update := None |})].

(** A [dcmodify] for one file: it rewrites the file in place and keeps the
    old content beside it, under the same name with [.bak] appended. *)
Definition demo_dcmodify (cmd : string) (m : fsmap) : fsmap :=
  if ends_with " /data/ID01_anonymized/a.dcm" cmd then
    match m !! ["data"; "ID01_anonymized"; "a.dcm"] with
    | Some (FFile c) =>
        <[["data"; "ID01_anonymized"; "a.dcm"] :=
            FFile (Dicom (<["PatientName" := "ID01"]> ∅))]>
          (<[["data"; "ID01_anonymized"; "a.dcm.bak"] := FFile c]> m)
    | _ => m
    end
  else m.

(** A root directory with a file that is neither DICOM nor excluded by
    the pattern, between two DICOM files. *)
Definition mixed_files : list (string * fcontent) :=
  [("a.dcm", Dicom ok1_dataset); ("README", Raw "read me");
   ("b.dcm", Dicom cx3_dataset)].

(** Fields of which none is to be modified by the command. *)
Definition idle_fields : dict :=
  [("0010,0010", {| Description := Some "PatientName"; Editable := Some true;
                    Value := Some "ID01"; Update := Some false |})].
(** * Proofs *)

Lemma append_cons (x : ascii) (a b : string) :
  String x a +:+ b = String x (a +:+ b).
Proof. reflexivity. Qed.

Lemma append_nil_l (a : string) : EmptyString +:+ a = a.
Proof. reflexivity. Qed.

Lemma append_assoc (a b c : string) : (a +:+ b) +:+ c = a +:+ (b +:+ c).
Proof.
  induction a as [|x a IH]; [done|].
  by rewrite !append_cons, IH.
Qed.

Lemma append_nil_r (a : string) : a +:+ EmptyString = a.
Proof.
  induction a as [|x a IH]; [done|].
  by rewrite append_cons, IH.
Qed.

Lemma render_modifications_app l1 l2 :
  render_modifications (l1 ++ l2)
  = render_modifications l1 +:+ render_modifications l2.
Proof.
  induction l1 as [|m l1 IH]; cbn [render_modifications app]; [done|].
  by rewrite IH, append_assoc.
Qed.

Lemma blank_option_render name :
  blank_option name = render_modification (name, " ").
Proof. reflexivity. Qed.

Lemma modify_field_ok name e acc :
  entry_ready e →
  modify_field name e acc
  = Ok (acc.1 +:+ render_modifications (entry_modifications (name, e)),
        acc.2 + length (entry_modifications (name, e))).
Proof.
  intros [Hed Hup]. unfold modify_field, entry_modifications, blanked in *.
  unfold updated, new_value, has_Value in *. simpl.
  destruct (Editable e) as [[|]|]; [| |done]; simpl in *.
  - destruct (Update e) as [[|]|]; simpl.
    + rewrite append_nil_r. do 2 f_equal. lia.
    + rewrite append_nil_r. destruct acc; simpl. do 2 f_equal. lia.
    + by destruct Hup.
  - destruct (Value e) as [v|]; simpl.
    + rewrite append_nil_r. do 2 f_equal. lia.
    + destruct (Update e) as [[|]|]; simpl.
      * rewrite append_nil_r. do 2 f_equal. lia.
      * rewrite append_nil_r. destruct acc; simpl. do 2 f_equal. lia.
      * by destruct Hup.
Qed.

Lemma modify_loop_ok dicom_fields : ∀ acc,
  Forall (fun ne => entry_ready ne.2) dicom_fields →
  modify_loop dicom_fields acc
  = Ok (acc.1 +:+ render_modifications (cmd_modifications dicom_fields),
        acc.2 + length (cmd_modifications dicom_fields)).
Proof.
  induction dicom_fields as [|[name e] rest IH]; intros acc Hall; simpl.
  - rewrite append_nil_r. destruct acc; simpl. do 2 f_equal. lia.
  - inversion Hall as [|? ? He Hrest]; subst. simpl in He.
    rewrite (modify_field_ok name e acc He). rewrite IH by done. simpl.
    rewrite render_modifications_app, length_app, append_assoc.
    do 2 f_equal. lia.
Qed.

Lemma modify_field_not_ready name e acc :
  ¬ entry_ready e →
  modify_field name e acc = Raise (KeyError "Editable")
  ∨ modify_field name e acc = Raise (KeyError "Update").
Proof.
  intros Hn. unfold modify_field, entry_ready, blanked, has_Value in *.
  destruct (Editable e) as [[|]|]; simpl in *; [| |by left].
  - destruct (Update e) as [[|]|]; [exfalso; apply Hn; split; done..|by right].
  - destruct (Value e); simpl.
    + exfalso; apply Hn; split; done.
    + destruct (Update e) as [[|]|]; [exfalso; apply Hn; split; done..|by right].
Qed.

Lemma entry_ready_dec e : {entry_ready e} + {¬ entry_ready e}.
Proof.
  unfold entry_ready.
  destruct (Editable e) as [ed|]; [|right; intros [? _]; done].
  destruct (blanked e); [left; split; done|].
  destruct (Update e); [left; split; done|right; intros [_ H]; by apply H].
Qed.

Lemma modify_loop_is_ok dicom_fields : ∀ acc,
  is_ok (modify_loop dicom_fields acc) = true
  ↔ Forall (fun ne => entry_ready ne.2) dicom_fields.
Proof.
  induction dicom_fields as [|[name e] rest IH]; intros acc; simpl.
  - split; [constructor | done].
  - destruct (entry_ready_dec e) as [He|He].
    + rewrite (modify_field_ok name e acc He), IH.
      split; [by constructor | by inversion 1].
    + destruct (modify_field_not_ready name e acc He) as [-> | ->]; simpl;
        (split; [done | inversion 1; subst; done]).
Qed.
(** ** The library write loop *)

Lemma zap_field_ok e ds :
  Editable e ≠ None →
  zap_field e ds
  = Ok (match data_element_assign ds (Description e) (library_value e) with
        | Some ds' => ds'
        | None => ds
        end).
Proof.
  intros He. unfold zap_field, library_value, new_value.
  destruct (Editable e) as [[|]|]; [| |done];
    by destruct (data_element_assign _ _ _).
Qed.

Lemma data_element_assign_Some ds kw v ds' :
  data_element_assign ds kw v = Some ds' →
  ∃ d, kw = Some d ∧ is_Some (ds !! d) ∧ ds' = <[d := v]> ds.
Proof.
  unfold data_element_assign. destruct kw as [d|]; [|done].
  destruct (ds !! d) eqn:E; [|done]. intros [= <-]. eauto.
Qed.

Lemma data_element_assign_None ds kw v :
  data_element_assign ds kw v = None →
  data_element_value ds kw = None.
Proof.
  unfold data_element_assign, data_element_value. destruct kw as [d|]; [|done].
  by destruct (ds !! d).
Qed.

Lemma zap_loop_spec dicom_fields : ∀ ds : dataset,
  Forall has_Editable dicom_fields →
  ∃ ds',
    zap_loop dicom_fields ds = Ok ds'
    ∧ (∀ d, is_Some (ds' !! d) ↔ is_Some (ds !! d))
    ∧ (∀ d, (∀ ne, ne ∈ dicom_fields → Description ne.2 ≠ Some d) →
            ds' !! d = ds !! d)
    ∧ (∀ d v, is_Some (ds !! d) →
              (∃ ne, ne ∈ dicom_fields ∧ Description ne.2 = Some d) →
              (∀ ne, ne ∈ dicom_fields → Description ne.2 = Some d →
                     library_value ne.2 = v) →
              ds' !! d = Some v).
Proof.
  induction dicom_fields as [|[name e] rest IH]; intros ds Hall.
  - exists ds. simpl. repeat split; try done.
    intros d v _ [ne [Hin _]]. by apply elem_of_nil in Hin.
  - inversion Hall as [|? ? He Hrest]; subst. unfold has_Editable in He.
    simpl in He. cbn [zap_loop]. rewrite (zap_field_ok e ds He).
    destruct (data_element_assign ds (Description e) (library_value e))
      as [ds1|] eqn:Ha.
    + destruct (data_element_assign_Some _ _ _ _ Ha) as (d0 & Hd0 & Hs & ->).
      destruct (IH (<[d0 := library_value e]> ds) Hrest)
        as (ds' & Hrun & Hdom & Hframe & Hval).
      assert (Hdom1 : ∀ d, is_Some (<[d0 := library_value e]> ds !! d)
                           ↔ is_Some (ds !! d)).
      { intros d. destruct (decide (d0 = d)) as [->|Hne].
        - rewrite lookup_insert_eq. split; eauto.
        - by rewrite lookup_insert_ne. }
      exists ds'. split; [done|]. split; [|split].
      * intros d. by rewrite Hdom, Hdom1.
      * intros d Hno. rewrite Hframe.
        -- apply lookup_insert_ne. intros ->.
           apply (Hno (name, e)); [apply elem_of_cons; by left | done].
        -- intros ne Hin. apply Hno. apply elem_of_cons. by right.
      * intros d v Hsd Hex Hsame.
        destruct (decide (Exists (fun ne : string * entry =>
                                    Description ne.2 = Some d) rest))
          as [Hin|Hnin]; rewrite Exists_exists in *.
        -- apply Hval; [by apply Hdom1 | done |].
           intros ne Hne. apply Hsame. apply elem_of_cons. by right.
        -- rewrite Hframe.
           ++ destruct Hex as (ne & Hne & Hd).
              apply elem_of_cons in Hne as [->|Hne];
                [|exfalso; apply Hnin; eauto].
              simpl in Hd. rewrite Hd0 in Hd. injection Hd as ->.
              rewrite lookup_insert_eq. f_equal.
              apply (Hsame (name, e)); [apply elem_of_cons; by left | done].
           ++ intros ne Hne Hd. apply Hnin. eauto.
    + destruct (IH ds Hrest) as (ds' & Hrun & Hdom & Hframe & Hval).
      pose proof (data_element_assign_None _ _ _ Ha) as Hnone.
      exists ds'. split; [done|]. split; [done|]. split.
      * intros d Hno. apply Hframe. intros ne Hne. apply Hno.
        apply elem_of_cons. by right.
      * intros d v Hsd Hex Hsame. apply Hval; [done | |].
        -- destruct Hex as (ne & Hne & Hd).
           apply elem_of_cons in Hne as [->|Hne]; [|eauto].
           simpl in Hd. unfold data_element_value in Hnone.
           rewrite Hd in Hnone. destruct Hsd as [x Hx]. congruence.
        -- intros ne Hne. apply Hsame. apply elem_of_cons. by right.
Qed.

(** ** Stepping through calls *)

Lemma bind_Ok {A B} (m : M A) (k : A → M B) w a w' :
  m w = (Ok a, w') → bind m k w = k a w'.
Proof. unfold bind. by intros ->. Qed.

Lemma bind_Exit {A B} (m : M A) (k : A → M B) w msg w' :
  m w = (Exit msg, w') → bind m k w = (Exit msg, w').
Proof. unfold bind. by intros ->. Qed.

Lemma bind_Raise {A B} (m : M A) (k : A → M B) w e w' :
  m w = (Raise e, w') → bind m k w = (Raise e, w').
Proof. unfold bind. by intros ->. Qed.

Lemma bind_inv_Ok {A B} (m : M A) (k : A → M B) w b w' :
  bind m k w = (Ok b, w') →
  ∃ a w1, m w = (Ok a, w1) ∧ k a w1 = (Ok b, w').
Proof.
  unfold bind. destruct (m w) as [[a|msg|e] w1]; [eauto|done|done].
Qed.

Lemma actual_PyDICOM_zapping_run dicom_file dicom_fields w k (ds : dataset) :
  resolve dicom_file = Some k →
  fs w !! k = Some (FFile (Dicom ds)) →
  fs w !! parent k = Some FDir →
  Forall has_Editable dicom_fields →
  ∃ ds',
    zap_loop dicom_fields ds = Ok ds'
    ∧ actual_PyDICOM_zapping dicom_file dicom_fields w
      = (Ok tt, {| fs := <[k := FFile (Dicom ds')]> (fs w);
                   opened := opened w ++ [dicom_file] |}).
Proof.
  intros Hres Hfile Hpar Hall.
  destruct (zap_loop_spec dicom_fields ds Hall) as (ds' & Hrun & _).
  exists ds'. split; [done|].
  unfold actual_PyDICOM_zapping.
  erewrite bind_Ok; cycle 1.
  { unfold dicom_read_file, node_at. by rewrite Hres, Hfile. }
  erewrite bind_Ok; cycle 1.
  { unfold lift. by rewrite Hrun. }
  unfold save_as, write_file. cbn [fs]. by rewrite Hres, Hfile, Hpar.
Qed.

(** ** Discovery *)

Lemma node_ind2 (P : node → Prop)
  (Hfile : ∀ name c, P (File name c))
  (Hdir : ∀ name children, Forall P children → P (Dir name children)) :
  ∀ n, P n.
Proof.
  fix IH 1. intros [name c|name children].
  - apply Hfile.
  - apply Hdir. induction children as [|x l IHl]; constructor.
    + apply IH.
    + exact IHl.
Qed.

Lemma grep_loop_spec dicom_folder triples : ∀ dicoms_list subdirs_list,
  grep_loop dicom_folder triples dicoms_list subdirs_list
  = if existsb triple_empty triples
    then Exit ("Could not find any files in " +:+ dicom_folder)
    else Ok (dicoms_list ++ List.flat_map triple_files triples,
             subdirs_list ++ List.flat_map triple_subdirs triples).
Proof.
  induction triples as [|[[root subdirs] files] rest IH];
    intros dicoms_list subdirs_list; simpl.
  - by rewrite !app_nil_r.
  - unfold triple_empty at 1. simpl.
    destruct files, subdirs; simpl; try done;
      rewrite IH; destruct (existsb triple_empty rest); try done;
      by rewrite <- !app_assoc.
Qed.

Lemma is_nil_names children :
  is_nil (file_names children) && is_nil (subdir_names children)
  = is_nil children.
Proof.
  unfold file_names, subdir_names. destruct children as [|[name c|name sub] l];
    simpl; [done..|]. by rewrite andb_false_r.
Qed.

Lemma existsb_flat_map {A B} (f : B → bool) (g : A → list B) l :
  existsb f (List.flat_map g l) = existsb (fun x => existsb f (g x)) l.
Proof.
  induction l as [|x l IH]; simpl; [done|]. by rewrite existsb_app, IH.
Qed.

Lemma walk_node_empty n : ∀ top,
  existsb triple_empty (walk_node top n) = node_has_empty n.
Proof.
  induction n as [name c|name children IH] using node_ind2; intros top;
    simpl; [done|].
  unfold triple_empty at 1. simpl. rewrite is_nil_names. f_equal.
  rewrite existsb_flat_map. induction IH as [|x l Hx _ IHl]; simpl; [done|].
  by rewrite Hx, IHl.
Qed.

Lemma os_walk_empty top tree :
  existsb triple_empty (os_walk top tree) = has_empty_dir tree.
Proof.
  unfold os_walk, has_empty_dir. simpl. unfold triple_empty at 1. simpl.
  rewrite is_nil_names. f_equal. rewrite existsb_flat_map.
  induction tree as [|x l IH]; simpl; [done|].
  by rewrite walk_node_empty, IH.
Qed.

Lemma node_has_empty_dir name children :
  node_has_empty (Dir name children) = has_empty_dir children.
Proof. reflexivity. Qed.

Lemma has_empty_dir_spec tree :
  has_empty_dir tree = true ↔ empty_dir_in tree.
Proof.
  split.
  - assert (H : ∀ n, node_has_empty n = true →
                     ∀ name sub, n = Dir name sub → empty_dir_in sub).
    { induction n as [name c|name children IH] using node_ind2;
        intros Hn name' sub [= -> ->].
      simpl in Hn. apply orb_true_iff in Hn as [Hn|Hn].
      - destruct sub; [constructor|done].
      - apply existsb_exists in Hn as (x & Hin & Hx).
        rewrite Forall_forall in IH. apply list_elem_of_In in Hin.
        destruct x as [?|d sub']; [done|].
        eapply empty_below; [exact Hin|]. by eapply (IH _ Hin Hx). }
    intros Ht. by apply (H (Dir EmptyString tree) Ht EmptyString tree).
  - induction 1 as [|children d sub Hin _ IH]; [done|].
    unfold has_empty_dir. apply orb_true_iff. right.
    apply existsb_exists. exists (Dir d sub).
    split; [by apply list_elem_of_In|]. by rewrite node_has_empty_dir.
Qed.

Lemma elem_of_file_names children name :
  name ∈ file_names children ↔ ∃ c, File name c ∈ children.
Proof.
  unfold file_names. rewrite list_elem_of_In, in_map_iff. split.
  - intros (n & <- & Hin). apply filter_In in Hin as [Hin Hf].
    destruct n as [name c|]; [|done]. exists c. by apply list_elem_of_In.
  - intros [c Hin]. exists (File name c). split; [done|].
    apply filter_In. split; [by apply list_elem_of_In|done].
Qed.

Lemma elem_of_subdir_names children name :
  name ∈ subdir_names children ↔ ∃ sub, Dir name sub ∈ children.
Proof.
  unfold subdir_names. rewrite list_elem_of_In, in_map_iff. split.
  - intros (n & <- & Hin). apply filter_In in Hin as [Hin Hf].
    destruct n as [|name sub]; [done|]. exists sub. by apply list_elem_of_In.
  - intros [sub Hin]. exists (Dir name sub). split; [done|].
    apply filter_In. split; [by apply list_elem_of_In|done].
Qed.

Lemma elem_of_flat_map {A B} (f : A → list B) l y :
  y ∈ List.flat_map f l ↔ ∃ x, x ∈ l ∧ y ∈ f x.
Proof.
  rewrite list_elem_of_In, in_flat_map.
  split; intros (x & H1 & H2); exists x;
    split; by apply list_elem_of_In.
Qed.

Lemma flat_map_flat_map {A B C} (f : B → list C) (g : A → list B) l :
  List.flat_map f (List.flat_map g l)
  = List.flat_map (fun x => List.flat_map f (g x)) l.
Proof.
  induction l as [|x l IH]; simpl; [done|]. by rewrite flat_map_app, IH.
Qed.

Lemma elem_of_triple_files root subdirs files p :
  p ∈ triple_files (root, subdirs, files)
  ↔ ∃ f, f ∈ files ∧ pattern_search f = false ∧ p = path_join root f.
Proof.
  unfold triple_files. simpl. rewrite list_elem_of_In, in_map_iff. split.
  - intros (f & <- & Hin). apply filter_In in Hin as [Hin Hf].
    exists f. split; [by apply list_elem_of_In|].
    split; [by apply negb_true_iff|done].
  - intros (f & Hin & Hf & ->). exists f. split; [done|].
    apply filter_In. split; [by apply list_elem_of_In|by apply negb_true_iff].
Qed.

Lemma walk_tree_files children :
  Forall (fun n => ∀ top p,
            p ∈ List.flat_map triple_files (walk_node top n)
            ↔ found_in_node top n p) children →
  ∀ top p,
    p ∈ List.flat_map triple_files (os_walk top children)
    ↔ ∃ dirs f, file_at children dirs f ∧ pattern_search f = false
                ∧ p = path_join (walk_root top dirs) f.
Proof.
  intros IH top p. unfold os_walk. cbn [List.flat_map].
  rewrite flat_map_flat_map.
  rewrite elem_of_app, elem_of_triple_files, elem_of_flat_map.
  rewrite Forall_forall in IH. split.
  - intros [(f & Hin & Hf & ->)|(n & Hn & Hp)].
    + apply elem_of_file_names in Hin as [c Hin].
      exists [], f. split; [by econstructor|done].
    + apply (IH n Hn) in Hp as (name & sub & dirs & f & -> & Hat & Hf & ->).
      exists (name :: dirs), f. split; [by econstructor|done].
  - intros (dirs & f & Hat & Hf & ->). inversion Hat; subst.
    + left. exists f. split; [apply elem_of_file_names; eauto|done].
    + right. eexists. split; [eassumption|]. apply IH; [done|].
      by eexists _, _, _, _.
Qed.

Lemma walk_node_files n : ∀ top p,
  p ∈ List.flat_map triple_files (walk_node top n) ↔ found_in_node top n p.
Proof.
  induction n as [name c|name children IH] using node_ind2; intros top p.
  - simpl. split; [by intros H%elem_of_nil|].
    by intros (? & ? & ? & ? & ? & _).
  - change (walk_node top (Dir name children))
      with (os_walk (path_join top name) children).
    rewrite (walk_tree_files children IH). unfold found_in_node. split.
    + intros (dirs & f & Hat & Hf & ->). by eexists _, _, _, _.
    + intros (name' & sub & dirs & f & [= <- <-] & Hat & Hf & ->). eauto.
Qed.

Lemma os_walk_files top tree p :
  p ∈ List.flat_map triple_files (os_walk top tree)
  ↔ ∃ dirs f, file_at tree dirs f ∧ pattern_search f = false
              ∧ p = path_join (walk_root top dirs) f.
Proof.
  apply walk_tree_files. apply Forall_forall. intros n _.
  apply walk_node_files.
Qed.

Lemma walk_tree_subdirs children :
  Forall (fun n => ∀ top d,
            d ∈ List.flat_map triple_subdirs (walk_node top n)
            ↔ subdir_in_node n d) children →
  ∀ top d,
    d ∈ List.flat_map triple_subdirs (os_walk top children)
    ↔ ∃ dirs, dir_at children dirs d.
Proof.
  intros IH top d. unfold os_walk. cbn [List.flat_map].
  unfold triple_subdirs at 1. simpl.
  rewrite flat_map_flat_map.
  rewrite elem_of_app, elem_of_subdir_names, elem_of_flat_map.
  rewrite Forall_forall in IH. split.
  - intros [[sub Hin]|(n & Hn & Hd)].
    + exists []. by econstructor.
    + apply (IH n Hn) in Hd as (name & sub & dirs & -> & Hat).
      exists (name :: dirs). by econstructor.
  - intros (dirs & Hat). inversion Hat; subst.
    + left. eauto.
    + right. eexists. split; [eassumption|]. apply IH; [done|].
      by eexists _, _, _.
Qed.

Lemma walk_node_subdirs n : ∀ top d,
  d ∈ List.flat_map triple_subdirs (walk_node top n) ↔ subdir_in_node n d.
Proof.
  induction n as [name c|name children IH] using node_ind2; intros top d.
  - simpl. split; [by intros H%elem_of_nil|].
    by intros (? & ? & ? & ? & _).
  - change (walk_node top (Dir name children))
      with (os_walk (path_join top name) children).
    rewrite (walk_tree_subdirs children IH). unfold subdir_in_node. split.
    + intros (dirs & Hat). by eexists _, _, _.
    + intros (name' & sub & dirs & [= <- <-] & Hat). eauto.
Qed.

Lemma os_walk_subdirs top tree d :
  d ∈ List.flat_map triple_subdirs (os_walk top tree)
  ↔ ∃ dirs, dir_at tree dirs d.
Proof.
  apply walk_tree_subdirs. apply Forall_forall. intros n _.
  apply walk_node_subdirs.
Qed.

Lemma GrepDicomsFromFolder_spec dicom_folder tree :
  GrepDicomsFromFolder dicom_folder tree
  = if has_empty_dir tree
    then Exit ("Could not find any files in " +:+ dicom_folder)
    else Ok (List.flat_map triple_files (os_walk dicom_folder tree),
             List.flat_map triple_subdirs (os_walk dicom_folder tree)).
Proof.
  unfold GrepDicomsFromFolder. by rewrite grep_loop_spec, os_walk_empty.
Qed.

(** ** File-system calls *)

Lemma os_mkdir_Ok p w u w' :
  os_mkdir p w = (Ok u, w') →
  ∃ k, resolve p = Some k ∧ fs w !! k = None
       ∧ fs w !! parent k = Some FDir
       ∧ w' = set_fs (insert k FDir) w.
Proof.
  unfold os_mkdir. destruct (resolve p) as [k|]; [|done].
  destruct (fs w !! k) eqn:Hk; [done|].
  destruct (fs w !! parent k) as [[|c]|] eqn:Hp; [|done..].
  intros [= _ <-]. by exists k.
Qed.

Lemma os_mkdir_run p k w :
  resolve p = Some k → fs w !! k = None → fs w !! parent k = Some FDir →
  os_mkdir p w = (Ok tt, set_fs (insert k FDir) w).
Proof. intros Hr Hk Hp. unfold os_mkdir. by rewrite Hr, Hk, Hp. Qed.

Lemma path_isdir_insert_dir (m : fsmap) k q :
  path_isdir m q = true → path_isdir (<[k := FDir]> m) q = true.
Proof.
  unfold path_isdir, node_at. destruct (resolve q) as [kq|]; [|done].
  destruct (decide (k = kq)) as [->|Hne].
  - by rewrite lookup_insert_eq.
  - by rewrite lookup_insert_ne.
Qed.

Lemma path_isdir_insert_eq (m : fsmap) k q :
  resolve q = Some k → path_isdir (<[k := FDir]> m) q = true.
Proof.
  intros Hq. unfold path_isdir, node_at. by rewrite Hq, lookup_insert_eq.
Qed.

Lemma os_mkdir_keeps_dirs p w u w' q :
  os_mkdir p w = (Ok u, w') →
  path_isdir (fs w) q = true → path_isdir (fs w') q = true.
Proof.
  intros (k & _ & _ & _ & ->)%os_mkdir_Ok. simpl.
  apply path_isdir_insert_dir.
Qed.

Lemma os_mkdir_creates p w u w' :
  os_mkdir p w = (Ok u, w') →
  path_exists (fs w) p = false ∧ path_isdir (fs w') p = true.
Proof.
  intros (k & Hr & Hk & _ & ->)%os_mkdir_Ok. split.
  - unfold path_exists, node_at. by rewrite Hr, Hk.
  - simpl. by apply path_isdir_insert_eq.
Qed.

Lemma mkdir_loop_keeps_dirs (f g : string → string) subdirs_list :
  ∀ w u w' q,
    for_each subdirs_list (fun subdir =>
      os_mkdir (f subdir) ;;; os_mkdir (g subdir)) w = (Ok u, w') →
    path_isdir (fs w) q = true → path_isdir (fs w') q = true.
Proof.
  induction subdirs_list as [|subdir rest IH]; intros w u w' q; simpl.
  - by intros [= _ <-].
  - intros Hrun Hq.
    apply bind_inv_Ok in Hrun as (u1 & w1 & Hbody & Hrun).
    apply bind_inv_Ok in Hbody as (u2 & w2 & Hm1 & Hm2).
    eapply IH; [exact Hrun|].
    eapply os_mkdir_keeps_dirs; [exact Hm2|].
    by eapply os_mkdir_keeps_dirs.
Qed.

Lemma path_exists_insert_None (m : fsmap) k (x : fnode) q :
  path_exists (<[k := x]> m) q = false → path_exists m q = false.
Proof.
  unfold path_exists, node_at. destruct (resolve q) as [kq|]; [|done].
  destruct (decide (k = kq)) as [->|Hne].
  - by rewrite lookup_insert_eq.
  - by rewrite lookup_insert_ne.
Qed.

Lemma createDirectories_Ok dicom_folder dicom_fields subdirs_list w dirs w' :
  createDirectories dicom_folder dicom_fields subdirs_list w = (Ok dirs, w') →
  ∃ e v,
    dict_get dicom_fields "0010,0010" = Some e ∧ Value e = Some v
    ∧ dirs = (dicom_folder +:+ sep +:+ v,
              dicom_folder +:+ sep +:+ v +:+ "_anonymized")
    ∧ path_exists (fs w) dirs.1 = false
    ∧ path_exists (fs w) dirs.2 = false
    ∧ path_isdir (fs w') dirs.1 = true
    ∧ path_isdir (fs w') dirs.2 = true.
Proof.
  unfold createDirectories.
  destruct (dict_get dicom_fields "0010,0010") as [e|]; [|done].
  destruct (Value e) as [v|] eqn:Hv; [|done].
  intros Hrun. exists e, v. split; [done|]. split; [done|].
  apply bind_inv_Ok in Hrun as (u1 & w1 & Hm1 & Hrun).
  apply bind_inv_Ok in Hrun as (u2 & w2 & Hm2 & Hrun).
  apply bind_inv_Ok in Hrun as (u3 & w3 & Hloop & Hrun).
  injection Hrun as <- <-. cbn [fst snd].
  destruct (os_mkdir_creates _ _ _ _ Hm1) as [Hn1 Hd1].
  destruct (os_mkdir_creates _ _ _ _ Hm2) as [Hn2 Hd2].
  split; [done|]. split; [exact Hn1|]. split.
  - apply os_mkdir_Ok in Hm1 as (k & _ & _ & _ & ->).
    simpl in Hn2. by eapply path_exists_insert_None.
  - pose proof (mkdir_loop_keeps_dirs
                  (fun subdir => (dicom_folder +:+ sep +:+ v) +:+ sep +:+ subdir)
                  (fun subdir => (dicom_folder +:+ sep +:+ v +:+ "_anonymized")
                                 +:+ sep +:+ subdir)
                  subdirs_list w2 u3 w3) as Hkeep.
    split.
    + apply Hkeep; [exact Hloop|]. by eapply os_mkdir_keeps_dirs.
    + by apply Hkeep.
Qed.

Lemma createDirectories_KeyError dicom_folder dicom_fields subdirs_list w :
  (∀ e, dict_get dicom_fields "0010,0010" = Some e → Value e = None) →
  ∃ key,
    createDirectories dicom_folder dicom_fields subdirs_list w
    = (Raise (KeyError key), w).
Proof.
  intros Hno. unfold createDirectories.
  destruct (dict_get dicom_fields "0010,0010") as [e|]; [|by eexists].
  rewrite (Hno e eq_refl). by eexists.
Qed.

(** ** Paths *)

Lemma components_nonempty a : components a ≠ [].
Proof.
  destruct a as [|c a]; simpl; [done|].
  destruct (Ascii.eqb c sep_char); [done|]. by destruct (components a).
Qed.

Lemma components_snoc a :
  ∃ init, components a = init ++ [basename a].
Proof.
  unfold basename. destruct (last (components a)) as [b|] eqn:Hl.
  - apply last_Some in Hl as [init ->]. by exists init.
  - apply last_None in Hl. by destruct (components_nonempty a).
Qed.

Lemma basename_snoc a init b : components a = init ++ [b] → basename a = b.
Proof. intros H. unfold basename. by rewrite H, last_snoc. Qed.

Lemma components_app_nosep s : components s = [s] →
  ∀ a init b,
    components a = init ++ [b] →
    components (a +:+ s) = init ++ [b +:+ s].
Proof.
  intros Hs. induction a as [|c a IH]; intros init b Ha.
  - simpl in Ha. destruct init as [|x [|y init]]; try done.
    injection Ha as <-. by rewrite append_nil_l.
  - destruct (components_snoc a) as [i' Hi']. specialize (IH _ _ Hi').
    rewrite append_cons. simpl in *. rewrite IH.
    destruct (Ascii.eqb c sep_char).
    + rewrite Hi' in Ha. rewrite app_comm_cons in Ha.
      apply app_inj_tail in Ha as [<- <-]. done.
    + rewrite Hi' in Ha. destruct i' as [|h t]; simpl in *.
      * destruct init as [|x [|y init]]; try done. by injection Ha as <-.
      * rewrite app_comm_cons in Ha. by apply app_inj_tail in Ha as [<- <-].
Qed.

Lemma append_neq_self (b s : string) : s ≠ EmptyString → b ≠ b +:+ s.
Proof.
  intros Hs Hb. apply Hs. symmetry. apply (String.app_inj b).
  by rewrite append_nil_r.
Qed.

Lemma split_path_snoc a init b s :
  components a = init ++ [b] → b ≠ EmptyString → components s = [s] →
  split_path a = List.filter nonempty_component init ++ [b]
  ∧ split_path (a +:+ s)
    = List.filter nonempty_component init ++ [b +:+ s].
Proof.
  intros Ha Hb Hs. unfold split_path.
  rewrite (components_app_nosep s Hs a init b Ha), Ha.
  rewrite !List.filter_app. simpl.
  destruct b as [|c b]; [done|]. by rewrite append_cons.
Qed.

Lemma strip_prefix_app (x k : list string) : strip_prefix x (x ++ k) = Some k.
Proof.
  induction x as [|a x IH]; simpl; [by destruct k|].
  by rewrite String.eqb_refl.
Qed.

Lemma strip_prefix_Some (p k rel : list string) :
  strip_prefix p k = Some rel ↔ k = p ++ rel.
Proof.
  revert k. induction p as [|a p IH]; intros k; simpl.
  - destruct k; split; congruence.
  - destruct k as [|b k]; [done|].
    destruct (String.eqb_spec a b) as [->|Hne].
    + rewrite IH. split; congruence.
    + split; [done|]. intros [= -> _]. done.
Qed.

Lemma under_spec (p k : list string) :
  under p k = true ↔ ∃ rel, k = p ++ rel.
Proof.
  unfold under. destruct (strip_prefix p k) as [rel|] eqn:Hs.
  - apply strip_prefix_Some in Hs. split; [eauto|done].
  - split; [done|]. intros [rel Hrel]. apply strip_prefix_Some in Hrel.
    congruence.
Qed.

Lemma under_refl (k : list string) : under k k = true.
Proof. apply under_spec. exists []. by rewrite app_nil_r. Qed.

Lemma under_sibling (x : list string) (b b' : string) rel :
  b ≠ b' → under (x ++ [b]) (x ++ b' :: rel) = false.
Proof.
  intros Hne. destruct (under _ _) eqn:Hu; [|done].
  apply under_spec in Hu as [rel' Hrel]. rewrite <- app_assoc in Hrel.
  apply app_inv_head in Hrel. simpl in Hrel. congruence.
Qed.

Lemma archive_outside_directory directory :
  basename directory ≠ EmptyString →
  ∃ x,
    split_path directory = x ++ [basename directory]
    ∧ split_path (directory +:+ ".zip")
      = x ++ [basename directory +:+ ".zip"]
    ∧ archive_target directory = split_path (directory +:+ ".zip")
    ∧ under (split_path directory) (split_path (directory +:+ ".zip"))
      = false.
Proof.
  intros Hb. destruct (components_snoc directory) as [init Hinit].
  destruct (split_path_snoc directory init (basename directory) ".zip"
              Hinit Hb eq_refl) as [Hd Hz].
  exists (List.filter nonempty_component init).
  split; [done|]. split; [done|]. split.
  - unfold archive_target. rewrite Hd, last_snoc, removelast_last. by rewrite Hz.
  - rewrite Hd, Hz. apply under_sibling. by apply append_neq_self.
Qed.

Lemma remove_tree_lookup (m : fsmap) dir k :
  remove_tree dir m !! k = if under dir k then None else m !! k.
Proof.
  unfold remove_tree. destruct (under dir k) eqn:Hu.
  - apply map_lookup_filter_None. right. intros x _. simpl. congruence.
  - destruct (m !! k) as [x|] eqn:Hk.
    + apply map_lookup_filter_Some. by split.
    + apply map_lookup_filter_None. by left.
Qed.

Lemma resolve_Some p k : resolve p = Some k → k = split_path p.
Proof. unfold resolve. destruct (is_empty_string p); congruence. Qed.

(** ** [zipDicom] *)

Lemma path_isdir_true (m : fsmap) p :
  path_isdir m p = true →
  resolve p = Some (split_path p) ∧ m !! split_path p = Some FDir.
Proof.
  unfold path_isdir, node_at. destruct (resolve p) as [k|] eqn:Hr; [|done].
  pose proof (resolve_Some _ _ Hr) as ->.
  by destruct (m !! split_path p) as [[|c]|].
Qed.

Lemma shutil_rmtree_run p w :
  path_isdir (fs w) p = true →
  shutil_rmtree p w = (Ok tt, set_fs (remove_tree (split_path p)) w).
Proof.
  intros (Hr & Hk)%path_isdir_true. unfold shutil_rmtree. by rewrite Hr, Hk.
Qed.

Lemma node_at_remove_tree (m : fsmap) dir q :
  under dir (split_path q) = false →
  node_at (remove_tree dir m) q = node_at m q.
Proof.
  intros Hu. unfold node_at. destruct (resolve q) as [k|] eqn:Hr; [|done].
  pose proof (resolve_Some _ _ Hr) as ->.
  by rewrite remove_tree_lookup, Hu.
Qed.

Lemma path_exists_remove_tree_self (m : fsmap) p :
  path_exists (remove_tree (split_path p) m) p = false.
Proof.
  unfold path_exists, node_at. destruct (resolve p) as [k|] eqn:Hr; [|done].
  pose proof (resolve_Some _ _ Hr) as ->.
  by rewrite remove_tree_lookup, under_refl.
Qed.

Lemma zipDicom_empty make_archive directory w :
  os_listdir directory w = (Ok [], w) →
  zipDicom make_archive directory w
  = (Exit ("The directory " +:+ directory
           +:+ " is empty and will not be archived."), w).
Proof.
  intros Hl. unfold zipDicom. erewrite bind_Ok; [|exact Hl].
  cbn [is_nil]. by erewrite bind_Exit.
Qed.

Lemma zipDicom_not_created make_archive directory w names u w1 :
  os_listdir directory w = (Ok names, w) → names ≠ [] →
  make_archive directory directory w = (Ok u, w1) →
  path_exists (fs w1) (directory +:+ ".zip") = false →
  zipDicom make_archive directory w
  = (Exit ((directory +:+ ".zip") +:+ " could not be created."), w1).
Proof.
  intros Hl Hne Hmk Hex. unfold zipDicom. erewrite bind_Ok; [|exact Hl].
  destruct names; [done|]. cbn [is_nil].
  erewrite bind_Ok; [|exact Hmk].
  erewrite bind_Ok; [|reflexivity]. by rewrite Hex.
Qed.

Lemma zipDicom_created make_archive directory w names u w1 :
  os_listdir directory w = (Ok names, w) → names ≠ [] →
  make_archive directory directory w = (Ok u, w1) →
  path_exists (fs w1) (directory +:+ ".zip") = true →
  path_isdir (fs w1) directory = true →
  zipDicom make_archive directory w
  = (Ok (directory +:+ ".zip"),
     set_fs (remove_tree (split_path directory)) w1).
Proof.
  intros Hl Hne Hmk Hex Hdir. unfold zipDicom. erewrite bind_Ok; [|exact Hl].
  destruct names; [done|]. cbn [is_nil].
  erewrite bind_Ok; [|exact Hmk].
  erewrite bind_Ok; [|reflexivity]. rewrite Hex.
  erewrite bind_Ok; [reflexivity|]. by apply shutil_rmtree_run.
Qed.

Lemma zipDicom_archiver_raises make_archive directory w names e w1 :
  os_listdir directory w = (Ok names, w) → names ≠ [] →
  make_archive directory directory w = (Raise e, w1) →
  zipDicom make_archive directory w = (Raise e, w1).
Proof.
  intros Hl Hne Hmk. unfold zipDicom. erewrite bind_Ok; [|exact Hl].
  destruct names; [done|]. cbn [is_nil].
  by apply bind_Raise.
Qed.

(** ** Names and joined paths *)

Lemma valid_name_no_sep_prefix n : valid_name n → String.prefix sep n = false.
Proof.
  intros [Hne Hc]. destruct n as [|c n]; [done|].
  unfold sep. cbn [String.prefix].
  destruct (ascii_dec "/" c) as [<-|Hd]; [|done].
  simpl in Hc. by destruct (components n).
Qed.

Lemma valid_name_not_ends_with_sep n :
  components n = [n] → ends_with sep n = false.
Proof.
  induction n as [|c n IH]; [reflexivity|]. intros Hc.
  cbn [components] in Hc.
  destruct (Ascii.eqb_spec c sep_char) as [->|Hc'].
  { by destruct (components n). }
  destruct (components n) as [|h t] eqn:Hn;
    [by destruct (components_nonempty n)|].
  injection Hc as -> ->. specialize (IH eq_refl).
  cbn [ends_with]. rewrite IH, orb_false_r.
  apply String.eqb_neq. intros [= <- _]. done.
Qed.

Lemma valid_name_split n : valid_name n → split_path n = [n].
Proof.
  intros [Hne Hc]. unfold split_path. rewrite Hc. simpl.
  by destruct n.
Qed.

Lemma components_app_sep a b :
  components (a +:+ sep +:+ b) = components a ++ components b.
Proof.
  induction a as [|c a IH]; [done|].
  rewrite append_cons. cbn [components]. rewrite IH.
  destruct (Ascii.eqb c sep_char); [done|].
  destruct (components a) as [|h t] eqn:Ha; [|done].
  by destruct (components_nonempty a).
Qed.

Lemma split_path_app_sep a b :
  split_path (a +:+ sep +:+ b) = split_path a ++ split_path b.
Proof.
  unfold split_path. by rewrite components_app_sep, List.filter_app.
Qed.

Lemma split_path_child a n :
  valid_name n → split_path (a +:+ sep +:+ n) = split_path a ++ [n].
Proof. intros Hn. by rewrite split_path_app_sep, (valid_name_split n Hn). Qed.

Lemma basename_child a n :
  components n = [n] → basename (a +:+ sep +:+ n) = n.
Proof.
  intros Hn. unfold basename. by rewrite components_app_sep, Hn, last_snoc.
Qed.

Lemma is_empty_string_app a b :
  is_empty_string (a +:+ b) = is_empty_string a && is_empty_string b.
Proof. by destruct a. Qed.

Lemma resolve_child a n :
  valid_name n →
  resolve (a +:+ sep +:+ n) = Some (split_path a ++ [n]).
Proof.
  intros Hn. unfold resolve.
  rewrite is_empty_string_app, andb_false_r. by rewrite split_path_child.
Qed.

Lemma string_length_app (a b : string) :
  String.length (a +:+ b) = String.length a + String.length b.
Proof.
  induction a as [|c a IH]; [done|].
  rewrite append_cons. simpl. by rewrite IH.
Qed.

Lemma ends_with_app suf a t :
  t ≠ EmptyString →
  (String.length suf <= String.length t)%nat →
  ends_with suf (a +:+ t) = ends_with suf t.
Proof.
  intros Ht Hlen. induction a as [|c a IH]; [done|].
  rewrite append_cons. cbn [ends_with]. rewrite IH.
  replace (String.eqb suf (String c (a +:+ t))) with false; [done|].
  symmetry. apply String.eqb_neq. intros ->.
  cbn [String.length] in Hlen. rewrite string_length_app in Hlen. lia.
Qed.

Lemma ends_with_sep_child a n :
  valid_name n → ends_with sep (a +:+ sep +:+ n) = false.
Proof.
  intros [Hne Hc]. rewrite <- append_assoc.
  rewrite ends_with_app; [by apply valid_name_not_ends_with_sep|done|].
  destruct n; [done|]. simpl. lia.
Qed.

Lemma rstrip_sep_id s :
  ends_with sep s = false → rstrip_sep s = s.
Proof.
  induction s as [|c s IH]; [done|]. cbn [ends_with rstrip_sep].
  intros [Heq Hs]%orb_false_iff. rewrite (IH Hs).
  destruct s as [|c' s]; [|done]. simpl.
  destruct (Ascii.eqb_spec c sep_char) as [->|]; [|done].
  by vm_compute in Heq.
Qed.

Lemma path_join_child a n :
  is_empty_string a || ends_with sep a = false →
  valid_name n →
  path_join a n = a +:+ sep +:+ n.
Proof.
  intros Ha Hn. unfold path_join.
  by rewrite (valid_name_no_sep_prefix n Hn), Ha.
Qed.

Lemma valid_name_app n s :
  valid_name n → components s = [s] → valid_name (n +:+ s).
Proof.
  intros [Hne Hc] Hs. split.
  - destruct n; [done|]. by rewrite append_cons.
  - by apply (components_app_nosep s Hs n [] n).
Qed.

(** ** [str.replace] on a path that starts with the replaced string *)

Lemma prefix_app (a s : string) : String.prefix a (a +:+ s) = true.
Proof.
  induction a as [|c a IH]; [by destruct s|].
  rewrite append_cons. cbn [String.prefix].
  destruct (ascii_dec c c); [exact IH|done].
Qed.

Lemma replace_from_skip old new a s :
  replace_from (String.length a) old new (a +:+ s)
  = replace_from 0 old new s.
Proof.
  induction a as [|c a IH]; [by destruct s|].
  rewrite append_cons. simpl. exact IH.
Qed.

Lemma replace_from_no_occurrence old new s :
  occurs old s = false → replace_from 0 old new s = s.
Proof.
  induction s as [|c s IH]; [done|]. cbn [occurs replace_from].
  intros [Hp Hs]%orb_false_iff. rewrite Hp. by rewrite IH.
Qed.

Lemma str_replace_prefix old new s :
  old ≠ EmptyString →
  occurs old s = false →
  str_replace (old +:+ s) old new = new +:+ s.
Proof.
  intros Hne Hocc. unfold str_replace.
  destruct old as [|c old]; [done|]. cbn [is_empty_string].
  rewrite append_cons. cbn [replace_from].
  change (String c (old +:+ s)) with (String c old +:+ s).
  rewrite prefix_app. f_equal.
  replace (String.length (String c old) - 1) with (String.length old)
    by (simpl; lia).
  rewrite replace_from_skip.
  by apply replace_from_no_occurrence.
Qed.

(** Two names of different lengths are different. *)
Ltac by_length :=
  let H := fresh in
  intros H;
  repeat match type of H with
         | context [?x] => is_var x; progress unfold x in H
         end;
  apply (f_equal String.length) in H;
  rewrite ?string_length_app in H; simpl in H; lia.

(** ** Updates of a flat root *)

Section FlatShape.

Variable base : list string.
Variables vO vA : string.
Hypothesis vO_vA : vO ≠ vA.

Lemma flat_shape_swap R Oc Ac m :
  flat_shape base vO vA R Oc Ac m → flat_shape base vA vO R Ac Oc m.
Proof.
  intros Hs rel. rewrite Hs.
  destruct rel as [|x [|n [|? ?]]]; try done. simpl.
  destruct (String.eqb_spec x vO) as [HxO|HxO];
    destruct (String.eqb_spec x vA) as [HxA|HxA]; try done.
  by subst.
Qed.

Lemma flat_shape_base R Oc Ac m :
  flat_shape base vO vA R Oc Ac m → m !! base = Some FDir.
Proof. intros Hs. specialize (Hs []). by rewrite app_nil_r in Hs. Qed.

Lemma flat_shape_root R Oc Ac m x :
  flat_shape base vO vA R Oc Ac m → m !! (base ++ [x]) = R !! x.
Proof. intros Hs. by rewrite Hs. Qed.

Lemma flat_shape_O R Oc Ac m n :
  flat_shape base vO vA R Oc Ac m →
  m !! (base ++ [vO; n]) = FFile <$> Oc !! n.
Proof. intros Hs. rewrite Hs. simpl. by rewrite String.eqb_refl. Qed.

Lemma flat_shape_insert_root R Oc Ac m x nd :
  flat_shape base vO vA R Oc Ac m →
  flat_shape base vO vA (<[x := nd]> R) Oc Ac (<[base ++ [x] := nd]> m).
Proof.
  intros Hs rel. destruct (decide (rel = [x])) as [->|Hne].
  - simpl. by rewrite !lookup_insert_eq.
  - rewrite lookup_insert_ne by (intros H%app_inv_head; done).
    rewrite Hs. destruct rel as [|y [|n [|? ?]]]; try done. simpl.
    rewrite lookup_insert_ne; [done|]. intros ->. done.
Qed.

Lemma flat_shape_delete_root R Oc Ac m x :
  flat_shape base vO vA R Oc Ac m →
  flat_shape base vO vA (delete x R) Oc Ac (delete (base ++ [x]) m).
Proof.
  intros Hs rel. destruct (decide (rel = [x])) as [->|Hne].
  - simpl. by rewrite !lookup_delete_eq.
  - rewrite lookup_delete_ne by (intros H%app_inv_head; done).
    rewrite Hs. destruct rel as [|y [|n [|? ?]]]; try done. simpl.
    rewrite lookup_delete_ne; [done|]. intros ->. done.
Qed.

Lemma flat_shape_insert_O R Oc Ac m n c :
  flat_shape base vO vA R Oc Ac m →
  flat_shape base vO vA R (<[n := c]> Oc) Ac
    (<[base ++ [vO; n] := FFile c]> m).
Proof.
  intros Hs rel. destruct (decide (rel = [vO; n])) as [->|Hne].
  - simpl. by rewrite String.eqb_refl, !lookup_insert_eq.
  - rewrite lookup_insert_ne by (intros H%app_inv_head; done).
    rewrite Hs. destruct rel as [|y [|n' [|? ?]]]; try done. simpl.
    destruct (String.eqb_spec y vO) as [->|HyO]; [|done].
    rewrite lookup_insert_ne; [done|]. intros ->. done.
Qed.

Lemma flat_shape_remove_O R Oc Ac m :
  flat_shape base vO vA R Oc Ac m →
  flat_shape base vO vA (delete vO R) ∅ Ac (remove_tree (base ++ [vO]) m).
Proof.
  intros Hs rel. rewrite remove_tree_lookup.
  destruct (under (base ++ [vO]) (base ++ rel)) eqn:Hu.
  - apply under_spec in Hu as [rel' Hrel]. rewrite <- app_assoc in Hrel.
    apply app_inv_head in Hrel as ->. simpl.
    destruct rel' as [|n [|? ?]]; simpl.
    + by rewrite lookup_delete_eq.
    + by rewrite String.eqb_refl, lookup_empty.
    + done.
  - assert (Hhd : ∀ rel', rel ≠ vO :: rel').
    { intros rel' ->.
      assert (Ht : under (base ++ [vO]) (base ++ vO :: rel') = true).
      { apply under_spec. exists rel'. by rewrite <- app_assoc. }
      congruence. }
    rewrite Hs. destruct rel as [|y [|n [|? ?]]]; try done; simpl.
    + rewrite lookup_delete_ne; [done|]. intros ->. by eapply Hhd.
    + destruct (String.eqb_spec y vO) as [->|HyO]; [|done].
      by destruct (Hhd [n]).
Qed.

End FlatShape.

Lemma flat_shape_A base vO vA R Oc Ac m n :
  vO ≠ vA →
  flat_shape base vO vA R Oc Ac m →
  m !! (base ++ [vA; n]) = FFile <$> Ac !! n.
Proof.
  intros Hne Hs.
  exact (flat_shape_O base vA vO R Ac Oc m n
           (flat_shape_swap base vO vA Hne R Oc Ac m Hs)).
Qed.

Lemma flat_shape_insert_A base vO vA R Oc Ac m n c :
  vO ≠ vA →
  flat_shape base vO vA R Oc Ac m →
  flat_shape base vO vA R Oc (<[n := c]> Ac)
    (<[base ++ [vA; n] := FFile c]> m).
Proof.
  intros Hne Hs. apply flat_shape_swap; [done|].
  apply flat_shape_insert_O. by apply flat_shape_swap.
Qed.

Lemma flat_shape_remove_A base vO vA R Oc Ac m :
  vO ≠ vA →
  flat_shape base vO vA R Oc Ac m →
  flat_shape base vO vA (delete vA R) Oc ∅ (remove_tree (base ++ [vA]) m).
Proof.
  intros Hne Hs. apply flat_shape_swap; [done|].
  apply (flat_shape_remove_O base vA vO (not_eq_sym Hne) R Ac Oc m).
  by apply flat_shape_swap.
Qed.

(** ** Listing and archiving a directory *)

Lemma elem_of_archive_members (m : fsmap) dir rel c :
  (rel, c) ∈ archive_members m dir
  ↔ rel ≠ [] ∧ m !! (dir ++ rel) = Some (FFile c).
Proof.
  unfold archive_members. rewrite list_elem_of_omap. split.
  - intros ([k nd] & Hin & Hm). apply elem_of_map_to_list in Hin.
    unfold member_of in Hm. simpl in Hm.
    destruct (strip_prefix dir k) as [[|n rel']|] eqn:Hs; try done.
    destruct nd as [|c']; [done|]. injection Hm as <- <-.
    apply strip_prefix_Some in Hs as ->. done.
  - intros [Hne Hk]. exists (dir ++ rel, FFile c).
    split; [by apply elem_of_map_to_list|].
    unfold member_of. simpl. rewrite strip_prefix_app.
    by destruct rel.
Qed.

Lemma elem_of_children_names (m : fsmap) dir n :
  n ∈ children_names m dir ↔ is_Some (m !! (dir ++ [n])).
Proof.
  unfold children_names. rewrite list_elem_of_omap. split.
  - intros ([k nd] & Hin & Hm). apply elem_of_map_to_list in Hin.
    unfold child_name in Hm. simpl in Hm.
    destruct (strip_prefix dir k) as [[|n' [|? ?]]|] eqn:Hs; try done.
    injection Hm as <-. apply strip_prefix_Some in Hs as ->. eauto.
  - intros [nd Hk]. exists (dir ++ [n], nd).
    split; [by apply elem_of_map_to_list|].
    unfold child_name. simpl. by rewrite strip_prefix_app.
Qed.

Lemma flat_shape_members_O base vO vA R Oc Ac m rel c :
  flat_shape base vO vA R Oc Ac m →
  (rel, c) ∈ archive_members m (base ++ [vO])
  ↔ ∃ n, rel = [n] ∧ Oc !! n = Some c.
Proof.
  intros Hs. rewrite elem_of_archive_members, <- app_assoc, Hs. simpl.
  destruct rel as [|n [|? ?]]; simpl.
  - split; [by intros [? _]|]. by intros (? & ? & _).
  - rewrite String.eqb_refl. split.
    + intros [_ H]. exists n. split; [done|].
      destruct (Oc !! n); by simplify_eq/=.
    + intros (n' & [= <-] & ->). done.
  - split; [by intros [_ ?]|]. by intros (? & ? & _).
Qed.

Lemma flat_shape_listdir_O base vO vA R Oc Ac m n c :
  flat_shape base vO vA R Oc Ac m →
  Oc !! n = Some c →
  children_names m (base ++ [vO]) ≠ [].
Proof.
  intros Hs Hn Hnil.
  assert (Hin : n ∈ children_names m (base ++ [vO])).
  { apply elem_of_children_names. rewrite <- app_assoc. simpl.
    rewrite (flat_shape_O base vO vA R Oc Ac m n Hs), Hn. by eexists. }
  rewrite Hnil in Hin. by apply elem_of_nil in Hin.
Qed.

(** ** The initial world of a flat root *)

Lemma dirs_at_lookup ks (k : list string) :
  dirs_at ks !! k = if decide (k ∈ ks) then Some FDir else None.
Proof.
  induction ks as [|k' ks IH]; cbn [dirs_at foldr].
  - rewrite lookup_empty.
    destruct (decide (k ∈ [])) as [H|]; [by apply elem_of_nil in H|done].
  - fold (dirs_at ks).
    destruct (decide (k' = k)) as [->|Hne].
    + rewrite lookup_insert_eq.
      destruct (decide (k ∈ k :: ks)) as [|Hn]; [done|].
      destruct Hn. apply elem_of_cons. by left.
    + rewrite lookup_insert_ne by done. rewrite IH.
      destruct (decide (k ∈ ks)) as [Hin|Hin];
        destruct (decide (k ∈ k' :: ks)) as [Hin'|Hin']; try done.
      * destruct Hin'. apply elem_of_cons. by right.
      * apply elem_of_cons in Hin' as [->|?]; done.
Qed.

Lemma elem_of_ancestors (k b : list string) :
  k ∈ ancestors b ↔ ∃ r, b = k ++ r.
Proof.
  revert k. induction b as [|a b IH]; intros k; simpl.
  - rewrite list_elem_of_singleton. split.
    + intros ->. by exists [].
    + intros [r Hr]. symmetry in Hr. by apply app_eq_nil in Hr as [-> _].
  - rewrite elem_of_cons. split.
    + intros [->|Hin]; [by eexists|].
      apply list_elem_of_In, in_map_iff in Hin as (k' & <- & Hin).
      apply list_elem_of_In, IH in Hin as [r ->]. by exists r.
    + intros [r Hr]. destruct k as [|x k]; [by left|]. right.
      injection Hr as <- ->. apply list_elem_of_In, in_map_iff.
      exists k. split; [done|]. apply list_elem_of_In, IH. by eexists.
Qed.

Lemma init_world_flat_shape dicom_folder vO vA files :
  flat_shape (split_path dicom_folder) vO vA (root_entries files) ∅ ∅
    (fs (init_world dicom_folder (flat_tree files))).
Proof.
  unfold init_world, fs_of_tree, flat_tree, root_entries. simpl.
  induction files as [|[n c] files IH]; simpl.
  - intros rel. rewrite dirs_at_lookup.
    destruct (decide (split_path dicom_folder ++ rel
                      ∈ ancestors (split_path dicom_folder))) as [Hin|Hin].
    + apply elem_of_ancestors in Hin as [r Hr].
      apply (f_equal length) in Hr. rewrite !length_app in Hr.
      destruct rel; [done|]. simpl in Hr. lia.
    + destruct rel as [|x [|y [|? ?]]]; simpl; try done.
      * destruct Hin. rewrite app_nil_r. apply elem_of_ancestors.
        exists []. by rewrite app_nil_r.
      * rewrite !lookup_empty. simpl.
        by destruct (String.eqb x vO), (String.eqb x vA).
  - by apply flat_shape_insert_root.
Qed.

Lemma root_entries_lookup files n :
  NoDup files.*1 →
  (∀ c, root_entries files !! n = Some (FFile c) ↔ (n, c) ∈ files)
  ∧ (root_entries files !! n = Some FDir → False)
  ∧ (n ∉ files.*1 → root_entries files !! n = None).
Proof.
  intros Hnd. unfold root_entries.
  assert (Hnd' : NoDup (List.map (fun nc : string * fcontent =>
                                    (nc.1, FFile nc.2)) files).*1).
  { replace ((List.map (fun nc : string * fcontent =>
                          (nc.1, FFile nc.2)) files).*1)
      with (files.*1); [done|].
    clear. induction files as [|[? ?] ? IH]; simpl; [done|]. by f_equal. }
  split; [|split].
  - intros c. rewrite <- elem_of_list_to_map by done.
    rewrite !list_elem_of_In, in_map_iff. split.
    + intros ([n' c'] & [= -> ->] & Hin). done.
    + intros Hin. by exists (n, c).
  - intros Hd. apply elem_of_list_to_map in Hd; [|done].
    apply list_elem_of_In, in_map_iff in Hd as (? & [= _ ?] & _).
  - intros Hn. apply not_elem_of_list_to_map.
    replace ((List.map (fun nc : string * fcontent =>
                          (nc.1, FFile nc.2)) files).*1)
      with (files.*1); [done|].
    clear. induction files as [|[? ?] ? IH]; simpl; [done|]. by f_equal.
Qed.

(** ** Calls on a flat root *)

Lemma write_file_run p k c w :
  resolve p = Some k →
  fs w !! k ≠ Some FDir →
  fs w !! parent k = Some FDir →
  write_file p c w = (Ok tt, set_fs (insert k (FFile c)) w).
Proof.
  intros Hr Hk Hp. unfold write_file. rewrite Hr, Hp.
  by destruct (fs w !! k) as [[|c']|].
Qed.

Lemma read_content_run p k c w :
  resolve p = Some k → fs w !! k = Some (FFile c) →
  read_content p w = (Ok c, w).
Proof. intros Hr Hk. unfold read_content, node_at. by rewrite Hr, Hk. Qed.

Lemma os_unlink_run p k c w :
  resolve p = Some k → fs w !! k = Some (FFile c) →
  os_unlink p w = (Ok tt, set_fs (delete k) w).
Proof. intros Hr Hk. unfold os_unlink. by rewrite Hr, Hk. Qed.

Lemma samefile_ne (m : fsmap) p q k k' :
  resolve p = Some k → resolve q = Some k' → k ≠ k' →
  samefile m p q = false.
Proof.
  intros Hp Hq Hne. unfold samefile. rewrite Hp, Hq.
  by rewrite bool_decide_eq_false_2.
Qed.

Lemma for_each_map {A B} (f : A → B) (l : list A) (body : B → M unit) :
  for_each (List.map f l) body = for_each l (fun x => body (f x)).
Proof. induction l as [|x l IH]; simpl; [done|]. by rewrite IH. Qed.

Section FlatCalls.

Variable dicom_folder : string.
Variables vO vA : string.
Hypothesis folder_ok :
  is_empty_string dicom_folder || ends_with sep dicom_folder = false.
Hypothesis vO_ok : valid_name vO.
Hypothesis vA_ok : valid_name vA.
Hypothesis vO_vA : vO ≠ vA.

Local Abbreviation base := (split_path dicom_folder).
Local Abbreviation shape := (flat_shape (split_path dicom_folder) vO vA).

Lemma staging_dir_ok x :
  valid_name x →
  is_empty_string (dicom_folder +:+ sep +:+ x)
  || ends_with sep (dicom_folder +:+ sep +:+ x) = false.
Proof.
  intros Hx. rewrite is_empty_string_app, andb_false_r.
  by rewrite ends_with_sep_child.
Qed.

Lemma resolve_grandchild x n :
  valid_name x → valid_name n →
  resolve ((dicom_folder +:+ sep +:+ x) +:+ sep +:+ n)
  = Some (base ++ [x; n]).
Proof.
  intros Hx Hn. rewrite resolve_child by done.
  rewrite split_path_child by done. by rewrite <- app_assoc.
Qed.

Lemma node_at_root R Oc Ac w x :
  shape R Oc Ac (fs w) → valid_name x →
  node_at (fs w) (dicom_folder +:+ sep +:+ x) = R !! x.
Proof.
  intros Hs Hx. unfold node_at. rewrite resolve_child by done.
  by apply flat_shape_root with (vO := vO) (vA := vA) (Oc := Oc) (Ac := Ac).
Qed.

Lemma path_isdir_root R Oc Ac w x :
  shape R Oc Ac (fs w) → valid_name x → R !! x = Some FDir →
  path_isdir (fs w) (dicom_folder +:+ sep +:+ x) = true.
Proof.
  intros Hs Hx HR. unfold path_isdir.
  by rewrite (node_at_root R Oc Ac w x Hs Hx), HR.
Qed.

Lemma path_exists_root R Oc Ac w x :
  shape R Oc Ac (fs w) → valid_name x →
  path_exists (fs w) (dicom_folder +:+ sep +:+ x)
  = bool_decide (is_Some (R !! x)).
Proof.
  intros Hs Hx. unfold path_exists.
  rewrite (node_at_root R Oc Ac w x Hs Hx).
  destruct (R !! x).
  - by rewrite bool_decide_eq_true_2.
  - rewrite bool_decide_eq_false_2; [done|]. by intros [? ?].
Qed.

Lemma mkdir_root_run R Oc Ac w x :
  shape R Oc Ac (fs w) → valid_name x → R !! x = None →
  ∃ w',
    os_mkdir (dicom_folder +:+ sep +:+ x) w = (Ok tt, w')
    ∧ opened w' = opened w
    ∧ shape (<[x := FDir]> R) Oc Ac (fs w').
Proof.
  intros Hs Hx HR. eexists. split; [|split].
  - apply os_mkdir_run with (k := base ++ [x]).
    + by apply resolve_child.
    + by rewrite (flat_shape_root _ _ _ _ _ _ _ _ Hs).
    + unfold parent. rewrite removelast_last.
      by eapply flat_shape_base.
  - done.
  - simpl. by apply flat_shape_insert_root.
Qed.

(** One iteration of the copy and move loop. *)
Lemma stage_file_run R Oc Ac w n c :
  shape R Oc Ac (fs w) →
  valid_name n →
  R !! n = Some (FFile c) →
  R !! vO = Some FDir → R !! vA = Some FDir →
  Oc !! n = None → Ac !! n = None →
  ∃ w',
    (shutil_copy (path_join dicom_folder n) (dicom_folder +:+ sep +:+ vA) ;;;
     shutil_move (path_join dicom_folder n) (dicom_folder +:+ sep +:+ vO)) w
    = (Ok tt, w')
    ∧ opened w' = opened w
    ∧ shape (delete n R) (<[n := c]> Oc) (<[n := c]> Ac) (fs w').
Proof.
  intros Hs Hn HRn HRO HRA HOn HAn.
  rewrite (path_join_child dicom_folder n folder_ok Hn).
  assert (Hsrc : resolve (dicom_folder +:+ sep +:+ n) = Some (base ++ [n]))
    by by apply resolve_child.
  assert (Hbn : basename (dicom_folder +:+ sep +:+ n) = n)
    by (apply basename_child; apply Hn).
  (* the copy *)
  set (w1 := set_fs (insert (base ++ [vA; n]) (FFile c)) w).
  assert (Hcopy : shutil_copy (dicom_folder +:+ sep +:+ n)
                    (dicom_folder +:+ sep +:+ vA) w = (Ok tt, w1)).
  { unfold shutil_copy. erewrite bind_Ok; [|reflexivity].
    rewrite (path_isdir_root R Oc Ac w vA Hs vA_ok HRA), Hbn.
    rewrite (path_join_child _ n (staging_dir_ok vA vA_ok) Hn).
    rewrite (samefile_ne _ _ _ (base ++ [n]) (base ++ [vA; n]));
      [|done|by apply resolve_grandchild|]; cycle 1.
    { intros H%app_inv_head. done. }
    erewrite bind_Ok; [|by eapply read_content_run;
      [exact Hsrc|rewrite (flat_shape_root _ _ _ _ _ _ _ _ Hs)]].
    apply write_file_run.
    - by apply resolve_grandchild.
    - rewrite (flat_shape_A _ _ _ _ _ _ _ n vO_vA Hs), HAn. done.
    - unfold parent.
      change (base ++ [vA; n]) with (base ++ [vA] ++ [n]).
      rewrite app_assoc, removelast_last.
      by rewrite (flat_shape_root _ _ _ _ _ _ _ _ Hs). }
  assert (Hs1 : shape R Oc (<[n := c]> Ac) (fs w1)).
  { simpl. by apply flat_shape_insert_A. }
  (* the move *)
  set (w2 := set_fs (delete (base ++ [n]))
               (set_fs (insert (base ++ [vO; n]) (FFile c)) w1)).
  assert (Hmove : shutil_move (dicom_folder +:+ sep +:+ n)
                    (dicom_folder +:+ sep +:+ vO) w1 = (Ok tt, w2)).
  { unfold shutil_move. erewrite bind_Ok; [|reflexivity].
    rewrite (path_isdir_root R Oc _ w1 vO Hs1 vO_ok HRO).
    rewrite (samefile_ne _ _ _ (base ++ [n]) (base ++ [vO]));
      [|done|by apply resolve_child|]; cycle 1.
    { intros H%app_inv_head. injection H as ->. congruence. }
    rewrite rstrip_sep_id by (by apply ends_with_sep_child).
    rewrite Hbn, (path_join_child _ n (staging_dir_ok vO vO_ok) Hn).
    assert (HOk : fs w1 !! (base ++ [vO; n]) = None).
    { by rewrite (flat_shape_O _ _ _ _ _ _ _ n Hs1), HOn. }
    unfold path_exists, node_at.
    rewrite (resolve_grandchild vO n vO_ok Hn), HOk.
    unfold rename_file.
    rewrite (samefile_ne _ _ _ (base ++ [n]) (base ++ [vO; n]));
      [|done|by apply resolve_grandchild|]; cycle 1.
    { intros H%app_inv_head. done. }
    erewrite bind_Ok; [|by eapply read_content_run;
      [exact Hsrc|rewrite (flat_shape_root _ _ _ _ _ _ _ _ Hs1)]].
    erewrite bind_Ok; cycle 1.
    { apply write_file_run.
      - by apply resolve_grandchild.
      - by rewrite HOk.
      - unfold parent.
        change (base ++ [vO; n]) with (base ++ [vO] ++ [n]).
        rewrite app_assoc, removelast_last.
        by rewrite (flat_shape_root _ _ _ _ _ _ _ _ Hs1). }
    eapply os_unlink_run; [exact Hsrc|]. simpl.
    rewrite lookup_insert_ne by (intros H%app_inv_head; done).
    by rewrite (flat_shape_root _ _ _ _ _ _ _ _ Hs1). }
  exists w2. split; [|split].
  - erewrite bind_Ok; [exact Hmove|exact Hcopy].
  - done.
  - simpl. apply flat_shape_delete_root, flat_shape_insert_O; [done..|].
    exact Hs1.
Qed.

Lemma stage_loop_run (D : list (string * fcontent)) : ∀ w R Oc Ac,
  NoDup D.*1 →
  shape R Oc Ac (fs w) →
  R !! vO = Some FDir → R !! vA = Some FDir →
  (∀ n c, (n, c) ∈ D →
          valid_name n ∧ R !! n = Some (FFile c)
          ∧ Oc !! n = None ∧ Ac !! n = None) →
  ∃ w' R',
    for_each D (fun nc =>
      shutil_copy (path_join dicom_folder nc.1) (dicom_folder +:+ sep +:+ vA) ;;;
      shutil_move (path_join dicom_folder nc.1) (dicom_folder +:+ sep +:+ vO)) w
    = (Ok tt, w')
    ∧ opened w' = opened w
    ∧ shape R' (list_to_map D ∪ Oc) (list_to_map D ∪ Ac) (fs w')
    ∧ (∀ x, R' !! x = if decide (x ∈ D.*1) then None else R !! x).
Proof.
  induction D as [|[n c] D IH]; intros w R Oc Ac Hnd Hs HRO HRA Hall.
  - exists w, R. simpl. rewrite !(left_id_L ∅ (∪)).
    repeat split; try done.
  - apply NoDup_cons in Hnd as [Hn Hnd]. cbn [fmap list_fmap fst] in Hn.
    destruct (Hall n c) as (Hvn & HRn & HOn & HAn);
      [apply elem_of_cons; by left|].
    destruct (stage_file_run R Oc Ac w n c Hs Hvn HRn HRO HRA HOn HAn)
      as (w1 & Hbody & Hop1 & Hs1).
    assert (HnO : n ≠ vO) by congruence.
    assert (HnA : n ≠ vA) by congruence.
    destruct (IH w1 (delete n R) (<[n := c]> Oc) (<[n := c]> Ac) Hnd Hs1)
      as (w' & R' & Hloop & Hop & Hs' & HR').
    { by rewrite lookup_delete_ne. }
    { by rewrite lookup_delete_ne. }
    { intros n' c' Hin.
      assert (Hne : n ≠ n').
      { intros ->. apply Hn. apply list_elem_of_fmap. by exists (n', c'). }
      destruct (Hall n' c') as (? & ? & ? & ?);
        [apply elem_of_cons; by right|].
      rewrite lookup_delete_ne, !lookup_insert_ne by done. done. }
    exists w', R'. split; [|split; [|split]].
    + cbn [for_each fst]. by erewrite bind_Ok; [exact Hloop|exact Hbody].
    + congruence.
    + assert (Hfresh : (list_to_map D : gmap string fcontent) !! n = None)
        by by apply not_elem_of_list_to_map_1.
      cbn [list_to_map foldr fst snd].
      fold (list_to_map D : gmap string fcontent).
      rewrite <- !insert_union_l, !(insert_union_r _ _ _ _ Hfresh). done.
    + intros x. rewrite HR'. cbn [fmap list_fmap fst].
      destruct (decide (x ∈ D.*1)) as [Hx|Hx];
        destruct (decide (x ∈ n :: D.*1)) as [Hx'|Hx']; try done.
      * destruct Hx'. apply elem_of_cons. by right.
      * apply elem_of_cons in Hx' as [->|?]; [|done].
        by rewrite lookup_delete_eq.
      * rewrite lookup_delete_ne; [done|]. intros ->. apply Hx'.
        apply elem_of_cons. by left.
Qed.

(** One iteration of the rewriting loop. *)
Lemma zap_file_run (dicom_fields : dict) R Oc Ac w n (ds : dataset) :
  shape R Oc Ac (fs w) →
  valid_name n →
  R !! vA = Some FDir →
  Ac !! n = Some (Dicom ds) →
  occurs dicom_folder (sep +:+ n) = false →
  Forall has_Editable dicom_fields →
  ∃ w',
    (if negb (is_empty_string (path_join dicom_folder n)) then
       actual_PyDICOM_zapping
         (str_replace (path_join dicom_folder n) dicom_folder
            (dicom_folder +:+ sep +:+ vA)) dicom_fields
     else ret tt) w = (Ok tt, w')
    ∧ shape R Oc (<[n := Dicom (zapped_dataset dicom_fields ds)]> Ac) (fs w').
Proof.
  intros Hs Hn HRA HAn Hocc Hall.
  rewrite (path_join_child dicom_folder n folder_ok Hn).
  rewrite is_empty_string_app, andb_false_r. cbn [negb].
  rewrite str_replace_prefix; [|by destruct dicom_folder|done].
  destruct (actual_PyDICOM_zapping_run
              ((dicom_folder +:+ sep +:+ vA) +:+ sep +:+ n) dicom_fields w
              (base ++ [vA; n]) ds) as (ds' & Hzap & Hcall); [..|done|].
  - by apply resolve_grandchild.
  - by rewrite (flat_shape_A _ _ _ _ _ _ _ n vO_vA Hs), HAn.
  - unfold parent. change (base ++ [vA; n]) with (base ++ [vA] ++ [n]).
    rewrite app_assoc, removelast_last.
    by rewrite (flat_shape_root _ _ _ _ _ _ _ _ Hs).
  - eexists. split; [exact Hcall|]. simpl.
    unfold zapped_dataset. rewrite Hzap. simpl.
    by apply flat_shape_insert_A.
Qed.

Lemma zap_loop_run (dicom_fields : dict) (D : list (string * fcontent)) :
  ∀ w R Oc Ac,
  NoDup D.*1 →
  shape R Oc Ac (fs w) →
  R !! vA = Some FDir →
  Forall has_Editable dicom_fields →
  (∀ n c, (n, c) ∈ D →
          valid_name n ∧ occurs dicom_folder (sep +:+ n) = false
          ∧ Ac !! n = Some c ∧ ∃ ds, c = Dicom ds) →
  ∃ w',
    for_each D (fun nc =>
      if negb (is_empty_string (path_join dicom_folder nc.1)) then
        actual_PyDICOM_zapping
          (str_replace (path_join dicom_folder nc.1) dicom_folder
             (dicom_folder +:+ sep +:+ vA)) dicom_fields
      else ret tt) w
    = (Ok tt, w')
    ∧ shape R Oc
        (list_to_map
           (List.map (fun nc => (nc.1, zap_content dicom_fields nc.2)) D)
         ∪ Ac) (fs w').
Proof.
  induction D as [|[n c] D IH]; intros w R Oc Ac Hnd Hs HRA Hed Hall.
  - exists w. simpl. by rewrite (left_id_L ∅ (∪)).
  - apply NoDup_cons in Hnd as [Hn Hnd]. cbn [fmap list_fmap fst] in Hn.
    destruct (Hall n c) as (Hvn & Hocc & HAn & ds & ->);
      [apply elem_of_cons; by left|].
    destruct (zap_file_run dicom_fields R Oc Ac w n ds Hs Hvn HRA HAn Hocc Hed)
      as (w1 & Hbody & Hs1).
    destruct (IH w1 R Oc _ Hnd Hs1 HRA Hed) as (w' & Hloop & Hs').
    { intros n' c' Hin.
      assert (Hne : n ≠ n').
      { intros ->. apply Hn. apply list_elem_of_fmap. by exists (n', c'). }
      destruct (Hall n' c') as (? & ? & ? & ?);
        [apply elem_of_cons; by right|].
      by rewrite lookup_insert_ne. }
    exists w'. split.
    + cbn [for_each fst]. by erewrite bind_Ok; [exact Hloop|exact Hbody].
    + set (zD := List.map (fun nc : string * fcontent =>
                             (nc.1, zap_content dicom_fields nc.2)) D) in *.
      assert (Hfresh : (list_to_map zD : gmap string fcontent) !! n = None).
      { apply not_elem_of_list_to_map_1. unfold zD.
        replace ((List.map (fun nc : string * fcontent =>
                    (nc.1, zap_content dicom_fields nc.2)) D).*1)
          with (D.*1); [done|].
        clear. induction D as [|[? ?] ? IH]; simpl; [done|]. by f_equal. }
      cbn [List.map list_to_map foldr fst snd zap_content].
      fold zD. fold (list_to_map zD : gmap string fcontent).
      rewrite <- insert_union_l, (insert_union_r _ _ _ _ Hfresh). done.
Qed.

(** Archiving the staging directory [vO]. *)
Lemma zip_staging_run R Oc Ac w n0 c0 :
  shape R Oc Ac (fs w) →
  R !! vO = Some FDir →
  Oc !! n0 = Some c0 →
  R !! (vO +:+ ".zip") ≠ Some FDir →
  ∃ w' members,
    zipDicom shutil_make_archive (dicom_folder +:+ sep +:+ vO) w
    = (Ok ((dicom_folder +:+ sep +:+ vO) +:+ ".zip"), w')
    ∧ shape (delete vO (<[vO +:+ ".zip" := FFile (Archive members)]> R))
        ∅ Ac (fs w')
    ∧ (∀ rel c, (rel, c) ∈ members ↔ ∃ n, rel = [n] ∧ Oc !! n = Some c).
Proof.
  intros Hs HRO HOn Hzip.
  assert (Hvz : valid_name (vO +:+ ".zip")) by by apply valid_name_app.
  assert (Hne : vO +:+ ".zip" ≠ vO).
  { intros H. by apply (append_neq_self vO ".zip"). }
  assert (Hsplit : split_path (dicom_folder +:+ sep +:+ vO) = base ++ [vO])
    by by apply split_path_child.
  set (members := archive_members (fs w) (base ++ [vO])).
  set (w1 := set_fs (insert (base ++ [vO +:+ ".zip"])
                       (FFile (Archive members))) w).
  assert (Hs1 : shape (<[vO +:+ ".zip" := FFile (Archive members)]> R)
                  Oc Ac (fs w1)).
  { simpl. by apply flat_shape_insert_root. }
  assert (Hstr : (dicom_folder +:+ sep +:+ vO) +:+ ".zip"
                 = dicom_folder +:+ sep +:+ (vO +:+ ".zip")).
  { by rewrite !append_assoc. }
  exists (set_fs (remove_tree (split_path (dicom_folder +:+ sep +:+ vO))) w1),
    members.
  split; [|split].
  - apply zipDicom_created
      with (names := children_names (fs w) (base ++ [vO])) (u := tt).
    + unfold os_listdir. rewrite resolve_child by done.
      by rewrite (flat_shape_root _ _ _ _ _ _ _ _ Hs), HRO.
    + by eapply flat_shape_listdir_O.
    + unfold shutil_make_archive.
      rewrite (node_at_root R Oc Ac w vO Hs vO_ok), HRO.
      unfold archive_target. rewrite Hsplit, last_snoc, removelast_last.
      rewrite (flat_shape_root _ _ _ _ _ _ _ _ Hs).
      unfold parent. rewrite removelast_last.
      rewrite (flat_shape_base _ _ _ _ _ _ _ Hs).
      destruct (R !! (vO +:+ ".zip")) as [[|c]|]; done.
    + rewrite Hstr, (path_exists_root _ _ _ w1 _ Hs1 Hvz).
      rewrite lookup_insert_eq. by apply bool_decide_eq_true_2.
    + apply (path_isdir_root _ _ _ w1 vO Hs1 vO_ok).
      by rewrite lookup_insert_ne.
  - simpl. rewrite Hsplit.
    exact (flat_shape_remove_O base vO vA vO_vA _ Oc Ac _ Hs1).
  - intros rel c. by apply (flat_shape_members_O base vO vA R Oc Ac).
Qed.

End FlatCalls.

(** ** C1 *)

(** C1, counterexample: an editable field without a ['Value'] that the file
    holds is not left unchanged by [actual_PyDICOM_zapping]; it is blanked. *)
Lemma write_step_editable_without_value_not_kept :
  dict_get cx1_fields "0008,0080"
  = Some {| Description := Some "InstitutionName"; Editable := Some true;
            Value := None; Update := None |}
  ∧ node_at (fs (init_world "/data" cx1_tree)) "/data/a.dcm"
    = Some (FFile (Dicom cx1_dataset))
  ∧ cx1_dataset !! "InstitutionName" = Some "H"
  ∧ ∃ w' ds',
      actual_PyDICOM_zapping "/data/a.dcm" cx1_fields
        (init_world "/data" cx1_tree) = (Ok tt, w')
      ∧ node_at (fs w') "/data/a.dcm" = Some (FFile (Dicom ds'))
      ∧ ds' !! "InstitutionName" = Some EmptyString
      ∧ ds' !! "InstitutionName" ≠ cx1_dataset !! "InstitutionName".
Proof.
  split; [reflexivity|]. split; [reflexivity|]. split; [reflexivity|].
  eexists _, (<["InstitutionName" := EmptyString]> cx1_dataset).
  split; [vm_compute; reflexivity|].
  split; [vm_compute; reflexivity|].
  split; [reflexivity|]. vm_compute. discriminate.
Qed.

Lemma cmd_modifications_elem dicom_fields name v :
  Forall has_Editable dicom_fields →
  (name, v) ∈ cmd_modifications dicom_fields
  ↔ ∃ e, (name, e) ∈ dicom_fields
         ∧ ((Editable e = Some false ∧ Value e ≠ None ∧ v = " ")
            ∨ ((Editable e = Some true ∨ Value e = None)
               ∧ Update e = Some true
               ∧ v = default EmptyString (Value e))).
Proof.
  intros Hall. unfold cmd_modifications.
  rewrite list_elem_of_In, in_flat_map. split.
  - intros ([name' e] & Hin & Hm). apply list_elem_of_In in Hin, Hm.
    rewrite Forall_forall in Hall. specialize (Hall _ Hin).
    unfold has_Editable in Hall. simpl in Hall.
    unfold entry_modifications, blanked, updated, new_value, has_Value in Hm.
    simpl in Hm. exists e.
    destruct (Editable e) as [[|]|] eqn:Ed; [| |done].
    + destruct (Update e) as [[|]|] eqn:Eu;
        try (by apply elem_of_nil in Hm).
      apply list_elem_of_singleton in Hm. injection Hm as -> ->.
      split; [done|]. right. repeat split; eauto.
    + destruct (Value e) as [x|] eqn:Ev.
      * apply list_elem_of_singleton in Hm. injection Hm as -> ->.
        split; [done|]. left. by repeat split.
      * destruct (Update e) as [[|]|] eqn:Eu;
          try (by apply elem_of_nil in Hm).
        apply list_elem_of_singleton in Hm. injection Hm as -> ->.
        split; [done|]. right. repeat split; eauto.
  - intros (e & Hin & Hcase). exists (name, e).
    split; [by apply list_elem_of_In|]. apply list_elem_of_In.
    unfold entry_modifications, blanked, updated, new_value, has_Value.
    simpl. destruct Hcase as [(Ed & Ev & ->) | (Hc & Eu & ->)].
    + rewrite Ed. destruct (Value e); [|done].
      by apply list_elem_of_singleton.
    + rewrite Eu. destruct Hc as [Ed | Ev].
      * rewrite Ed. apply list_elem_of_singleton. by destruct (Value e).
      * rewrite Ev. destruct (Editable e) as [[|]|];
          by apply list_elem_of_singleton.
Qed.

Lemma build_modify_cmd_encodes dicom_fields cmd n :
  build_modify_cmd dicom_fields = Ok (cmd, n) →
  Forall (fun ne => entry_ready ne.2) dicom_fields
  ∧ cmd = "dcmodify " +:+ render_modifications (cmd_modifications dicom_fields)
  ∧ n = length (cmd_modifications dicom_fields).
Proof.
  unfold build_modify_cmd. intros Hrun.
  assert (Hready : Forall (fun ne => entry_ready ne.2) dicom_fields).
  { apply (modify_loop_is_ok dicom_fields ("dcmodify ", 0)).
    by rewrite Hrun. }
  rewrite (modify_loop_ok _ _ Hready) in Hrun. simpl in Hrun.
  injection Hrun as <- <-. done.
Qed.

Lemma entry_ready_has_Editable dicom_fields :
  Forall (fun ne => entry_ready ne.2) dicom_fields →
  Forall has_Editable dicom_fields.
Proof. intros H. eapply Forall_impl; [exact H|]. by intros ne [? _]. Qed.

(** C1, as amended: on a file that holds the element, the library write
    step sets a non-editable field to the empty string, an editable field
    to its ['Value'], and an editable field without ['Value'] to the empty
    string as well; the dcmodify command blanks a non-editable field that
    has a ['Value'] with a single space and sets any other field to its
    ['Value'] (or the empty string) exactly when its ['Update'] is True. *)
Theorem write_step_field_contract (dicom_fields : dict) :
  Forall has_Editable dicom_fields →
  (∀ dicom_file k w (ds : dataset),
     resolve dicom_file = Some k →
     fs w !! k = Some (FFile (Dicom ds)) →
     fs w !! parent k = Some FDir →
     ∃ ds' : dataset,
       actual_PyDICOM_zapping dicom_file dicom_fields w
       = (Ok tt, {| fs := <[k := FFile (Dicom ds')]> (fs w);
                    opened := opened w ++ [dicom_file] |})
       ∧ ∀ name e d,
           (name, e) ∈ dicom_fields →
           Description e = Some d →
           is_Some (ds !! d) →
           (∀ ne, ne ∈ dicom_fields → Description ne.2 = Some d →
                  ne = (name, e)) →
           (Editable e = Some false → ds' !! d = Some EmptyString)
           ∧ (Editable e = Some true →
              ∀ v, Value e = Some v → ds' !! d = Some v)
           ∧ (Editable e = Some true → Value e = None →
              ds' !! d = Some EmptyString))
  ∧ (∀ cmd n,
       build_modify_cmd dicom_fields = Ok (cmd, n) →
       cmd = "dcmodify "
             +:+ render_modifications (cmd_modifications dicom_fields)
       ∧ n = length (cmd_modifications dicom_fields)
       ∧ ∀ name v,
           (name, v) ∈ cmd_modifications dicom_fields
           ↔ ∃ e, (name, e) ∈ dicom_fields
                  ∧ ((Editable e = Some false ∧ Value e ≠ None ∧ v = " ")
                     ∨ ((Editable e = Some true ∨ Value e = None)
                        ∧ Update e = Some true
                        ∧ v = default EmptyString (Value e)))).
Proof.
  intros Hall. split.
  - intros dicom_file k w ds Hres Hfile Hpar.
    destruct (zap_loop_spec dicom_fields ds Hall)
      as (ds' & Hrun & _ & _ & Hval).
    destruct (actual_PyDICOM_zapping_run dicom_file dicom_fields w k ds
                Hres Hfile Hpar Hall) as (ds2 & Hrun2 & Hcall).
    rewrite Hrun in Hrun2. injection Hrun2 as <-.
    exists ds'. split; [done|].
    intros name e d Hin Hd Hs Huniq.
    assert (Hv : ds' !! d = Some (library_value e)).
    { apply Hval; [done | by exists (name, e) |].
      intros ne Hne Hdn. by rewrite (Huniq ne Hne Hdn). }
    rewrite Hv. unfold library_value, new_value.
    repeat split.
    + by intros ->.
    + by intros -> v ->.
    + by intros -> ->.
  - intros cmd n Hrun.
    destruct (build_modify_cmd_encodes _ _ _ Hrun) as (_ & -> & ->).
    repeat split; by apply cmd_modifications_elem.
Qed.

Lemma write_step_field_contract_witness :
  ∃ ds' : dataset,
    actual_PyDICOM_zapping "/data/a.dcm" ok1_fields
      (init_world "/data" [File "a.dcm" (Dicom ok1_dataset)])
    = (Ok tt,
       {| fs := <[["data"; "a.dcm"] := FFile (Dicom ds')]>
                  (fs (init_world "/data" [File "a.dcm" (Dicom ok1_dataset)]));
          opened := ["/data/a.dcm"] |})
    ∧ ds' !! "InstitutionName" = Some EmptyString.
Proof.
  assert (Hall : Forall has_Editable ok1_fields).
  { repeat constructor; done. }
  destruct (write_step_field_contract ok1_fields Hall) as [Hlib _].
  destruct (Hlib "/data/a.dcm" ["data"; "a.dcm"]
              (init_world "/data" [File "a.dcm" (Dicom ok1_dataset)])
              ok1_dataset)
    as (ds' & Hcall & Hfields); [reflexivity..|].
  exists ds'. split; [exact Hcall|].
  refine (proj1 (Hfields "0008,0080"
                   {| Description := Some "InstitutionName";
                      Editable := Some false; Value := Some "H";
                      Update := Some false |}
                   "InstitutionName" _ eq_refl _ _) eq_refl).
  - apply elem_of_cons. right. apply elem_of_cons. by left.
  - by eexists.
  - intros ne Hne Hd. repeat (apply elem_of_cons in Hne as [->|Hne]); try done.
    by apply elem_of_nil in Hne.
Defined.

(** ** C3 *)

(** C3, counterexample: a non-editable field with a ['Value'].  In the file
    that the library branch writes, the element of the field holds the empty
    string; the command built for the same dictionary sets the field to a
    single space.  The two sets of modifications differ. *)
Lemma branches_differ_on_blanked_field :
  ∃ w' (ds' : dataset),
    actual_PyDICOM_zapping "/data/a.dcm" cx3_fields
      (init_world "/data" cx3_tree) = (Ok tt, w')
    ∧ node_at (fs w') "/data/a.dcm" = Some (FFile (Dicom ds'))
    ∧ ds' !! "PatientName" = Some EmptyString
    ∧ library_modifies cx3_fields cx3_dataset ds' ("0010,0010", EmptyString)
    ∧ build_modify_cmd cx3_fields
      = Ok ("dcmodify " +:+ render_modifications [("0010,0010", " ")], 1)
    ∧ ¬ (∀ m, library_modifies cx3_fields cx3_dataset ds' m
              ↔ m ∈ [("0010,0010", " ")]).
Proof.
  assert (Hlib : library_modifies cx3_fields cx3_dataset
                   (<["PatientName" := EmptyString]> cx3_dataset)
                   ("0010,0010", EmptyString)).
  { eexists _, "PatientName". split; [apply elem_of_cons; by left|].
    split; [reflexivity|]. split; [by eexists|reflexivity]. }
  eexists _, (<["PatientName" := EmptyString]> cx3_dataset).
  split; [vm_compute; reflexivity|].
  split; [vm_compute; reflexivity|].
  split; [reflexivity|]. split; [exact Hlib|].
  split; [vm_compute; reflexivity|].
  intros H. apply H in Hlib. apply list_elem_of_singleton in Hlib.
  discriminate.
Qed.

Lemma library_value_not_blanked e :
  Editable e ≠ None → blanked e = false → new_value e = library_value e.
Proof.
  unfold blanked, library_value, new_value, has_Value.
  destruct (Editable e) as [[|]|]; [done| |done].
  by destruct (Value e).
Qed.

(** C3, as amended: when the file holds every configured element and no two
    fields name the same element, the file that the library branch writes
    has exactly one modification per field (the element of the field holds
    the empty string for a non-editable field, the ['Value'] or the empty
    string for an editable one), and the dcmodify command built for the
    same dictionary encodes exactly those modifications with two
    differences: a non-editable field that has a ['Value'] is written as a
    single space instead of the empty string, and any other field is left
    out unless its ['Update'] is True. *)
Theorem branches_agree_up_to_blank_and_update
  (dicom_fields : dict) dicom_file k w (ds : dataset) cmd n :
  resolve dicom_file = Some k →
  fs w !! k = Some (FFile (Dicom ds)) →
  fs w !! parent k = Some FDir →
  (∀ ne, ne ∈ dicom_fields →
         ∃ d, Description ne.2 = Some d ∧ is_Some (ds !! d)) →
  (∀ ne ne', ne ∈ dicom_fields → ne' ∈ dicom_fields →
             Description ne.2 = Description ne'.2 → ne = ne') →
  build_modify_cmd dicom_fields = Ok (cmd, n) →
  ∃ ds' : dataset,
    actual_PyDICOM_zapping dicom_file dicom_fields w
    = (Ok tt, {| fs := <[k := FFile (Dicom ds')]> (fs w);
                 opened := opened w ++ [dicom_file] |})
    ∧ (∀ m, library_modifies dicom_fields ds ds' m
            ↔ m ∈ List.map (fun ne => (ne.1, library_value ne.2))
                    dicom_fields)
    ∧ cmd = "dcmodify "
            +:+ render_modifications
                  (List.flat_map
                     (fun ne =>
                        if blanked ne.2 then [(ne.1, " ")]
                        else if updated ne.2 then [(ne.1, library_value ne.2)]
                        else [])
                     dicom_fields).
Proof.
  intros Hres Hfile Hpar Hpresent Huniq Hcmd.
  destruct (build_modify_cmd_encodes _ _ _ Hcmd) as (Hready & -> & _).
  pose proof (entry_ready_has_Editable _ Hready) as Hall.
  destruct (zap_loop_spec dicom_fields ds Hall)
    as (ds' & Hrun & _ & _ & Hval).
  destruct (actual_PyDICOM_zapping_run dicom_file dicom_fields w k ds
              Hres Hfile Hpar Hall) as (ds2 & Hrun2 & Hcall).
  rewrite Hrun in Hrun2. injection Hrun2 as <-.
  assert (Hwritten : ∀ ne d, ne ∈ dicom_fields → Description ne.2 = Some d →
                             is_Some (ds !! d) →
                             ds' !! d = Some (library_value ne.2)).
  { intros ne d Hin Hd Hs. apply Hval; [done|by exists ne|].
    intros ne' Hin' Hd'. f_equal. f_equal. apply Huniq; [done..|].
    by rewrite Hd, Hd'. }
  exists ds'. split; [exact Hcall|]. split.
  - intros [name v]. rewrite list_elem_of_In, in_map_iff. split.
    + intros (e & d & Hin & Hd & Hs & Hv). cbn [fst snd] in *.
      exists (name, e). split; [|by apply list_elem_of_In].
      rewrite (Hwritten (name, e) d Hin Hd Hs) in Hv. by injection Hv as <-.
    + intros ([name' e] & [= <- <-] & Hin%list_elem_of_In). cbn [fst snd].
      destruct (Hpresent _ Hin) as (d & Hd & Hs).
      exists e, d. split; [done|]. split; [done|]. split; [done|].
      by apply (Hwritten (name', e)).
  - do 2 f_equal. unfold cmd_modifications.
    clear -Hready. induction Hready as [|ne rest [Hed _] _ IH]; [done|].
    cbn [List.flat_map]. rewrite IH. f_equal.
    unfold entry_modifications.
    destruct (blanked ne.2) eqn:Hb; [done|].
    by rewrite (library_value_not_blanked _ Hed Hb).
Qed.

Lemma branches_agree_up_to_blank_and_update_witness :
  ∃ ds' : dataset,
    actual_PyDICOM_zapping "/data/a.dcm" ok1_fields
      (init_world "/data" ok6_tree)
    = (Ok tt,
       {| fs := <[["data"; "a.dcm"] := FFile (Dicom ds')]>
                  (fs (init_world "/data" ok6_tree));
          opened := ["/data/a.dcm"] |})
    ∧ (∀ m, library_modifies ok1_fields ok1_dataset ds' m
            ↔ m ∈ [("0010,0010", "ID01"); ("0008,0080", EmptyString)])
    ∧ "dcmodify "
      +:+ value_option "0010,0010" "ID01" +:+ blank_option "0008,0080"
      = "dcmodify "
        +:+ render_modifications
              [("0010,0010", "ID01"); ("0008,0080", " ")].
Proof.
  refine (branches_agree_up_to_blank_and_update ok1_fields "/data/a.dcm"
            ["data"; "a.dcm"] (init_world "/data" ok6_tree) ok1_dataset
            _ 2 _ _ _ _ _ _).
  - reflexivity.
  - vm_compute. reflexivity.
  - vm_compute. reflexivity.
  - intros ne Hne.
    repeat (apply elem_of_cons in Hne as [->|Hne]);
      [by eexists; split; [reflexivity|eexists] ..|].
    by apply elem_of_nil in Hne.
  - intros ne ne' Hne Hne' Hd.
    repeat (apply elem_of_cons in Hne as [->|Hne]);
      [| |by apply elem_of_nil in Hne];
      repeat (apply elem_of_cons in Hne' as [->|Hne']);
      try done; by apply elem_of_nil in Hne'.
  - vm_compute. reflexivity.
Defined.

(** ** C9 *)

Lemma dict_set_Forall (P : string * entry → Prop) d key e :
  Forall P d → P (key, e) → (∀ k e', P (k, e') → P (k, e)) →
  Forall P (dict_set d key e).
Proof.
  intros Hd He Hk. induction Hd as [|[k e'] d Hp Hd IH]; simpl.
  - by constructor.
  - destruct (String.eqb_spec k key) as [->|Hne]; constructor; auto.
Qed.

Lemma Grep_DICOM_fields_fresh xmldoc :
  Forall fresh_entry (Grep_DICOM_fields xmldoc).
Proof.
  unfold Grep_DICOM_fields.
  cut (∀ d : dict, Forall fresh_entry d →
         Forall fresh_entry
           (fold_left
              (fun dicom_fields item =>
                 dict_set dicom_fields (item_name item)
                   {| Description := Some (item_description item);
                      Editable := Some (String.eqb (item_editable item) "yes");
                      Value := None; Update := None |})
              xmldoc d)).
  { intros H. apply H. constructor. }
  induction xmldoc as [|item rest IH]; intros d Hd; simpl; [done|].
  apply IH. apply dict_set_Forall; [done|split; done|].
  intros; split; done.
Qed.

Lemma dict_get_elem d key e :
  dict_get d key = Some e → (key, e) ∈ d.
Proof.
  induction d as [|[k e'] d IH]; simpl; [done|].
  destruct (String.eqb_spec k key) as [->|Hne].
  - intros [= ->]. apply elem_of_cons. by left.
  - intros H. apply elem_of_cons. right. by apply IH.
Qed.

Lemma dump_loop_fresh check_output match_bracket dicom_file names :
  ∀ d w d' w',
    Forall fresh_entry d →
    dump_loop check_output match_bracket dicom_file names d w = (Ok d', w') →
    Forall fresh_entry d'.
Proof.
  induction names as [|name rest IH]; intros d w d' w' Hd; simpl.
  - by intros [= <- _].
  - destruct (check_output _ _) as [result|]; [|done].
    destruct (match_bracket result) as [value|]; [|by apply IH].
    destruct (dict_get d name) as [e|] eqn:Hget; [|by apply IH].
    apply IH. apply dict_get_elem in Hget.
    rewrite Forall_forall in Hd. pose proof (Hd _ Hget) as He.
    apply dict_set_Forall; [by apply Forall_forall|exact He|].
    intros k e' _. exact He.
Qed.

Lemma values_read_fresh check_output match_bracket
  dicom_folder tree (d d' : dict) w w' :
  Forall fresh_entry d →
  Grep_DICOM_values check_output match_bracket dicom_folder tree d w
    = (Ok d', w')
  ∨ Grep_DICOM_values_PyDicom dicom_folder tree d w = (Ok d', w') →
  Forall fresh_entry d'.
Proof.
  intros Hd [Hrun|Hrun].
  - unfold Grep_DICOM_values in Hrun.
    apply bind_inv_Ok in Hrun as (found & w1 & _ & Hrun).
    destruct (found.1) as [|dicom_file ?]; [done|].
    by eapply dump_loop_fresh.
  - unfold Grep_DICOM_values_PyDicom in Hrun.
    apply bind_inv_Ok in Hrun as (found & w1 & _ & Hrun).
    destruct (found.1) as [|dicom_file ?]; [done|].
    apply bind_inv_Ok in Hrun as (ds & w2 & _ & Hrun).
    injection Hrun as <- _.
    apply Forall_fmap. eapply Forall_impl; [exact Hd|].
    intros [name e] [He Hu]. unfold fresh_entry, grep_value in *. simpl in *.
    by destruct (data_element_value ds (Description e)).
Qed.

Lemma modify_loop_outcome dicom_fields : ∀ acc,
  Forall has_Editable dicom_fields →
  (is_ok (modify_loop dicom_fields acc) = true
   ∧ Forall (fun ne => entry_ready ne.2) dicom_fields)
  ∨ (modify_loop dicom_fields acc = Raise (KeyError "Update")
     ∧ Exists (fun ne => blanked ne.2 = false ∧ Update ne.2 = None)
              dicom_fields).
Proof.
  induction dicom_fields as [|[name e] rest IH]; intros acc Hall.
  - left. split; [done|constructor].
  - inversion Hall as [|? ? He Hrest]; subst. unfold has_Editable in He.
    simpl in He. cbn [modify_loop].
    destruct (entry_ready_dec e) as [Hr|Hr].
    + rewrite (modify_field_ok name e acc Hr).
      destruct (IH (acc.1 +:+ render_modifications
                              (entry_modifications (name, e)),
                    acc.2 + length (entry_modifications (name, e))) Hrest)
        as [[Hok Hf]|[Hraise Hex]].
      * left. split; [done|by constructor].
      * right. split; [done|by apply Exists_cons_tl].
    + right.
      assert (Hbu : blanked e = false ∧ Update e = None).
      { unfold entry_ready in Hr.
        destruct (blanked e); [exfalso; apply Hr; split; done|].
        destruct (Update e); [exfalso; apply Hr; split; done|done]. }
      split; [|by apply Exists_cons_hd].
      destruct Hbu as [Hb Hu]. unfold modify_field.
      unfold blanked in Hb.
      destruct (Editable e) as [[|]|]; [| |done]; simpl.
      * by rewrite Hu.
      * rewrite Hb. by rewrite Hu.
Qed.

Lemma blanked_false_iff e :
  Editable e ≠ None →
  blanked e = false ↔ (Editable e = Some true ∨ Value e = None).
Proof.
  unfold blanked, has_Value.
  destruct (Editable e) as [[|]|]; [| |done]; intros _.
  - split; [by left|done].
  - destruct (Value e); split; try done; [intros [?|?]; done|by right].
Qed.

(** C9, counterexample: a dictionary built by [Grep_DICOM_fields] and the
    value-reading step whose only field is not editable and has a value;
    the command-building loop completes. *)
Lemma command_loop_completes_without_Update :
  ∃ fields' w',
    Grep_DICOM_values_PyDicom "/data" cx9_tree (Grep_DICOM_fields cx9_xml)
      (init_world "/data" cx9_tree) = (Ok fields', w')
    ∧ (∀ name e, (name, e) ∈ fields' → Update e = None)
    ∧ build_modify_cmd fields'
      = Ok ("dcmodify " +:+ blank_option "0010,0010", 1)
    ∧ ¬ (∃ key, build_modify_cmd fields' = Raise (KeyError key)).
Proof.
  eexists _, _. split; [vm_compute; reflexivity|].
  split.
  - intros name e Hin. apply list_elem_of_singleton in Hin.
    by injection Hin as _ ->.
  - split; [vm_compute; reflexivity|]. intros [key H]. vm_compute in H.
    discriminate.
Qed.

(** C9, as amended: the command-building loop of [Dicom_zapping] completes
    exactly when every entry that is editable, or that lacks a ['Value'],
    has an ['Update'] key, and raises [KeyError] on ['Update'] otherwise;
    for a dictionary produced by [Grep_DICOM_fields] followed by a
    value-reading step it raises that [KeyError] exactly when some field is
    editable or has no ['Value'], and completes otherwise. *)
Theorem command_loop_requires_Update :
  (∀ dicom_fields : dict,
     Forall has_Editable dicom_fields →
     (is_ok (build_modify_cmd dicom_fields) = true
      ↔ ∀ name e, (name, e) ∈ dicom_fields →
                  Editable e = Some true ∨ Value e = None →
                  Update e ≠ None)
     ∧ (is_ok (build_modify_cmd dicom_fields) = false →
        build_modify_cmd dicom_fields = Raise (KeyError "Update")))
  ∧ (∀ check_output match_bracket xmldoc dicom_folder tree w fields' w',
       Grep_DICOM_values check_output match_bracket dicom_folder tree
         (Grep_DICOM_fields xmldoc) w = (Ok fields', w')
       ∨ Grep_DICOM_values_PyDicom dicom_folder tree
           (Grep_DICOM_fields xmldoc) w = (Ok fields', w') →
       (build_modify_cmd fields' = Raise (KeyError "Update")
        ↔ ∃ name e, (name, e) ∈ fields'
                    ∧ (Editable e = Some true ∨ Value e = None))
       ∧ (build_modify_cmd fields' ≠ Raise (KeyError "Update") →
          is_ok (build_modify_cmd fields') = true)).
Proof.
  split.
  - intros dicom_fields Hall. unfold build_modify_cmd. split.
    + rewrite modify_loop_is_ok, Forall_forall. split.
      * intros Hr name e Hin Hc. destruct (Hr _ Hin) as [He Hu].
        apply Hu. by apply blanked_false_iff.
      * intros Hr [name e] Hin. rewrite Forall_forall in Hall.
        pose proof (Hall _ Hin) as He. split; [exact He|].
        intros Hb. apply (Hr name e Hin). by apply blanked_false_iff.
    + destruct (modify_loop_outcome dicom_fields ("dcmodify ", 0) Hall)
        as [[Hok _]|[Hraise _]]; [by rewrite Hok|done].
  - intros check_output match_bracket xmldoc dicom_folder tree w fields' w' Hrun.
    pose proof (values_read_fresh _ _ _ _ _ _ _ _
                  (Grep_DICOM_fields_fresh xmldoc) Hrun) as Hfresh.
    assert (Hall : Forall has_Editable fields').
    { eapply Forall_impl; [exact Hfresh|]. by intros ne [? _]. }
    unfold build_modify_cmd.
    destruct (modify_loop_outcome fields' ("dcmodify ", 0) Hall)
      as [[Hok Hready]|[Hraise Hex]].
    + split; [|done]. split.
      * intros Hr. by rewrite Hr in Hok.
      * intros (name & e & Hin & Hc). exfalso.
        rewrite Forall_forall in Hready, Hfresh.
        destruct (Hready _ Hin) as [He Hu]. destruct (Hfresh _ Hin) as [_ Hn].
        apply Hu; [|exact Hn]. by apply blanked_false_iff.
    + split; [|done]. split; [|done]. intros _.
      apply Exists_exists in Hex as ([name e] & Hin & Hb & _).
      exists name, e. split; [done|]. apply blanked_false_iff; [|done].
      rewrite Forall_forall in Hall. exact (Hall _ Hin).
Qed.

Lemma command_loop_requires_Update_witness :
  build_modify_cmd
    (List.map (fun ne => (ne.1, grep_value ok1_dataset ne.2))
       (Grep_DICOM_fields
          [{| item_name := "0010,0010"; item_description := "PatientName";
              item_editable := "yes" |}]))
  = Raise (KeyError "Update").
Proof.
  refine (proj2 (proj1 (proj2 command_loop_requires_Update
            (fun _ _ => None) (fun _ => None)
            [{| item_name := "0010,0010"; item_description := "PatientName";
                item_editable := "yes" |}]
            "/data" [File "a.dcm" (Dicom ok1_dataset)]
            (init_world "/data" [File "a.dcm" (Dicom ok1_dataset)])
            _ _ (or_intror eq_refl))) _).
  eexists "0010,0010", _. split; [apply elem_of_cons; left; reflexivity|].
  left. reflexivity.
Defined.

(** ** C4 *)

(** C4, counterexample: a root directory that holds only an excluded file.
    Discovery finds no input file and returns; the pipeline goes on,
    creates the two staging directories and stops later, in [zipDicom]. *)
Lemma discovery_returns_without_input_files :
  GrepDicomsFromFolder "/data" cx4_tree = Ok ([], [])
  ∧ ∃ w',
      Dicom_zapping_PyDicom shutil_make_archive "/data" cx4_tree ok1_fields
        (init_world "/data" cx4_tree)
      = (Exit "The directory /data/ID01 is empty and will not be archived.",
         w')
      ∧ path_isdir (fs w') "/data/ID01" = true
      ∧ path_isdir (fs w') "/data/ID01_anonymized" = true.
Proof.
  split; [vm_compute; reflexivity|].
  eexists. split; [vm_compute; reflexivity|].
  split; vm_compute; reflexivity.
Qed.

(** C4, as amended: discovery exits with its message exactly when some
    directory of the tree, the root included, has neither files nor
    subdirectories, in particular when the root directory is empty; in
    every other case it returns. *)
Theorem discovery_exits_on_empty_directory dicom_folder tree :
  (empty_dir_in tree
   ↔ GrepDicomsFromFolder dicom_folder tree
     = Exit ("Could not find any files in " +:+ dicom_folder))
  ∧ (¬ empty_dir_in tree
     ↔ is_ok (GrepDicomsFromFolder dicom_folder tree) = true)
  ∧ GrepDicomsFromFolder dicom_folder []
    = Exit ("Could not find any files in " +:+ dicom_folder).
Proof.
  rewrite <- has_empty_dir_spec, GrepDicomsFromFolder_spec.
  split; [|split; [|reflexivity]];
    destruct (has_empty_dir tree); simpl; split; try done.
Qed.

(** ** C6 *)

(** C6, counterexample: a tree with an input file and an empty
    subdirectory.  The file is under the root and does not match the
    pattern, but discovery exits and returns nothing. *)
Lemma discovery_exits_despite_input_file :
  file_at cx6_tree [] "a.dcm"
  ∧ pattern_search "a.dcm" = false
  ∧ GrepDicomsFromFolder "/data" cx6_tree
    = Exit "Could not find any files in /data"
  ∧ ∀ found, GrepDicomsFromFolder "/data" cx6_tree ≠ Ok found.
Proof.
  split; [eapply file_here; apply elem_of_cons; by left|].
  split; [reflexivity|]. split; [vm_compute; reflexivity|].
  intros found H. vm_compute in H. discriminate.
Qed.

(** C6, as amended: for a directory tree in which no directory is empty,
    [GrepDicomsFromFolder] returns as its first result exactly the files
    under the root, at any depth and with their full paths, whose names do
    not match the exclusion pattern, and as its second result the names of
    the subdirectories met during the walk. *)
Theorem discovery_lists_files_and_subdirectories dicom_folder tree :
  has_empty_dir tree = false →
  ∃ dicoms_list subdirs_list,
    GrepDicomsFromFolder dicom_folder tree = Ok (dicoms_list, subdirs_list)
    ∧ (∀ p, p ∈ dicoms_list
            ↔ ∃ dirs f, file_at tree dirs f
                        ∧ pattern_search f = false
                        ∧ p = path_join (walk_root dicom_folder dirs) f)
    ∧ (∀ d, d ∈ subdirs_list ↔ ∃ dirs, dir_at tree dirs d).
Proof.
  intros Hne. rewrite GrepDicomsFromFolder_spec, Hne.
  eexists _, _. split; [reflexivity|]. split.
  - apply os_walk_files.
  - apply os_walk_subdirs.
Qed.

Lemma discovery_lists_files_and_subdirectories_witness :
  ∃ dicoms_list subdirs_list,
    GrepDicomsFromFolder "/data" ok6_tree = Ok (dicoms_list, subdirs_list)
    ∧ (∀ p, p ∈ dicoms_list
            ↔ ∃ dirs f, file_at ok6_tree dirs f
                        ∧ pattern_search f = false
                        ∧ p = path_join (walk_root "/data" dirs) f)
    ∧ (∀ d, d ∈ subdirs_list ↔ ∃ dirs, dir_at ok6_tree dirs d).
Proof.
  apply (discovery_lists_files_and_subdirectories "/data" ok6_tree).
  reflexivity.
Defined.

Example discovery_on_ok6_tree :
  GrepDicomsFromFolder "/data" ok6_tree
  = Ok (["/data/a.dcm"; "/data/series/b.dcm"; "/data/series/deep/c"],
        ["series"; "deep"]).
Proof. vm_compute. reflexivity. Qed.

(** ** C5 *)

(** C5: [Grep_DICOM_values_PyDicom] hands only the first discovered file to
    the DICOM reader and changes no file; an entry whose element is in the
    header of that file gets the header value under ['Value'], any other
    entry is left as it was, and the call returns. *)
Theorem PyDicom_values_read_from_first_file
  dicom_folder tree (dicom_fields : dict) w dicom_file rest subdirs_list
  (ds : dataset) :
  GrepDicomsFromFolder dicom_folder tree
  = Ok (dicom_file :: rest, subdirs_list) →
  node_at (fs w) dicom_file = Some (FFile (Dicom ds)) →
  ∃ fields' : dict,
    Grep_DICOM_values_PyDicom dicom_folder tree dicom_fields w
    = (Ok fields', {| fs := fs w; opened := opened w ++ [dicom_file] |})
    ∧ length fields' = length dicom_fields
    ∧ ∀ i name e,
        dicom_fields !! i = Some (name, e) →
        (∀ d v, Description e = Some d → ds !! d = Some v →
                fields' !! i = Some (name, set_Value e v))
        ∧ ((∀ d, Description e = Some d → ds !! d = None) →
           fields' !! i = Some (name, e)).
Proof.
  intros Hfound Hfile.
  exists (List.map (fun ne => (ne.1, grep_value ds ne.2)) dicom_fields).
  split; [|split].
  - unfold Grep_DICOM_values_PyDicom.
    erewrite bind_Ok; [|unfold lift; by rewrite Hfound]. cbn [fst].
    erewrite bind_Ok; [reflexivity|].
    unfold dicom_read_file. by rewrite Hfile.
  - apply length_map.
  - intros i name e Hi.
    assert (Hi' : List.map (fun ne : string * entry =>
                              (ne.1, grep_value ds ne.2)) dicom_fields !! i
                  = Some (name, grep_value ds e)).
    { change (List.map ?f ?l) with (f <$> l).
      by rewrite list_lookup_fmap, Hi. }
    rewrite Hi'. unfold grep_value, data_element_value. split.
    + intros d v -> Hv. by rewrite Hv.
    + intros Hmissing. destruct (Description e) as [d|]; [|done].
      by rewrite (Hmissing d eq_refl).
Qed.

Lemma PyDicom_values_read_from_first_file_witness :
  ∃ fields' : dict,
    Grep_DICOM_values_PyDicom "/data" ok6_tree ok5_fields
      (init_world "/data" ok6_tree)
    = (Ok fields',
       {| fs := fs (init_world "/data" ok6_tree);
          opened := ["/data/a.dcm"] |})
    ∧ fields' !! 0
      = Some ("0010,0010",
              {| Description := Some "PatientName"; Editable := Some true;
                 Value := Some "Doe"; Update := None |})
    ∧ fields' !! 1
      = Some ("0010,0030",
              {| Description := Some "PatientBirthDate";
                 Editable := Some false; Value := None; Update := None |}).
Proof.
  destruct (PyDicom_values_read_from_first_file "/data" ok6_tree ok5_fields
              (init_world "/data" ok6_tree) "/data/a.dcm"
              ["/data/series/b.dcm"; "/data/series/deep/c"]
              ["series"; "deep"] ok1_dataset)
    as (fields' & Hrun & _ & Hentries).
  - vm_compute. reflexivity.
  - vm_compute. reflexivity.
  - exists fields'. split; [exact Hrun|]. split.
    + refine (proj1 (Hentries 0 _ _ eq_refl) "PatientName" "Doe" eq_refl _).
      reflexivity.
    + refine (proj2 (Hentries 1 _ _ eq_refl) _).
      intros d [= <-]. reflexivity.
Defined.

(** ** C10 *)

(** C10: without a ['0010,0010'] entry that has a ['Value'],
    [createDirectories] raises [KeyError] and leaves the file system as it
    was, and so do both zapping pipelines once discovery has returned; with
    value [v], a call that returns has created the directories
    [<root>/v] and [<root>/v_anonymized] and returns their paths. *)
Theorem staging_directories_need_patient_name :
  (∀ dicom_folder (dicom_fields : dict) subdirs_list w,
     (∀ e, dict_get dicom_fields "0010,0010" = Some e → Value e = None) →
     (∃ key, createDirectories dicom_folder dicom_fields subdirs_list w
             = (Raise (KeyError key), w))
     ∧ ∀ make_archive subprocess_call tree found,
         GrepDicomsFromFolder dicom_folder tree = Ok found →
         (∃ key, Dicom_zapping_PyDicom make_archive dicom_folder tree
                   dicom_fields w = (Raise (KeyError key), w))
         ∧ (∃ key, Dicom_zapping make_archive subprocess_call dicom_folder
                     tree dicom_fields w = (Raise (KeyError key), w)))
  ∧ (∀ dicom_folder (dicom_fields : dict) subdirs_list w e v dirs w',
       dict_get dicom_fields "0010,0010" = Some e →
       Value e = Some v →
       createDirectories dicom_folder dicom_fields subdirs_list w
       = (Ok dirs, w') →
       dirs = (dicom_folder +:+ sep +:+ v,
               dicom_folder +:+ sep +:+ v +:+ "_anonymized")
       ∧ path_exists (fs w) dirs.1 = false
       ∧ path_exists (fs w) dirs.2 = false
       ∧ path_isdir (fs w') dirs.1 = true
       ∧ path_isdir (fs w') dirs.2 = true).
Proof.
  split.
  - intros dicom_folder dicom_fields subdirs_list w Hno.
    split; [by apply createDirectories_KeyError|].
    intros make_archive subprocess_call tree found Hfound.
    destruct (createDirectories_KeyError dicom_folder dicom_fields found.2 w
                Hno) as [key Hkey].
    split; exists key.
    + unfold Dicom_zapping_PyDicom.
      erewrite bind_Ok; [|unfold lift; by rewrite Hfound].
      by erewrite bind_Raise.
    + unfold Dicom_zapping.
      erewrite bind_Ok; [|unfold lift; by rewrite Hfound].
      by erewrite bind_Raise.
  - intros dicom_folder dicom_fields subdirs_list w e v dirs w' Hget Hv Hrun.
    apply createDirectories_Ok in Hrun
      as (e' & v' & Hget' & Hv' & Hdirs & Hrest).
    rewrite Hget in Hget'. injection Hget' as <-.
    rewrite Hv in Hv'. injection Hv' as <-. done.
Qed.

Lemma staging_directories_need_patient_name_witness :
  (∃ key, Dicom_zapping_PyDicom shutil_make_archive "/data" ok6_tree
            ok5_fields (init_world "/data" ok6_tree)
          = (Raise (KeyError key), init_world "/data" ok6_tree))
  ∧ path_isdir
      (fs (createDirectories "/data" ok1_fields []
             (init_world "/data" cx4_tree)).2) "/data/ID01" = true.
Proof.
  destruct staging_directories_need_patient_name as [Hraise Hnames]. split.
  - refine (proj1 (proj2 (Hraise "/data" ok5_fields [] _ _)
                     shutil_make_archive (fun _ m => m) ok6_tree _ _)).
    + intros e [= <-]. reflexivity.
    + vm_compute. reflexivity.
  - assert (Hrun : createDirectories "/data" ok1_fields []
                     (init_world "/data" cx4_tree)
                   = (Ok ("/data/ID01", "/data/ID01_anonymized"),
                      (createDirectories "/data" ok1_fields []
                         (init_world "/data" cx4_tree)).2)).
    { vm_compute. reflexivity. }
    exact (proj1 (proj2 (proj2 (proj2
             (Hnames "/data" ok1_fields [] (init_world "/data" cx4_tree)
                _ "ID01" _ _ eq_refl eq_refl Hrun))))).
Defined.

(** ** C8 *)

Lemma cleanup_loop_raises (subdirs_list : list string) w u w' :
  subdirs_list ≠ [] →
  for_each subdirs_list
    (fun subdir => raise (A := unit) (NameError "dicom_folder")) w
  ≠ (Ok u, w').
Proof. destruct subdirs_list; [done|]. intros _. simpl. by unfold bind, raise. Qed.

Lemma zip_DICOM_directories_never_returns
  make_archive anonymize_dir original_dir subdirs_list w r w' :
  subdirs_list ≠ [] →
  zip_DICOM_directories make_archive anonymize_dir original_dir subdirs_list w
  = (r, w') →
  is_ok r = false.
Proof.
  intros Hne Hrun. destruct r as [zips| |]; [exfalso|done..].
  unfold zip_DICOM_directories in Hrun.
  apply bind_inv_Ok in Hrun as (a_exists & w1 & _ & Hrun).
  apply bind_inv_Ok in Hrun as (o_exists & w2 & _ & Hrun).
  apply bind_inv_Ok in Hrun as (zs & w3 & _ & Hrun).
  apply bind_inv_Ok in Hrun as (az & w4 & _ & Hrun).
  apply bind_inv_Ok in Hrun as (oz & w5 & _ & Hrun).
  apply bind_inv_Ok in Hrun as (u & w6 & Hloop & _).
  destruct (az && oz); [|done].
  by apply cleanup_loop_raises in Hloop.
Qed.

(** C8: whenever discovery yields a subdirectory, the PyDICOM zapping
    pipeline does not return; and on a root that holds one input file and
    a subdirectory with an excluded file, it produces both archives and
    then raises [NameError] on [dicom_folder] in the cleanup loop of
    [zip_DICOM_directories]. *)
Theorem PyDicom_pipeline_fails_with_subdirectory :
  (∀ make_archive dicom_folder tree (dicom_fields : dict) w found r w',
     GrepDicomsFromFolder dicom_folder tree = Ok found →
     found.2 ≠ [] →
     Dicom_zapping_PyDicom make_archive dicom_folder tree dicom_fields w
     = (r, w') →
     is_ok r = false)
  ∧ (∃ w',
       GrepDicomsFromFolder "/data" cx8_tree = Ok (["/data/a.dcm"], ["sub"])
       ∧ Dicom_zapping_PyDicom shutil_make_archive "/data" cx8_tree
           ok1_fields (init_world "/data" cx8_tree)
         = (Raise (NameError "dicom_folder"), w')
       ∧ path_exists (fs w') "/data/ID01.zip" = true
       ∧ path_exists (fs w') "/data/ID01_anonymized.zip" = true).
Proof.
  split.
  - intros make_archive dicom_folder tree dicom_fields w found r w'
      Hfound Hne Hrun.
    destruct r as [zips| |]; [exfalso|done..].
    unfold Dicom_zapping_PyDicom in Hrun.
    apply bind_inv_Ok in Hrun as (found' & w1 & Hf & Hrun).
    unfold lift in Hf. rewrite Hfound in Hf. injection Hf as <- <-.
    apply bind_inv_Ok in Hrun as (dirs & w2 & _ & Hrun).
    apply bind_inv_Ok in Hrun as (u1 & w3 & _ & Hrun).
    apply bind_inv_Ok in Hrun as (u2 & w4 & _ & Hrun).
    by apply zip_DICOM_directories_never_returns in Hrun.
  - eexists. split; [vm_compute; reflexivity|].
    split; [vm_compute; reflexivity|].
    split; vm_compute; reflexivity.
Qed.

Lemma PyDicom_pipeline_fails_with_subdirectory_witness :
  is_ok (Dicom_zapping_PyDicom shutil_make_archive "/data" cx8_tree
           ok1_fields (init_world "/data" cx8_tree)).1 = false.
Proof.
  refine (proj1 PyDicom_pipeline_fails_with_subdirectory
            shutil_make_archive "/data" cx8_tree ok1_fields
            (init_world "/data" cx8_tree) (["/data/a.dcm"], ["sub"])
            _ _ _ _ _).
  - vm_compute. reflexivity.
  - discriminate.
  - apply surjective_pairing.
Defined.

(** ** C7 *)

(** C7, counterexample: a directory with one file whose archive path
    [/data/ID01.zip] is taken by a directory.  The zip file cannot be
    created; [zipDicom] does not exit with a message, the [IOError] of the
    archiver goes through it. *)
Lemma zipDicom_raises_when_archive_cannot_be_created :
  os_listdir "/data/ID01" (init_world "/data" cx7_tree)
  = (Ok ["a.dcm"], init_world "/data" cx7_tree)
  ∧ path_isdir (fs (init_world "/data" cx7_tree)) "/data/ID01.zip" = true
  ∧ zipDicom shutil_make_archive "/data/ID01" (init_world "/data" cx7_tree)
    = (Raise (IOError "/data/ID01"), init_world "/data" cx7_tree)
  ∧ ∀ msg w',
      zipDicom shutil_make_archive "/data/ID01" (init_world "/data" cx7_tree)
      ≠ (Exit msg, w').
Proof.
  assert (Hrun : zipDicom shutil_make_archive "/data/ID01"
                   (init_world "/data" cx7_tree)
                 = (Raise (IOError "/data/ID01"),
                    init_world "/data" cx7_tree))
    by (vm_compute; reflexivity).
  split; [vm_compute; reflexivity|]. split; [vm_compute; reflexivity|].
  split; [exact Hrun|]. intros msg w'. rewrite Hrun. discriminate.
Qed.

(** C7, as amended: [zipDicom] exits with a message when the directory has
    no entry; for a directory with entries, an exception of the archiver
    goes through [zipDicom] without a message; when the archiver has
    returned and nothing exists at [<directory>.zip], it exits with a
    message; otherwise it removes the directory and returns
    [<directory>.zip], where the archive still exists.  The last part is
    for a directory path with a non-empty base name (no trailing
    separator). *)
Theorem zipDicom_outcomes make_archive directory w :
  (os_listdir directory w = (Ok [], w) →
   zipDicom make_archive directory w
   = (Exit ("The directory " +:+ directory
            +:+ " is empty and will not be archived."), w))
  ∧ (∀ names,
       os_listdir directory w = (Ok names, w) →
       names ≠ [] →
       (∀ e w1,
          make_archive directory directory w = (Raise e, w1) →
          zipDicom make_archive directory w = (Raise e, w1))
       ∧ (∀ u w1,
            make_archive directory directory w = (Ok u, w1) →
            (path_exists (fs w1) (directory +:+ ".zip") = false →
             zipDicom make_archive directory w
             = (Exit ((directory +:+ ".zip") +:+ " could not be created."),
                w1))
            ∧ (path_exists (fs w1) (directory +:+ ".zip") = true →
               path_isdir (fs w1) directory = true →
               basename directory ≠ EmptyString →
               ∃ w2,
                 zipDicom make_archive directory w
                 = (Ok (directory +:+ ".zip"), w2)
                 ∧ path_exists (fs w2) (directory +:+ ".zip") = true
                 ∧ node_at (fs w2) (directory +:+ ".zip")
                   = node_at (fs w1) (directory +:+ ".zip")
                 ∧ path_exists (fs w2) directory = false))).
Proof.
  split; [apply zipDicom_empty|].
  intros names Hl Hne. split.
  { intros e w1 Hmk. by eapply zipDicom_archiver_raises. }
  intros u w1 Hmk. split.
  - by eapply zipDicom_not_created.
  - intros Hex Hdir Hbase.
    exists (set_fs (remove_tree (split_path directory)) w1).
    split; [by eapply zipDicom_created|].
    destruct (archive_outside_directory directory Hbase)
      as (x & _ & _ & _ & Hout).
    assert (Hnode : node_at (fs (set_fs (remove_tree (split_path directory))
                                   w1)) (directory +:+ ".zip")
                    = node_at (fs w1) (directory +:+ ".zip")).
    { simpl. by apply node_at_remove_tree. }
    split; [|split; [exact Hnode|]].
    + unfold path_exists in *. by rewrite Hnode.
    + simpl. apply path_exists_remove_tree_self.
Qed.

Lemma zipDicom_outcomes_witness :
  zipDicom shutil_make_archive "/data/ID01" (init_world "/data" empty7_tree)
  = (Exit "The directory /data/ID01 is empty and will not be archived.",
     init_world "/data" empty7_tree)
  ∧ zipDicom shutil_make_archive "/data/ID01" (init_world "/data" cx7_tree)
    = (Raise (IOError "/data/ID01"), init_world "/data" cx7_tree)
  ∧ zipDicom shutil_make_archive "/data/ID01/" (init_world "/data" ok7_tree)
    = (Exit "/data/ID01/.zip could not be created.",
       (shutil_make_archive "/data/ID01/" "/data/ID01/"
          (init_world "/data" ok7_tree)).2)
  ∧ ∃ w2,
      zipDicom shutil_make_archive "/data/ID01" (init_world "/data" ok7_tree)
      = (Ok "/data/ID01.zip", w2)
      ∧ path_exists (fs w2) "/data/ID01.zip" = true
      ∧ node_at (fs w2) "/data/ID01.zip"
        = Some (FFile (Archive [(["a.dcm"], Dicom ok1_dataset)]))
      ∧ path_exists (fs w2) "/data/ID01" = false.
Proof.
  split; [|split; [|split]].
  - refine (proj1 (zipDicom_outcomes shutil_make_archive "/data/ID01"
                     (init_world "/data" empty7_tree)) _).
    vm_compute. reflexivity.
  - refine (proj1 (proj2 (zipDicom_outcomes shutil_make_archive "/data/ID01"
                            (init_world "/data" cx7_tree))
                     ["a.dcm"] _ _) (IOError "/data/ID01") _ _).
    + vm_compute. reflexivity.
    + discriminate.
    + vm_compute. reflexivity.
  - refine (proj1 (proj2 (proj2 (zipDicom_outcomes shutil_make_archive
                                   "/data/ID01/"
                                   (init_world "/data" ok7_tree))
                            ["a.dcm"] _ _) tt _ _) _).
    + vm_compute. reflexivity.
    + discriminate.
    + vm_compute. reflexivity.
    + vm_compute. reflexivity.
  - destruct (proj2 (proj2 (zipDicom_outcomes shutil_make_archive "/data/ID01"
                              (init_world "/data" ok7_tree))
                       ["a.dcm"] ltac:(vm_compute; reflexivity)
                       ltac:(discriminate)) tt
                (shutil_make_archive "/data/ID01" "/data/ID01"
                   (init_world "/data" ok7_tree)).2) as [_ Hret].
    + vm_compute. reflexivity.
    + destruct Hret as (w2 & Hrun & Hex & Hnode & Hgone).
      * vm_compute. reflexivity.
      * vm_compute. reflexivity.
      * vm_compute. discriminate.
      * exists w2. split; [exact Hrun|]. split; [exact Hex|].
        split; [|exact Hgone]. refine (eq_trans Hnode _).
        vm_compute. reflexivity.
Defined.

(** ** C2 *)

Lemma flat_tree_names files :
  subdir_names (flat_tree files) = []
  ∧ file_names (flat_tree files) = List.map fst files
  ∧ List.flat_map (walk_node EmptyString) (flat_tree files) = [].
Proof.
  unfold subdir_names, file_names, flat_tree.
  induction files as [|[n c] files (IH1 & IH2 & IH3)]; [done|].
  simpl. by rewrite IH2.
Qed.

Lemma flat_tree_walk top files :
  os_walk top (flat_tree files) = [(top, [], List.map fst files)].
Proof.
  unfold os_walk. destruct (flat_tree_names files) as (-> & -> & _).
  f_equal. unfold flat_tree.
  induction files as [|[n c] files IH]; [done|]. simpl. exact IH.
Qed.

Lemma discovered_names top files :
  List.map (path_join top)
    (List.filter (fun f => negb (pattern_search f)) (List.map fst files))
  = List.map (fun nc => path_join top nc.1) (discovered files).
Proof.
  unfold discovered. induction files as [|[n c] files IH]; [done|].
  simpl. destruct (pattern_search n); simpl; by rewrite IH.
Qed.

Lemma flat_discovery dicom_folder files :
  files ≠ [] →
  GrepDicomsFromFolder dicom_folder (flat_tree files)
  = Ok (List.map (fun nc => path_join dicom_folder nc.1) (discovered files),
        []).
Proof.
  intros Hne. unfold GrepDicomsFromFolder. rewrite flat_tree_walk.
  cbn [grep_loop]. rewrite discovered_names.
  by destruct files as [|[n c] files].
Qed.

Lemma elem_of_discovered files n c :
  (n, c) ∈ discovered files ↔ (n, c) ∈ files ∧ pattern_search n = false.
Proof.
  unfold discovered. rewrite list_elem_of_In, filter_In, <- list_elem_of_In.
  simpl. by rewrite negb_true_iff.
Qed.

Lemma NoDup_discovered files :
  NoDup files.*1 → NoDup (discovered files).*1.
Proof.
  unfold discovered. induction files as [|[n c] files IH]; [done|].
  cbn [fmap list_fmap fst]. intros [Hn Hnd]%NoDup_cons. simpl.
  destruct (pattern_search n); simpl; [by apply IH|].
  apply NoDup_cons. split; [|by apply IH].
  intros Hin. apply Hn. apply list_elem_of_fmap in Hin as ([n' c'] & -> & Hin).
  apply list_elem_of_In, filter_In in Hin as [Hin _].
  apply list_elem_of_fmap. exists (n', c'). by rewrite list_elem_of_In.
Qed.

Lemma zip_name_excluded x : pattern_search (x +:+ ".zip") = true.
Proof.
  unfold pattern_search.
  assert (H : ends_dollar ".zip" (x +:+ ".zip") = true).
  { unfold ends_dollar. rewrite ends_with_app; [done|done|simpl; lia]. }
  rewrite H. by rewrite !orb_true_r.
Qed.

Lemma zapped_names (dicom_fields : dict) (D : list (string * fcontent)) :
  (List.map (fun nc : string * fcontent =>
               (nc.1, zap_content dicom_fields nc.2)) D).*1 = D.*1.
Proof. induction D as [|[? ?] ? IH]; simpl; [done|]. by f_equal. Qed.




(** An input file in a subdirectory is copied flat into the staging
    directory but rewritten at its mirrored path: the pipeline raises on
    the missing file, before any archive is written. *)
Lemma PyDicom_pipeline_raises_on_nested_file :
  ∃ w',
    Dicom_zapping_PyDicom shutil_make_archive "/data" nested_tree ok1_fields
      (init_world "/data" nested_tree)
    = (Raise (IOError "/data/ID01_anonymized/sub/a.dcm"), w')
    ∧ path_exists (fs w') "/data/ID01_anonymized/a.dcm" = true
    ∧ path_exists (fs w') "/data/ID01_anonymized/sub/a.dcm" = false
    ∧ path_exists (fs w') "/data/ID01.zip" = false.
Proof.
  eexists. split; [vm_compute; reflexivity|].
  repeat split; vm_compute; reflexivity.
Qed.

(** * Properties of the remaining code *)

(** ** The exclusion pattern *)

Lemma ends_with_spec suf s :
  ends_with suf s = true ↔ ∃ x, s = x +:+ suf.
Proof.
  split.
  - induction s as [|c s IH]; cbn [ends_with].
    + rewrite orb_false_r. intros ->%String.eqb_eq. by exists EmptyString.
    + intros [->%String.eqb_eq|H]%orb_true_iff; [by exists EmptyString|].
      destruct (IH H) as [x ->]. by exists (String c x).
  - intros [x ->]. induction x as [|c x IH].
    + rewrite append_nil_l. destruct suf; cbn [ends_with];
        by rewrite String.eqb_refl.
    + rewrite append_cons. cbn [ends_with]. by rewrite IH, orb_true_r.
Qed.

Lemma prefix_spec t s :
  String.prefix t s = true ↔ ∃ y, s = t +:+ y.
Proof.
  split.
  - revert s. induction t as [|c t IH]; intros s H.
    + by exists s.
    + destruct s as [|c' s]; [done|]. cbn [String.prefix] in H.
      destruct (ascii_dec c c') as [<-|]; [|done].
      destruct (IH s H) as [y ->]. by exists y.
  - intros [y ->]. apply prefix_app.
Qed.

Lemma occurs_spec t s :
  occurs t s = true ↔ ∃ x y, s = x +:+ t +:+ y.
Proof.
  split.
  - induction s as [|c s IH]; cbn [occurs].
    + rewrite orb_false_r. intros [y Hy]%prefix_spec.
      by exists EmptyString, y.
    + intros [[y Hy]%prefix_spec|H]%orb_true_iff.
      * by exists EmptyString, y.
      * destruct (IH H) as (x & y & ->). by exists (String c x), y.
  - intros (x & y & ->). induction x as [|c x IH].
    + rewrite append_nil_l. destruct (t +:+ y) eqn:E; cbn [occurs];
        rewrite <- ?E, prefix_app; done.
    + rewrite append_cons. cbn [occurs]. by rewrite IH, orb_true_r.
Qed.

Lemma ends_dollar_spec suf s :
  ends_dollar suf s = true
  ↔ ∃ x, s = x +:+ suf ∨ s = x +:+ suf +:+ newline.
Proof.
  unfold ends_dollar. rewrite orb_true_iff, !ends_with_spec. split.
  - intros [[x ->]|[x ->]]; exists x; [by left|by right].
  - intros [x [->| ->]]; [left|right]; by exists x.
Qed.

(** X1: a name is excluded from discovery exactly when it ends with one of
    the six extensions, possibly followed by one final newline, or holds
    [.DS_Store] anywhere; the match is case sensitive and other suffixes
    (for instance [.jpg]) are kept. *)
Theorem exclusion_pattern_matches name :
  pattern_search name = true
  ↔ (∃ ext x, ext ∈ excluded_extensions
              ∧ (name = x +:+ ext ∨ name = x +:+ ext +:+ newline))
    ∨ (∃ x y, name = x +:+ ".DS_Store" +:+ y).
Proof.
  unfold pattern_search, excluded_extensions.
  rewrite !orb_true_iff, !ends_dollar_spec, occurs_spec. split.
  - intros Hor.
    repeat match goal with H : _ ∨ _ |- _ => destruct H as [H|H] end;
      first [ by right
            | destruct Hor as [x Hx]; left; eexists _, x;
              split; [|exact Hx];
              repeat (apply elem_of_cons; first [by left | right]) ].
  - intros [(ext & x & Hext & H)|H]; [|by right]. left.
    repeat (apply elem_of_cons in Hext as [->|Hext]);
      [| | | | | |by apply elem_of_nil in Hext]; eauto 10.
Qed.

(** ** The field dictionary of [Grep_DICOM_fields] *)

Lemma dict_get_set_eq (d : dict) key e :
  dict_get (dict_set d key e) key = Some e.
Proof.
  induction d as [|[k e'] d IH]; cbn [dict_set dict_get].
  - by rewrite String.eqb_refl.
  - destruct (String.eqb k key) eqn:E; cbn [dict_get]; by rewrite E.
Qed.

Lemma dict_get_set_ne (d : dict) key key' e :
  key ≠ key' → dict_get (dict_set d key e) key' = dict_get d key'.
Proof.
  intros Hne. induction d as [|[k e'] d IH]; cbn [dict_set dict_get].
  - by apply String.eqb_neq in Hne as ->.
  - destruct (String.eqb k key) eqn:E; cbn [dict_get]; [|by rewrite IH].
    apply String.eqb_eq in E as ->. by apply String.eqb_neq in Hne as ->.
Qed.

Lemma dict_set_keys (d : dict) key e :
  List.map fst (dict_set d key e)
  = if decide (key ∈ List.map fst d) then List.map fst d
    else List.map fst d ++ [key].
Proof.
  induction d as [|[k e'] d IH]; cbn [dict_set List.map fst].
  - destruct (decide (key ∈ [])) as [H|_]; [by apply elem_of_nil in H|done].
  - destruct (String.eqb k key) eqn:E.
    + apply String.eqb_eq in E as ->.
      destruct (decide (key ∈ key :: List.map fst d)) as [_|H]; [done|].
      exfalso. apply H. by left.
    + apply String.eqb_neq in E. cbn [List.map fst]. rewrite IH.
      destruct (decide (key ∈ List.map fst d)) as [H|H];
        destruct (decide (key ∈ k :: List.map fst d)) as [H'|H']; try done.
      * exfalso. apply H'. by right.
      * apply elem_of_cons in H' as [->|H']; done.
Qed.

Lemma last_item_snoc name xmldoc item :
  last_item name (xmldoc ++ [item])
  = if String.eqb (item_name item) name then Some item
    else last_item name xmldoc.
Proof. unfold last_item. by rewrite rev_unit. Qed.

Lemma Grep_DICOM_fields_snoc xmldoc item :
  Grep_DICOM_fields (xmldoc ++ [item])
  = dict_set (Grep_DICOM_fields xmldoc) (item_name item) (item_entry item).
Proof. unfold Grep_DICOM_fields. by rewrite fold_left_app. Qed.

Lemma Grep_DICOM_fields_key xmldoc name :
  name ∈ List.map fst (Grep_DICOM_fields xmldoc)
  ↔ name ∈ List.map item_name xmldoc.
Proof.
  induction xmldoc as [|item xmldoc IH] using rev_ind; [done|].
  rewrite Grep_DICOM_fields_snoc, dict_set_keys, map_app.
  change (List.map item_name [item]) with [item_name item].
  rewrite elem_of_app, list_elem_of_singleton, <- IH.
  destruct (decide (item_name item ∈ List.map fst (Grep_DICOM_fields xmldoc)))
    as [Hin|Hnin].
  - split; [by left|]. by intros [?| ->].
  - by rewrite elem_of_app, list_elem_of_singleton.
Qed.

Lemma Grep_DICOM_fields_NoDup xmldoc :
  NoDup (List.map fst (Grep_DICOM_fields xmldoc)).
Proof.
  induction xmldoc as [|item xmldoc IH] using rev_ind; [constructor|].
  rewrite Grep_DICOM_fields_snoc, dict_set_keys.
  destruct (decide (item_name item ∈ List.map fst (Grep_DICOM_fields xmldoc)))
    as [Hin|Hnin]; [done|].
  apply NoDup_app. split; [done|]. split; [|apply NoDup_singleton].
  intros x Hx ->%list_elem_of_singleton. done.
Qed.

(** X2: the dictionary read from the document has exactly the item names as
    keys, each once; under a name it holds the description and the
    editable flag of the last item with that name, a flag being true
    exactly for the text [yes], and neither a ['Value'] nor an ['Update'];
    a name that no item has is not a key. *)
Theorem Grep_DICOM_fields_last_item_wins xmldoc :
  NoDup (List.map fst (Grep_DICOM_fields xmldoc))
  ∧ (∀ name, name ∈ List.map fst (Grep_DICOM_fields xmldoc)
             ↔ name ∈ List.map item_name xmldoc)
  ∧ ∀ name,
      dict_get (Grep_DICOM_fields xmldoc) name
      = item_entry <$> last_item name xmldoc.
Proof.
  split; [apply Grep_DICOM_fields_NoDup|].
  split; [apply Grep_DICOM_fields_key|].
  intros name. induction xmldoc as [|item xmldoc IH] using rev_ind; [done|].
  rewrite Grep_DICOM_fields_snoc, last_item_snoc.
  destruct (String.eqb (item_name item) name) eqn:E.
  - apply String.eqb_eq in E as <-. by rewrite dict_get_set_eq.
  - apply String.eqb_neq in E. by rewrite dict_get_set_ne.
Qed.

(** ** Reading the values *)

Lemma dict_get_app_notin (d1 d2 : dict) key :
  key ∉ List.map fst d1 → dict_get (d1 ++ d2) key = dict_get d2 key.
Proof.
  induction d1 as [|[k e] d1 IH]; [done|]. cbn [List.map fst app dict_get].
  intros Hnin. destruct (String.eqb k key) eqn:E.
  - apply String.eqb_eq in E as ->. exfalso. apply Hnin. by left.
  - apply IH. intros H. apply Hnin. by right.
Qed.

Lemma dict_set_app_notin (d1 d2 : dict) key e :
  key ∉ List.map fst d1 →
  dict_set (d1 ++ d2) key e = d1 ++ dict_set d2 key e.
Proof.
  induction d1 as [|[k e'] d1 IH]; [done|]. cbn [List.map fst app dict_set].
  intros Hnin. destruct (String.eqb k key) eqn:E.
  - apply String.eqb_eq in E as ->. exfalso. apply Hnin. by left.
  - rewrite IH; [done|]. intros H. apply Hnin. by right.
Qed.

Lemma dump_step_head match_bracket output (d1 d2 : dict) name e :
  name ∉ List.map fst d1 →
  dump_step match_bracket output (d1 ++ (name, e) :: d2) name
  = (d1 ++ [(name, dumped_entry match_bracket output (name, e))]) ++ d2.
Proof.
  intros Hnin. unfold dump_step, dumped_entry. cbn [fst snd].
  rewrite dict_get_app_notin by done. cbn [dict_get].
  rewrite String.eqb_refl, <- app_assoc. cbn [app].
  destruct (output name ≫= match_bracket) as [value|]; [|done].
  rewrite dict_set_app_notin by done. cbn [dict_set].
  by rewrite String.eqb_refl.
Qed.

Lemma dump_fold_spec match_bracket output (d2 : dict) : ∀ d1 : dict,
  NoDup (List.map fst d2) →
  (∀ k, k ∈ List.map fst d1 → k ∉ List.map fst d2) →
  fold_left (dump_step match_bracket output) (List.map fst d2) (d1 ++ d2)
  = d1 ++ List.map (fun ne => (ne.1, dumped_entry match_bracket output ne)) d2.
Proof.
  induction d2 as [|[name e] d2 IH]; intros d1 Hnd Hdisj; [done|].
  cbn [List.map fst] in *. apply NoDup_cons in Hnd as [Hname Hnd].
  cbn [fold_left]. rewrite dump_step_head.
  - rewrite IH; [by rewrite <- app_assoc|done|].
    intros k. rewrite map_app, elem_of_app. cbn [List.map fst].
    intros [Hk|Hk%list_elem_of_singleton] Hin.
    + apply (Hdisj k Hk). by right.
    + by subst.
  - intros Hin. apply (Hdisj name Hin). by left.
Qed.

Lemma dump_loop_run check_output match_bracket dicom_file w names :
  ∀ dicom_fields : dict,
  (∀ name, name ∈ names →
           is_Some (check_output (dump_cmd name dicom_file) (fs w))) →
  dump_loop check_output match_bracket dicom_file names dicom_fields w
  = (Ok (fold_left
           (dump_step match_bracket
              (fun name => check_output (dump_cmd name dicom_file) (fs w)))
           names dicom_fields), w).
Proof.
  induction names as [|name names IH]; intros dicom_fields Hall; [done|].
  cbn [dump_loop fold_left]. fold (dump_cmd name dicom_file).
  destruct (Hall name) as [result Hres]; [by left|].
  unfold dump_step at 2. rewrite Hres. cbn [mbind option_bind].
  destruct (match_bracket result) as [value|];
    [destruct (dict_get dicom_fields name) as [e|]|];
    apply IH; intros n Hn; apply Hall; by right.
Qed.

Lemma dump_loop_fails check_output match_bracket dicom_file w names1 name names2 :
  ∀ dicom_fields : dict,
  (∀ n, n ∈ names1 →
        is_Some (check_output (dump_cmd n dicom_file) (fs w))) →
  check_output (dump_cmd name dicom_file) (fs w) = None →
  dump_loop check_output match_bracket dicom_file (names1 ++ name :: names2)
    dicom_fields w
  = (Raise (CalledProcessError (dump_cmd name dicom_file)), w).
Proof.
  induction names1 as [|n names1 IH]; intros dicom_fields Hall Hfail.
  - cbn [app dump_loop]. fold (dump_cmd name dicom_file). by rewrite Hfail.
  - cbn [app dump_loop]. fold (dump_cmd n dicom_file).
    destruct (Hall n) as [result Hres]; [by left|]. rewrite Hres.
    destruct (match_bracket result) as [value|];
      [destruct (dict_get dicom_fields n) as [e|]|];
      apply IH; try done; intros n' Hn'; apply Hall; by right.
Qed.



(** X4: when the command fails for a field after having answered for the
    fields before it, [Grep_DICOM_values] raises [CalledProcessError] for
    that command and returns no dictionary, so the values read before
    the failure are not handed back; no file is changed. *)
Theorem Grep_DICOM_values_stops_at_failing_command
  check_output match_bracket dicom_folder tree (before : dict) name e
  (after : dict) w dicom_file rest subdirs_list :
  GrepDicomsFromFolder dicom_folder tree
  = Ok (dicom_file :: rest, subdirs_list) →
  (∀ n, n ∈ List.map fst before →
        is_Some (check_output (dump_cmd n dicom_file) (fs w))) →
  check_output (dump_cmd name dicom_file) (fs w) = None →
  Grep_DICOM_values check_output match_bracket dicom_folder tree
    (before ++ (name, e) :: after) w
  = (Raise (CalledProcessError
              ("dcmdump -ml +P " +:+ name +:+ " -q " +:+ dicom_file)), w).
Proof.
  intros Hfound Hall Hfail. unfold Grep_DICOM_values.
  erewrite bind_Ok; [|unfold lift; by rewrite Hfound]. cbn [fst].
  rewrite map_app. cbn [List.map fst].
  by apply dump_loop_fails.
Qed.

Lemma Grep_DICOM_values_stops_at_failing_command_witness :
  Grep_DICOM_values demo_check_output demo_match_bracket "/data" cx9_tree
    ok5_fields (init_world "/data" cx9_tree)
  = (Raise (CalledProcessError "dcmdump -ml +P 0010,0030 -q /data/a.dcm"),
     init_world "/data" cx9_tree).
Proof.
  refine (eq_trans (Grep_DICOM_values_stops_at_failing_command
            demo_check_output demo_match_bracket "/data" cx9_tree
            [("0010,0010", _)] "0010,0030" _ [] (init_world "/data" cx9_tree)
            "/data/a.dcm" [] [] _ _ _) _).
  - vm_compute. reflexivity.
  - intros n Hin. apply elem_of_cons in Hin as [->|Hin];
      [by eexists | by apply elem_of_nil in Hin].
  - reflexivity.
  - reflexivity.
Defined.

(** X5: when no directory of the tree is empty and every file in it has an
    excluded name, discovery returns an empty list and both value readers
    raise [IndexError] on [dicoms_list[0]]; no file is read or changed. *)
Theorem value_readers_raise_IndexError_without_input_files
  check_output match_bracket dicom_folder tree (dicom_fields : dict) w :
  has_empty_dir tree = false →
  (∀ dirs f, file_at tree dirs f → pattern_search f = true) →
  Grep_DICOM_values_PyDicom dicom_folder tree dicom_fields w
  = (Raise IndexError, w)
  ∧ Grep_DICOM_values check_output match_bracket dicom_folder tree
      dicom_fields w
    = (Raise IndexError, w).
Proof.
  intros Hne Hexcl.
  unfold Grep_DICOM_values_PyDicom, Grep_DICOM_values.
  rewrite GrepDicomsFromFolder_spec, Hne.
  destruct (List.flat_map triple_files (os_walk dicom_folder tree))
    as [|p files] eqn:E; [done|].
  exfalso. assert (Hp : p ∈ List.flat_map triple_files
                              (os_walk dicom_folder tree)).
  { rewrite E. by left. }
  apply os_walk_files in Hp as (dirs & f & Hat & Hkeep & _).
  rewrite (Hexcl dirs f Hat) in Hkeep. done.
Qed.

Lemma value_readers_raise_IndexError_without_input_files_witness :
  Grep_DICOM_values_PyDicom "/data" cx4_tree ok5_fields
    (init_world "/data" cx4_tree)
  = (Raise IndexError, init_world "/data" cx4_tree)
  ∧ Grep_DICOM_values demo_check_output demo_match_bracket "/data" cx4_tree
      ok5_fields (init_world "/data" cx4_tree)
    = (Raise IndexError, init_world "/data" cx4_tree).
Proof.
  apply (value_readers_raise_IndexError_without_input_files
           demo_check_output demo_match_bracket "/data" cx4_tree ok5_fields
           (init_world "/data" cx4_tree)).
  - reflexivity.
  - intros dirs f Hat. inversion Hat as [? ? c Hin|? d sub ? ? Hin]; subst.
    + apply elem_of_cons in Hin as [[= -> _]|Hin];
        [reflexivity | by apply elem_of_nil in Hin].
    + apply elem_of_cons in Hin as [[=]|Hin]. by apply elem_of_nil in Hin.
Defined.

(** ** The write step of the library branch *)

Lemma try_assign_lookup (X : dataset) kw v d :
  try_assign X kw v !! d
  = if bool_decide (kw = Some d) then const v <$> X !! d else X !! d.
Proof.
  unfold try_assign, data_element_assign. destruct kw as [d0|].
  - destruct (decide (d0 = d)) as [->|Hne].
    + rewrite bool_decide_eq_true_2 by done.
      destruct (X !! d) eqn:E; [by rewrite lookup_insert_eq | by rewrite E].
    + rewrite bool_decide_eq_false_2 by congruence.
      destruct (X !! d0); [by rewrite lookup_insert_ne | done].
  - by rewrite bool_decide_eq_false_2.
Qed.

Lemma zap_fold_snoc dicom_fields ne ds :
  zap_fold (dicom_fields ++ [ne]) ds
  = try_assign (zap_fold dicom_fields ds) (Description ne.2)
      (library_value ne.2).
Proof. unfold zap_fold. by rewrite fold_left_app. Qed.

Lemma last_described_snoc d dicom_fields ne :
  last_described d (dicom_fields ++ [ne])
  = if bool_decide (Description ne.2 = Some d) then Some ne
    else last_described d dicom_fields.
Proof. unfold last_described. by rewrite rev_unit. Qed.

Lemma zap_fold_lookup dicom_fields (ds : dataset) d :
  zap_fold dicom_fields ds !! d = zapped_value dicom_fields d <$> ds !! d.
Proof.
  induction dicom_fields as [|ne dicom_fields IH] using rev_ind.
  - unfold zap_fold, zapped_value. simpl. by destruct (ds !! d).
  - rewrite zap_fold_snoc, try_assign_lookup, IH. unfold zapped_value.
    rewrite last_described_snoc.
    destruct (bool_decide (Description ne.2 = Some d)); [|done].
    by destruct (ds !! d).
Qed.

Lemma zap_fold_idempotent dicom_fields (ds : dataset) :
  zap_fold dicom_fields (zap_fold dicom_fields ds) = zap_fold dicom_fields ds.
Proof.
  apply map_eq. intros d. rewrite !zap_fold_lookup.
  destruct (ds !! d) as [v|]; [|done]. cbn [fmap option_fmap option_map].
  unfold zapped_value. by destruct (last_described d dicom_fields).
Qed.

Lemma zap_loop_cases dicom_fields : ∀ ds : dataset,
  (Forall has_Editable dicom_fields
   ∧ zap_loop dicom_fields ds = Ok (zap_fold dicom_fields ds))
  ∨ (Exists (fun ne : string * entry => Editable ne.2 = None) dicom_fields
     ∧ zap_loop dicom_fields ds = Raise (KeyError "Editable")).
Proof.
  induction dicom_fields as [|[name e] rest IH]; intros ds.
  - left. by split; [constructor|].
  - destruct (Editable e) as [b|] eqn:He.
    + assert (Hed : Editable e ≠ None) by congruence.
      cbn [zap_loop]. rewrite (zap_field_ok e ds Hed).
      unfold zap_fold. cbn [fold_left fst snd]. fold (zap_fold rest).
      fold (try_assign ds (Description e) (library_value e)).
      destruct (IH (try_assign ds (Description e) (library_value e)))
        as [[Hall Hrun]|[Hex Hrun]].
      * left. by split; [constructor|].
      * right. by split; [apply Exists_cons_tl|].
    + right. split; [by apply Exists_cons_hd|].
      cbn [zap_loop]. unfold zap_field. by rewrite He.
Qed.

Lemma actual_PyDICOM_zapping_Ok dicom_file dicom_fields w u w' :
  actual_PyDICOM_zapping dicom_file dicom_fields w = (Ok u, w') →
  ∃ k (ds : dataset),
    resolve dicom_file = Some k
    ∧ fs w !! k = Some (FFile (Dicom ds))
    ∧ fs w !! parent k = Some FDir
    ∧ Forall has_Editable dicom_fields
    ∧ w' = {| fs := <[k := FFile (Dicom (zap_fold dicom_fields ds))]> (fs w);
              opened := opened w ++ [dicom_file] |}.
Proof.
  unfold actual_PyDICOM_zapping. intros Hrun.
  apply bind_inv_Ok in Hrun as (ds & w1 & Hread & Hrun).
  apply bind_inv_Ok in Hrun as (r & w2 & Hloop & Hsave).
  unfold dicom_read_file, node_at in Hread.
  destruct (resolve dicom_file) as [k|] eqn:Hres; [|done].
  destruct (fs w !! k) as [[|[ds0| |]]|] eqn:Hk; try done.
  injection Hread as <- <-.
  unfold lift in Hloop.
  destruct (zap_loop_cases dicom_fields ds0) as [[Hall Hz]|[_ Hz]];
    rewrite Hz in Hloop; [|done].
  injection Hloop as <- <-.
  unfold save_as, write_file in Hsave. cbn [fs] in Hsave.
  rewrite Hres, Hk in Hsave.
  destruct (fs w !! parent k) as [[|c]|] eqn:Hp; try done.
  injection Hsave as <-. by exists k, ds0.
Qed.

(** X6: a call of [actual_PyDICOM_zapping] that returns has replaced the
    data set of the file by one with the same elements; an element that is
    the ['Description'] of some field holds what the last such field, in
    iteration order, assigns (the ['Value'] of an editable field, the empty
    string otherwise), every other element holds its old value, and every
    other path of the file system is as it was. *)
Theorem zapping_keeps_elements_and_other_files
  dicom_file (dicom_fields : dict) w u w' :
  actual_PyDICOM_zapping dicom_file dicom_fields w = (Ok u, w') →
  ∃ ds ds' : dataset,
    node_at (fs w) dicom_file = Some (FFile (Dicom ds))
    ∧ node_at (fs w') dicom_file = Some (FFile (Dicom ds'))
    ∧ (∀ d, ds' !! d
            = match ds !! d, last_described d dicom_fields with
              | Some _, Some ne => Some (library_value ne.2)
              | old, _ => old
              end)
    ∧ (∀ q, resolve q ≠ resolve dicom_file →
            node_at (fs w') q = node_at (fs w) q).
Proof.
  intros Hrun.
  apply actual_PyDICOM_zapping_Ok in Hrun
    as (k & ds & Hres & Hk & _ & _ & ->).
  exists ds, (zap_fold dicom_fields ds). unfold node_at. rewrite Hres.
  cbn [fs]. split; [done|]. split; [by rewrite lookup_insert_eq|]. split.
  - intros d. rewrite zap_fold_lookup. unfold zapped_value.
    destruct (ds !! d); [|done].
    by destruct (last_described d dicom_fields).
  - intros q Hq. destruct (resolve q) as [k'|]; [|done].
    apply lookup_insert_ne. congruence.
Qed.

Lemma zapping_keeps_elements_and_other_files_witness :
  ∃ ds' : dataset,
    node_at
      (fs (actual_PyDICOM_zapping "/data/a.dcm" twice_fields
             (init_world "/data" ok6_tree)).2) "/data/a.dcm"
    = Some (FFile (Dicom ds'))
    ∧ ds' !! "PatientName" = Some EmptyString
    ∧ ds' !! "InstitutionName" = Some "H"
    ∧ ds' !! "PatientID" = None.
Proof.
  destruct (zapping_keeps_elements_and_other_files "/data/a.dcm" twice_fields
              (init_world "/data" ok6_tree) tt
              (actual_PyDICOM_zapping "/data/a.dcm" twice_fields
                 (init_world "/data" ok6_tree)).2)
    as (ds & ds' & Hold & Hnew & Hval & _).
  - vm_compute. reflexivity.
  - exists ds'. split; [exact Hnew|].
    assert (Hds : ds = ok1_dataset).
    { vm_compute in Hold. by injection Hold as <-. }
    subst ds. split; [|split].
    + rewrite (Hval "PatientName"). reflexivity.
    + rewrite (Hval "InstitutionName"). reflexivity.
    + rewrite (Hval "PatientID"). reflexivity.
Defined.

(** X7: running the write step again on a file that it has already
    rewritten returns and leaves the file system as it is: the step is
    idempotent. *)
Theorem zapping_twice_changes_nothing dicom_file (dicom_fields : dict) w u w1 :
  actual_PyDICOM_zapping dicom_file dicom_fields w = (Ok u, w1) →
  ∃ w2,
    actual_PyDICOM_zapping dicom_file dicom_fields w1 = (Ok tt, w2)
    ∧ fs w2 = fs w1.
Proof.
  intros Hrun.
  apply actual_PyDICOM_zapping_Ok in Hrun
    as (k & ds & Hres & Hk & Hpar & Hall & ->).
  destruct (actual_PyDICOM_zapping_run dicom_file dicom_fields
              {| fs := <[k := FFile (Dicom (zap_fold dicom_fields ds))]> (fs w);
                 opened := opened w ++ [dicom_file] |}
              k (zap_fold dicom_fields ds) Hres)
    as (ds' & Hloop & Hrun2).
  - cbn [fs]. by rewrite lookup_insert_eq.
  - cbn [fs]. rewrite lookup_insert_ne; [done|].
    intros Heq. rewrite <- Heq, Hk in Hpar. done.
  - done.
  - eexists. split; [exact Hrun2|]. cbn [fs].
    destruct (zap_loop_cases dicom_fields (zap_fold dicom_fields ds))
      as [[_ Hz]|[_ Hz]]; rewrite Hz in Hloop; [|done].
    injection Hloop as <-.
    by rewrite zap_fold_idempotent, insert_insert_eq.
Qed.

Lemma zapping_twice_changes_nothing_witness :
  ∃ w2,
    actual_PyDICOM_zapping "/data/a.dcm" twice_fields
      (actual_PyDICOM_zapping "/data/a.dcm" twice_fields
         (init_world "/data" ok6_tree)).2
    = (Ok tt, w2)
    ∧ fs w2
      = fs (actual_PyDICOM_zapping "/data/a.dcm" twice_fields
              (init_world "/data" ok6_tree)).2.
Proof.
  apply (zapping_twice_changes_nothing "/data/a.dcm" twice_fields
           (init_world "/data" ok6_tree) tt).
  vm_compute. reflexivity.
Defined.

(** X8: a call of [actual_PyDICOM_zapping] that does not return has written
    nothing: the file system is as before and only the read is recorded.
    On a DICOM file it fails with [KeyError] on ['Editable'] when some field
    lacks that key, whatever the fields before it assigned; on a regular
    file that is not DICOM it fails with [InvalidDicomError]; on a path
    that is no regular file with [IOError]. *)
Theorem zapping_writes_nothing_on_failure
  dicom_file (dicom_fields : dict) w r w' :
  actual_PyDICOM_zapping dicom_file dicom_fields w = (r, w') →
  (is_ok r = false →
   fs w' = fs w ∧ opened w' = opened w ++ [dicom_file])
  ∧ (∀ ds, node_at (fs w) dicom_file = Some (FFile (Dicom ds)) →
           Exists (fun ne : string * entry => Editable ne.2 = None)
             dicom_fields →
           r = Raise (KeyError "Editable"))
  ∧ (∀ c, node_at (fs w) dicom_file = Some (FFile c) →
          (∀ ds, c ≠ Dicom ds) →
          r = Raise (InvalidDicomError dicom_file))
  ∧ ((∀ c, node_at (fs w) dicom_file ≠ Some (FFile c)) →
     r = Raise (IOError dicom_file)).
Proof.
  unfold actual_PyDICOM_zapping, bind, dicom_read_file.
  destruct (node_at (fs w) dicom_file) as [[|[ds| |]]|] eqn:Hnode;
    cbn [fst snd fs opened]; intros Hrun;
    try (injection Hrun as <- <-; cbn [fs opened];
         repeat split; try done;
         first [ intros c [= <-] Hc; try done; by destruct (Hc _ eq_refl)
               | intros Hc; by destruct (Hc _ eq_refl)
               | intros ds' [=] ]).
  unfold lift in Hrun.
  destruct (zap_loop_cases dicom_fields ds) as [[Hall Hz]|[Hex Hz]];
    rewrite Hz in Hrun.
  - unfold save_as, write_file in Hrun. cbn [fs] in Hrun.
    unfold node_at in Hnode.
    destruct (resolve dicom_file) as [k|]; [|done]. rewrite Hnode in Hrun.
    split; [|split; [|split]].
    + destruct (fs w !! parent k) as [[|c]|];
        injection Hrun as <- <-; done.
    + intros ds' _ Hex. exfalso.
      apply Exists_exists in Hex as (ne & Hin & Hne).
      rewrite Forall_forall in Hall. by apply (Hall ne Hin).
    + intros c [= <-] Hc. by destruct (Hc ds).
    + intros Hc. by destruct (Hc (Dicom ds)).
  - injection Hrun as <- <-. cbn [fs opened]. split; [done|].
    split; [done|]. split.
    + intros c [= <-] Hc. by destruct (Hc ds).
    + intros Hc. by destruct (Hc (Dicom ds)).
Qed.

Lemma zapping_writes_nothing_on_failure_witness :
  actual_PyDICOM_zapping "/data/a.dcm" no_editable_fields
    (init_world "/data" ok6_tree)
  = (Raise (KeyError "Editable"),
     {| fs := fs (init_world "/data" ok6_tree);
        opened := ["/data/a.dcm"] |}).
Proof.
  destruct (actual_PyDICOM_zapping "/data/a.dcm" no_editable_fields
              (init_world "/data" ok6_tree)) as [r w'] eqn:Hrun.
  destruct (zapping_writes_nothing_on_failure "/data/a.dcm"
              no_editable_fields (init_world "/data" ok6_tree) r w' Hrun)
    as (Hfs & Hkey & _ & _).
  assert (Hr : r = Raise (KeyError "Editable")).
  { apply (Hkey ok1_dataset); [vm_compute; reflexivity|].
    apply Exists_cons_hd. reflexivity. }
  subst r. destruct (Hfs eq_refl) as [Hf Ho]. destruct w' as [f o].
  cbn [fs opened] in Hf, Ho. by rewrite Hf, Ho.
Defined.

(** ** The staging directories *)

Lemma path_isdir_exists (m : fsmap) p :
  path_isdir m p = true → path_exists m p = true.
Proof. unfold path_isdir, path_exists. by destruct (node_at m p) as [[]|]. Qed.

Lemma os_mkdir_subseteq p w u w' :
  os_mkdir p w = (Ok u, w') → fs w ⊆ fs w'.
Proof.
  intros (k & _ & Hk & _ & ->)%os_mkdir_Ok. cbn [set_fs fs].
  by apply insert_subseteq.
Qed.

Lemma os_mkdir_exists_before p w u w' q :
  os_mkdir p w = (Ok u, w') →
  path_exists (fs w') q = false → path_exists (fs w) q = false.
Proof.
  intros (k & _ & _ & _ & ->)%os_mkdir_Ok. cbn [set_fs fs].
  apply path_exists_insert_None.
Qed.

Lemma mkdir_loop_spec (f g : string → string) subdirs_list : ∀ w u w',
  for_each subdirs_list (fun subdir =>
    os_mkdir (f subdir) ;;; os_mkdir (g subdir)) w = (Ok u, w') →
  NoDup subdirs_list
  ∧ fs w ⊆ fs w'
  ∧ ∀ subdir, subdir ∈ subdirs_list →
      path_exists (fs w) (f subdir) = false
      ∧ path_isdir (fs w') (f subdir) = true
      ∧ path_isdir (fs w') (g subdir) = true.
Proof.
  induction subdirs_list as [|x l IH]; intros w u w' Hrun.
  - cbn [for_each] in Hrun. unfold ret in Hrun. injection Hrun as _ <-.
    split; [constructor|]. split; [done|].
    intros subdir Hin. by apply elem_of_nil in Hin.
  - cbn [for_each] in Hrun.
    apply bind_inv_Ok in Hrun as (u1 & w2 & Hbody & Hrest).
    apply bind_inv_Ok in Hbody as (u2 & w1 & Hf & Hg).
    destruct (IH _ _ _ Hrest) as (Hnd & Hsub & Hall).
    pose proof (mkdir_loop_keeps_dirs f g l w2 u w' ) as Hkeep.
    destruct (os_mkdir_creates _ _ _ _ Hf) as [Hnf Hdf].
    destruct (os_mkdir_creates _ _ _ _ Hg) as [_ Hdg].
    assert (Hdf2 : path_isdir (fs w2) (f x) = true)
      by (by eapply os_mkdir_keeps_dirs).
    split; [|split].
    + apply NoDup_cons. split; [|done]. intros Hin.
      destruct (Hall x Hin) as (Hno & _).
      apply path_isdir_exists in Hdf2. congruence.
    + etrans; [by eapply os_mkdir_subseteq|].
      etrans; [by eapply os_mkdir_subseteq|]. done.
    + intros subdir [->|Hin]%elem_of_cons.
      * split; [done|]. split; by apply (Hkeep _ Hrest).
      * destruct (Hall subdir Hin) as (Hno & Hd1 & Hd2).
        split; [|done].
        eapply os_mkdir_exists_before; [exact Hf|].
        by eapply os_mkdir_exists_before.
Qed.

(** X9: a call of [createDirectories] that returns has created, for every
    name of [subdirs_list], a directory of that name directly under each of
    the two staging directories, whatever the depth at which discovery met
    the name; it returns only when the names are pairwise distinct, and it
    changes or removes nothing that existed. *)
Theorem createDirectories_flattens_subdirectories
  dicom_folder (dicom_fields : dict) subdirs_list w dirs w' :
  createDirectories dicom_folder dicom_fields subdirs_list w = (Ok dirs, w') →
  NoDup subdirs_list
  ∧ fs w ⊆ fs w'
  ∧ ∀ subdir, subdir ∈ subdirs_list →
      path_isdir (fs w') (dirs.1 +:+ sep +:+ subdir) = true
      ∧ path_isdir (fs w') (dirs.2 +:+ sep +:+ subdir) = true.
Proof.
  intros Hrun. unfold createDirectories in Hrun.
  destruct (dict_get dicom_fields "0010,0010") as [e|]; [|done].
  destruct (Value e) as [v|]; [|done].
  apply bind_inv_Ok in Hrun as (u1 & w1 & Hm1 & Hrun).
  apply bind_inv_Ok in Hrun as (u2 & w2 & Hm2 & Hrun).
  apply bind_inv_Ok in Hrun as (u3 & w3 & Hloop & Hrun).
  injection Hrun as <- <-. cbn [fst snd].
  apply mkdir_loop_spec in Hloop as (Hnd & Hsub & Hall).
  split; [done|]. split.
  - etrans; [by eapply os_mkdir_subseteq|].
    etrans; [by eapply os_mkdir_subseteq|]. done.
  - intros subdir Hin. by destruct (Hall subdir Hin) as (_ & ? & ?).
Qed.

Lemma createDirectories_flattens_subdirectories_witness :
  createDirectories "/data" ok1_fields ["series"; "deep"]
    (init_world "/data" ok6_tree)
  = (Ok ("/data/ID01", "/data/ID01_anonymized"),
     (createDirectories "/data" ok1_fields ["series"; "deep"]
        (init_world "/data" ok6_tree)).2)
  ∧ path_isdir
      (fs (createDirectories "/data" ok1_fields ["series"; "deep"]
             (init_world "/data" ok6_tree)).2) "/data/ID01/deep" = true
  ∧ path_isdir
      (fs (createDirectories "/data" ok1_fields ["series"; "deep"]
             (init_world "/data" ok6_tree)).2)
      "/data/ID01_anonymized/deep" = true.
Proof.
  assert (Hrun : createDirectories "/data" ok1_fields ["series"; "deep"]
                   (init_world "/data" ok6_tree)
                 = (Ok ("/data/ID01", "/data/ID01_anonymized"),
                    (createDirectories "/data" ok1_fields ["series"; "deep"]
                       (init_world "/data" ok6_tree)).2))
    by (vm_compute; reflexivity).
  split; [exact Hrun|].
  destruct (createDirectories_flattens_subdirectories _ _ _ _ _ _ Hrun)
    as (_ & _ & Hall).
  apply (Hall "deep"). apply elem_of_cons. right. apply elem_of_cons. by left.
Defined.

(** X10: [createDirectories] cannot be repeated: in the world that a
    returning call leaves, a further call for the same folder and fields
    raises [OSError] on the original-files directory, which exists now, and
    changes nothing. *)
Theorem createDirectories_not_repeatable
  dicom_folder (dicom_fields : dict) subdirs_list subdirs_list' w dirs w' :
  createDirectories dicom_folder dicom_fields subdirs_list w = (Ok dirs, w') →
  createDirectories dicom_folder dicom_fields subdirs_list' w'
  = (Raise (OSError dirs.1), w').
Proof.
  intros Hrun.
  apply createDirectories_Ok in Hrun
    as (e & v & He & Hv & -> & _ & _ & Hd1 & _). cbn [fst] in *.
  unfold createDirectories. rewrite He, Hv.
  apply bind_Raise. unfold os_mkdir.
  apply path_isdir_true in Hd1 as [-> ->]. done.
Qed.

Lemma createDirectories_not_repeatable_witness :
  createDirectories "/data" ok1_fields []
    (createDirectories "/data" ok1_fields ["series"; "deep"]
       (init_world "/data" ok6_tree)).2
  = (Raise (OSError "/data/ID01"),
     (createDirectories "/data" ok1_fields ["series"; "deep"]
        (init_world "/data" ok6_tree)).2).
Proof.
  apply (createDirectories_not_repeatable "/data" ok1_fields
           ["series"; "deep"] [] (init_world "/data" ok6_tree)
           ("/data/ID01", "/data/ID01_anonymized")).
  vm_compute. reflexivity.
Defined.

(** ** The toolkit pipeline and the archives *)

Lemma modify_loop_outcomes dicom_fields : ∀ acc,
  is_ok (modify_loop dicom_fields acc) = false →
  modify_loop dicom_fields acc = Raise (KeyError "Editable")
  ∨ modify_loop dicom_fields acc = Raise (KeyError "Update").
Proof.
  induction dicom_fields as [|[name e] rest IH]; intros acc; [done|].
  cbn [modify_loop]. unfold modify_field.
  destruct (Editable e) as [editable|]; [|by left].
  destruct (negb editable && has_Value e); [apply IH|].
  destruct (Update e) as [[|]|]; [apply IH | apply IH | by right].
Qed.

Lemma zipDicom_Ok make_archive directory w archive w' :
  zipDicom make_archive directory w = (Ok archive, w') →
  archive = directory +:+ ".zip".
Proof.
  unfold zipDicom. intros Hrun.
  apply bind_inv_Ok in Hrun as (names & w1 & _ & Hrun).
  apply bind_inv_Ok in Hrun as (u & w2 & _ & Hrun).
  apply bind_inv_Ok in Hrun as (created & w3 & _ & Hrun).
  destruct created; [|done].
  apply bind_inv_Ok in Hrun as (u' & w4 & _ & Hrun).
  by injection Hrun as <- _.
Qed.

Lemma zip_both_Ok make_archive anonymize_dir original_dir msg w zips w' :
  (a_exists <- os_path_exists anonymize_dir ;;
   o_exists <- os_path_exists original_dir ;;
   if (a_exists : bool) && (o_exists : bool) then
     original_zip <- zipDicom make_archive original_dir ;;
     anonymize_zip <- zipDicom make_archive anonymize_dir ;;
     ret (anonymize_zip, original_zip)
   else sys_exit msg) w = (Ok zips, w') →
  zips = (anonymize_dir +:+ ".zip", original_dir +:+ ".zip").
Proof.
  intros Hrun.
  apply bind_inv_Ok in Hrun as (a & w1 & _ & Hrun).
  apply bind_inv_Ok in Hrun as (o & w2 & _ & Hrun).
  destruct (a && o); [|done].
  apply bind_inv_Ok in Hrun as (oz & w3 & ->%zipDicom_Ok & Hrun).
  apply bind_inv_Ok in Hrun as (az & w4 & ->%zipDicom_Ok & Hrun).
  by injection Hrun as <- _.
Qed.

(** X11: when the staging directories could be created and the
    command-building loop then raises, [Dicom_zapping] raises that
    [KeyError] (on ['Editable'] or on ['Update']) with the two staging
    directories left behind in the folder; no input file has been moved or
    changed, and the external command has not been run. *)
Theorem Dicom_zapping_fails_after_staging
  make_archive subprocess_call dicom_folder tree (dicom_fields : dict)
  w found dirs w1 :
  GrepDicomsFromFolder dicom_folder tree = Ok found →
  createDirectories dicom_folder dicom_fields found.2 w = (Ok dirs, w1) →
  is_ok (build_modify_cmd dicom_fields) = false →
  ∃ key,
    (key = "Editable" ∨ key = "Update")
    ∧ Dicom_zapping make_archive subprocess_call dicom_folder tree
        dicom_fields w
      = (Raise (KeyError key), w1)
    ∧ path_isdir (fs w1) dirs.1 = true
    ∧ path_isdir (fs w1) dirs.2 = true
    ∧ fs w ⊆ fs w1.
Proof.
  intros Hfound Hdirs Hcmd.
  assert (Hrun : ∀ key, build_modify_cmd dicom_fields = Raise (KeyError key) →
            Dicom_zapping make_archive subprocess_call dicom_folder tree
              dicom_fields w = (Raise (KeyError key), w1)).
  { intros key Hkey. unfold Dicom_zapping.
    erewrite bind_Ok; [|unfold lift; by rewrite Hfound].
    erewrite bind_Ok; [|exact Hdirs].
    apply bind_Raise. unfold lift. by rewrite Hkey. }
  pose proof (createDirectories_Ok _ _ _ _ _ _ Hdirs)
    as (e & v & _ & _ & _ & _ & _ & Hd1 & Hd2).
  assert (Hsub : fs w ⊆ fs w1).
  { unfold createDirectories in Hdirs.
    destruct (dict_get dicom_fields "0010,0010") as [e'|]; [|done].
    destruct (Value e') as [v'|]; [|done].
    apply bind_inv_Ok in Hdirs as (u1 & w2 & Hm1 & Hdirs).
    apply bind_inv_Ok in Hdirs as (u2 & w3 & Hm2 & Hdirs).
    apply bind_inv_Ok in Hdirs as (u3 & w4 & Hloop & Hdirs).
    injection Hdirs as _ <-.
    apply mkdir_loop_spec in Hloop as (_ & Hsub & _).
    etrans; [by eapply os_mkdir_subseteq|].
    etrans; [by eapply os_mkdir_subseteq|]. done. }
  destruct (modify_loop_outcomes dicom_fields ("dcmodify ", 0) Hcmd)
    as [Hkey|Hkey].
  - exists "Editable". split; [by left|]. split; [by apply Hrun|done].
  - exists "Update". split; [by right|]. split; [by apply Hrun|done].
Qed.

Lemma Dicom_zapping_fails_after_staging_witness :
  ∃ key,
    (key = "Editable" ∨ key = "Update")
    ∧ Dicom_zapping shutil_make_archive demo_dcmodify "/data" cx9_tree
        twice_fields (init_world "/data" cx9_tree)
      = (Raise (KeyError key),
         (createDirectories "/data" twice_fields []
            (init_world "/data" cx9_tree)).2)
    ∧ path_isdir
        (fs (createDirectories "/data" twice_fields []
               (init_world "/data" cx9_tree)).2) "/data/ID01" = true
    ∧ path_isdir
        (fs (createDirectories "/data" twice_fields []
               (init_world "/data" cx9_tree)).2)
        "/data/ID01_anonymized" = true
    ∧ fs (init_world "/data" cx9_tree)
      ⊆ fs (createDirectories "/data" twice_fields []
              (init_world "/data" cx9_tree)).2.
Proof.
  apply (Dicom_zapping_fails_after_staging shutil_make_archive demo_dcmodify
           "/data" cx9_tree twice_fields (init_world "/data" cx9_tree)
           (["/data/a.dcm"], [])
           ("/data/ID01", "/data/ID01_anonymized")).
  - vm_compute. reflexivity.
  - vm_compute. reflexivity.
  - reflexivity.
Defined.

(** X12: the two pipelines hand back the same two archives in opposite
    orders.  With the patient name [v], a call of [Dicom_zapping_PyDicom]
    that returns gives [<folder>/v_anonymized.zip] first and
    [<folder>/v.zip] second, and both paths exist when it returns; a call
    of [Dicom_zapping] that returns gives [<folder>/v.zip] first and
    [<folder>/v_anonymized.zip] second. *)
Theorem pipelines_return_archives_in_opposite_orders
  make_archive subprocess_call dicom_folder tree (dicom_fields : dict) e v :
  dict_get dicom_fields "0010,0010" = Some e →
  Value e = Some v →
  (∀ w r w',
     Dicom_zapping_PyDicom make_archive dicom_folder tree dicom_fields w
     = (Ok r, w') →
     r = ((dicom_folder +:+ sep +:+ v +:+ "_anonymized") +:+ ".zip",
          (dicom_folder +:+ sep +:+ v) +:+ ".zip")
     ∧ path_exists (fs w') r.1 = true
     ∧ path_exists (fs w') r.2 = true)
  ∧ (∀ w r w',
       Dicom_zapping make_archive subprocess_call dicom_folder tree
         dicom_fields w = (Ok r, w') →
       r = ((dicom_folder +:+ sep +:+ v) +:+ ".zip",
            (dicom_folder +:+ sep +:+ v +:+ "_anonymized") +:+ ".zip")).
Proof.
  intros He Hv. split.
  - intros w r w' Hrun. unfold Dicom_zapping_PyDicom in Hrun.
    apply bind_inv_Ok in Hrun as (found & w1 & _ & Hrun).
    apply bind_inv_Ok in Hrun as (dirs & w2 & Hdirs & Hrun).
    apply createDirectories_Ok in Hdirs
      as (e' & v' & He' & Hv' & -> & _).
    rewrite He in He'. injection He' as <-.
    rewrite Hv in Hv'. injection Hv' as <-. cbn [fst snd] in Hrun.
    apply bind_inv_Ok in Hrun as (u3 & w3 & _ & Hrun).
    apply bind_inv_Ok in Hrun as (u4 & w4 & _ & Hrun).
    unfold zip_DICOM_directories in Hrun.
    apply bind_inv_Ok in Hrun as (a & w5 & Ha & Hrun).
    apply bind_inv_Ok in Hrun as (o & w6 & Ho & Hrun).
    apply bind_inv_Ok in Hrun as (zips & w7 & Hzips & Hrun).
    assert (Hz : zips
                 = ((dicom_folder +:+ sep +:+ v +:+ "_anonymized") +:+ ".zip",
                    (dicom_folder +:+ sep +:+ v) +:+ ".zip")).
    { apply (zip_both_Ok make_archive _ _
               "Failed to find original and anonymize data folders" w4 _ w7).
      unfold bind at 1. rewrite Ha. unfold bind at 1. by rewrite Ho. }
    subst zips. cbn [fst snd] in Hrun.
    apply bind_inv_Ok in Hrun as (az & w8 & Haz & Hrun).
    apply bind_inv_Ok in Hrun as (oz & w9 & Hoz & Hrun).
    unfold os_path_exists in Haz, Hoz.
    injection Haz as <- <-. injection Hoz as <- <-.
    destruct (path_exists (fs w7) _) eqn:E1 in Hrun; [|done].
    destruct (path_exists (fs w7) _) eqn:E2 in Hrun; [|done].
    cbn [andb] in Hrun.
    apply bind_inv_Ok in Hrun as (u & w10 & Hloop & Hrun).
    injection Hrun as <- <-.
    assert (w10 = w7) as ->.
    { destruct found.2; [by injection Hloop as _ <-|done]. }
    done.
  - intros w r w' Hrun. unfold Dicom_zapping in Hrun.
    apply bind_inv_Ok in Hrun as (found & w1 & _ & Hrun).
    apply bind_inv_Ok in Hrun as (dirs & w2 & Hdirs & Hrun).
    apply createDirectories_Ok in Hdirs
      as (e' & v' & He' & Hv' & -> & _).
    rewrite He in He'. injection He' as <-.
    rewrite Hv in Hv'. injection Hv' as <-. cbn [fst snd] in Hrun.
    apply bind_inv_Ok in Hrun as (cmd & w3 & _ & Hrun).
    apply bind_inv_Ok in Hrun as (u4 & w4 & _ & Hrun).
    apply bind_inv_Ok in Hrun as (a & w5 & Ha & Hrun).
    apply bind_inv_Ok in Hrun as (o & w6 & Ho & Hrun).
    apply bind_inv_Ok in Hrun as (zips & w7 & Hzips & Hrun).
    assert (Hz : zips
                 = ((dicom_folder +:+ sep +:+ v +:+ "_anonymized") +:+ ".zip",
                    (dicom_folder +:+ sep +:+ v) +:+ ".zip")).
    { apply (zip_both_Ok make_archive _ _ "Failed to anonymize data" w4 _ w7).
      unfold bind at 1. rewrite Ha. unfold bind at 1. by rewrite Ho. }
    subst zips. cbn [fst snd] in Hrun.
    apply bind_inv_Ok in Hrun as (az & w8 & _ & Hrun).
    apply bind_inv_Ok in Hrun as (oz & w9 & _ & Hrun).
    apply bind_inv_Ok in Hrun as (u & w10 & _ & Hrun).
    by injection Hrun as <- _.
Qed.

Lemma pipelines_return_archives_in_opposite_orders_witness :
  (Dicom_zapping_PyDicom shutil_make_archive "/data" cx9_tree ok1_fields
     (init_world "/data" cx9_tree)).1
  = Ok ("/data/ID01_anonymized.zip", "/data/ID01.zip")
  ∧ (Dicom_zapping shutil_make_archive demo_dcmodify "/data" cx9_tree
       ok1_fields (init_world "/data" cx9_tree)).1
    = Ok ("/data/ID01.zip", "/data/ID01_anonymized.zip").
Proof.
  destruct (pipelines_return_archives_in_opposite_orders shutil_make_archive
              demo_dcmodify "/data" cx9_tree ok1_fields _ "ID01"
              eq_refl eq_refl) as [Hlib Htool].
  destruct (Dicom_zapping_PyDicom shutil_make_archive "/data" cx9_tree
              ok1_fields (init_world "/data" cx9_tree))
    as [r1 w1] eqn:Hrun1.
  destruct (Dicom_zapping shutil_make_archive demo_dcmodify "/data" cx9_tree
              ok1_fields (init_world "/data" cx9_tree))
    as [r2 w2] eqn:Hrun2.
  assert (Hok1 : is_ok r1 = true).
  { change r1 with (r1, w1).1. rewrite <- Hrun1. vm_compute. reflexivity. }
  assert (Hok2 : is_ok r2 = true).
  { change r2 with (r2, w2).1. rewrite <- Hrun2. vm_compute. reflexivity. }
  destruct r1 as [r1| |]; [|done|done]. destruct r2 as [r2| |]; [|done|done].
  destruct (Hlib _ _ _ Hrun1) as [-> _]. rewrite (Htool _ _ _ Hrun2).
  split; reflexivity.
Defined.

(** ** The pipelines on a root directory of regular files *)

Lemma for_each_stops {A} (body : A → M unit) l1 x l2 : ∀ w w1 o w2,
  for_each l1 body w = (Ok tt, w1) →
  body x w1 = (o, w2) → is_ok o = false →
  ∃ o', for_each (l1 ++ x :: l2) body w = (o', w2)
        ∧ match o, o' with
          | Exit msg, Exit msg' => msg = msg'
          | Raise e, Raise e' => e = e'
          | _, _ => False
          end.
Proof.
  induction l1 as [|y l1 IH]; intros w w1 o w2 Hloop Hbody Hno.
  - injection Hloop as <-. cbn [app for_each]. unfold bind. rewrite Hbody.
    destruct o as [u|msg|e]; [done|by eexists|by eexists].
  - cbn [app for_each] in *. unfold bind in Hloop |- *.
    destruct (body y w) as [[u|msg|e] w0]; [|done|done].
    by apply (IH w0 w1).
Qed.

Lemma discovered_in_root files v n c :
  NoDup files.*1 →
  Forall (fun nc : string * fcontent => valid_name nc.1) files →
  v ∉ files.*1 →
  v +:+ "_anonymized" ∉ files.*1 →
  (n, c) ∈ discovered files →
  (n, c) ∈ files ∧ valid_name n
  ∧ n ≠ v ∧ n ≠ v +:+ "_anonymized"
  ∧ n ≠ v +:+ ".zip" ∧ n ≠ (v +:+ "_anonymized") +:+ ".zip".
Proof.
  intros Hnd Hvalid HvO HvA Hin.
  apply elem_of_discovered in Hin as [Hin Hpat].
  assert (Hnames : n ∈ files.*1).
  { apply list_elem_of_fmap. by exists (n, c). }
  rewrite Forall_forall in Hvalid.
  split; [done|]. split; [by apply (Hvalid (n, c))|].
  split; [by intros ->|]. split; [by intros ->|].
  split; intros ->; by rewrite zip_name_excluded in Hpat.
Qed.

Lemma flat_root_staging dicom_folder files (dicom_fields : dict) e v :
  NoDup files.*1 →
  dict_get dicom_fields "0010,0010" = Some e →
  Value e = Some v →
  valid_name v →
  v ∉ files.*1 →
  v +:+ "_anonymized" ∉ files.*1 →
  ∃ w2,
    createDirectories dicom_folder dicom_fields []
      (init_world dicom_folder (flat_tree files))
    = (Ok (dicom_folder +:+ sep +:+ v,
           dicom_folder +:+ sep +:+ v +:+ "_anonymized"), w2)
    ∧ flat_shape (split_path dicom_folder) v (v +:+ "_anonymized")
        (<[v +:+ "_anonymized" := FDir]> (<[v := FDir]> (root_entries files)))
        ∅ ∅ (fs w2).
Proof.
  intros Hnd Hget Hval Hv HvO HvA.
  set (vA := v +:+ "_anonymized") in *.
  assert (HvA_ok : valid_name vA) by by apply valid_name_app.
  assert (HOA : v ≠ vA) by (unfold vA; by_length).
  pose proof (init_world_flat_shape dicom_folder v vA files) as Hs0.
  destruct (mkdir_root_run dicom_folder v vA (root_entries files) ∅ ∅
              (init_world dicom_folder (flat_tree files)) v Hs0 Hv)
    as (w1 & Hmk1 & _ & Hs1).
  { by apply (root_entries_lookup files v Hnd). }
  destruct (mkdir_root_run dicom_folder v vA _ ∅ ∅ w1 vA Hs1 HvA_ok)
    as (w2 & Hmk2 & _ & Hs2).
  { rewrite lookup_insert_ne by done.
    by apply (root_entries_lookup files vA Hnd). }
  exists w2. split; [|done].
  unfold createDirectories. rewrite Hget, Hval.
  erewrite bind_Ok; [|exact Hmk1].
  erewrite bind_Ok; [|exact Hmk2]. reflexivity.
Qed.

Lemma NoDup_fst_app_l {A B} (l1 l2 : list (A * B)) :
  NoDup (l1 ++ l2).*1 → NoDup l1.*1.
Proof. rewrite fmap_app. by intros [? _]%NoDup_app. Qed.



(** ** The toolkit pipeline when no field is to be modified *)

(** One iteration of the loop of [Dicom_zapping] when the command changes
    no field: the file goes to the original-files directory. *)
Lemma move_file_run dicom_folder vO vA R Oc Ac w n c :
  is_empty_string dicom_folder || ends_with sep dicom_folder = false →
  valid_name vO → vO ≠ vA →
  flat_shape (split_path dicom_folder) vO vA R Oc Ac (fs w) →
  valid_name n →
  occurs dicom_folder (sep +:+ n) = false →
  R !! n = Some (FFile c) →
  R !! vO = Some FDir →
  Oc !! n = None →
  ∃ w',
    shutil_move (path_join dicom_folder n)
      (str_replace (path_join dicom_folder n) dicom_folder
         (dicom_folder +:+ sep +:+ vO)) w
    = (Ok tt, w')
    ∧ flat_shape (split_path dicom_folder) vO vA (delete n R)
        (<[n := c]> Oc) Ac (fs w').
Proof.
  intros Hfolder HvO HOA Hs Hn Hocc HRn HRO HOn.
  set (base := split_path dicom_folder) in *.
  rewrite (path_join_child dicom_folder n Hfolder Hn).
  rewrite str_replace_prefix; [|by destruct dicom_folder|done].
  assert (Hsrc : resolve (dicom_folder +:+ sep +:+ n) = Some (base ++ [n]))
    by by apply resolve_child.
  assert (Hdst : resolve ((dicom_folder +:+ sep +:+ vO) +:+ sep +:+ n)
                 = Some (base ++ [vO; n]))
    by by apply resolve_grandchild.
  assert (HOk : fs w !! (base ++ [vO; n]) = None).
  { by rewrite (flat_shape_O _ _ _ _ _ _ _ n Hs), HOn. }
  eexists. split.
  - unfold shutil_move. erewrite bind_Ok; [|reflexivity].
    unfold path_isdir, node_at. rewrite Hdst, HOk.
    unfold rename_file.
    rewrite (samefile_ne _ _ _ (base ++ [n]) (base ++ [vO; n]));
      [|done|done|]; cycle 1.
    { intros H%app_inv_head. done. }
    erewrite bind_Ok; [|by eapply read_content_run;
      [exact Hsrc|rewrite (flat_shape_root _ _ _ _ _ _ _ _ Hs)]].
    erewrite bind_Ok; cycle 1.
    { apply write_file_run; [exact Hdst|by rewrite HOk|].
      unfold parent. change (base ++ [vO; n]) with (base ++ [vO] ++ [n]).
      rewrite app_assoc, removelast_last.
      by rewrite (flat_shape_root _ _ _ _ _ _ _ _ Hs). }
    eapply os_unlink_run; [exact Hsrc|]. simpl.
    rewrite lookup_insert_ne by (intros H%app_inv_head; done).
    by rewrite (flat_shape_root _ _ _ _ _ _ _ _ Hs).
  - simpl. apply flat_shape_delete_root, flat_shape_insert_O; [done..|].
    exact Hs.
Qed.

Lemma move_loop_run dicom_folder vO vA (D : list (string * fcontent)) :
  is_empty_string dicom_folder || ends_with sep dicom_folder = false →
  valid_name vO → vO ≠ vA →
  ∀ w R Oc Ac,
  NoDup D.*1 →
  flat_shape (split_path dicom_folder) vO vA R Oc Ac (fs w) →
  R !! vO = Some FDir →
  (∀ n c, (n, c) ∈ D →
          valid_name n ∧ occurs dicom_folder (sep +:+ n) = false
          ∧ R !! n = Some (FFile c) ∧ Oc !! n = None) →
  ∃ w' R',
    for_each D (fun nc =>
      shutil_move (path_join dicom_folder nc.1)
        (str_replace (path_join dicom_folder nc.1) dicom_folder
           (dicom_folder +:+ sep +:+ vO))) w
    = (Ok tt, w')
    ∧ flat_shape (split_path dicom_folder) vO vA R' (list_to_map D ∪ Oc) Ac
        (fs w')
    ∧ (∀ x, R' !! x = if decide (x ∈ D.*1) then None else R !! x).
Proof.
  intros Hfolder HvO HOA.
  induction D as [|[n c] D IH]; intros w R Oc Ac Hnd Hs HRO Hall.
  - exists w, R. simpl. rewrite (left_id_L ∅ (∪)). by repeat split.
  - apply NoDup_cons in Hnd as [Hn Hnd]. cbn [fmap list_fmap fst] in Hn.
    destruct (Hall n c) as (Hvn & Hocc & HRn & HOn);
      [apply elem_of_cons; by left|].
    destruct (move_file_run dicom_folder vO vA R Oc Ac w n c
                Hfolder HvO HOA Hs Hvn Hocc HRn HRO HOn) as (w1 & Hbody & Hs1).
    assert (HnO : n ≠ vO) by congruence.
    destruct (IH w1 (delete n R) (<[n := c]> Oc) Ac Hnd Hs1)
      as (w' & R' & Hloop & Hs' & HR').
    { by rewrite lookup_delete_ne. }
    { intros n' c' Hin.
      assert (Hne : n ≠ n').
      { intros ->. apply Hn. apply list_elem_of_fmap. by exists (n', c'). }
      destruct (Hall n' c') as (? & ? & ? & ?);
        [apply elem_of_cons; by right|].
      rewrite lookup_delete_ne, lookup_insert_ne by done. done. }
    exists w', R'. split; [|split].
    + cbn [for_each fst]. by erewrite bind_Ok; [exact Hloop|exact Hbody].
    + assert (Hfresh : (list_to_map D : gmap string fcontent) !! n = None)
        by by apply not_elem_of_list_to_map_1.
      cbn [list_to_map foldr fst snd].
      fold (list_to_map D : gmap string fcontent).
      rewrite <- insert_union_l, (insert_union_r _ _ _ _ Hfresh). done.
    + intros x. rewrite HR'. cbn [fmap list_fmap fst].
      destruct (decide (x ∈ D.*1)) as [Hx|Hx];
        destruct (decide (x ∈ n :: D.*1)) as [Hx'|Hx']; try done.
      * destruct Hx'. apply elem_of_cons. by right.
      * apply elem_of_cons in Hx' as [->|?]; [|done].
        by rewrite lookup_delete_eq.
      * rewrite lookup_delete_ne; [done|]. intros ->. apply Hx'.
        apply elem_of_cons. by left.
Qed.

Lemma listdir_empty_staging dicom_folder vO vA R Oc w :
  valid_name vA → vO ≠ vA →
  flat_shape (split_path dicom_folder) vO vA R Oc ∅ (fs w) →
  R !! vA = Some FDir →
  os_listdir (dicom_folder +:+ sep +:+ vA) w = (Ok [], w).
Proof.
  intros HvA HOA Hs HRA. unfold os_listdir.
  rewrite (resolve_child dicom_folder vA HvA).
  rewrite (flat_shape_root _ _ _ _ _ _ _ _ Hs), HRA.
  destruct (children_names (fs w) (split_path dicom_folder ++ [vA]))
    as [|n l] eqn:E; [done|].
  exfalso. assert (Hin : n ∈ children_names (fs w)
                               (split_path dicom_folder ++ [vA])).
  { rewrite E. by left. }
  apply elem_of_children_names in Hin. rewrite <- app_assoc in Hin.
  cbn [app] in Hin.
  rewrite (flat_shape_A _ _ _ _ _ _ _ n HOA Hs), lookup_empty in Hin.
  by destruct Hin.
Qed.


